(** * Housing-data notebooks: a shallow embedding and its properties

    The repository holds three tutorial notebooks.  Two of them generate a
    synthetic housing dataset from a TOML configuration (a tiered variant
    with range strings such as ["100000-200000"], and a flat variant with an
    explicit [type] field per attribute); the third loads such a dataset
    into SQLite.  This file embeds the Python functions of those notebooks
    and proves what they do.

    Conventions:
    - Python [int] is [Z]; [str] is [string] (ASCII characters);
    - a Python [dict] is an association list kept in insertion order;
    - code that can raise returns a [result]; code that draws random
      numbers threads the state of the generator (monad [M]);
    - [random], [numpy.random], [pandas], [csv] and the database engine are
      libraries outside the repository: the parts the notebooks call are
      modelled from their documented behaviour (CPython 3.10). *)

From Stdlib Require Import ZArith List String Ascii Bool Lia.
Import ListNotations.
Local Open Scope string_scope.
Local Open Scope list_scope.
Local Open Scope Z_scope.
Set Warnings "-register-all".

(* ================================================================== *)
(** * Python values, exceptions and builtins                           *)
(* ================================================================== *)

(** Values that a TOML document can hold once decoded, plus [None].
    TOML floats and date-times are left out: no configuration of the
    notebooks uses them. *)
Inductive pyval : Type :=
| PNone
| PBool (b : bool)
| PInt (z : Z)
| PStr (s : string)
| PList (l : list pyval)
| PDict (d : list (string * pyval)).

Inductive exn : Type :=
| ValueError
| TypeError
| IndexError
| OverflowError
| KeyError (key : pyval)
| TOMLDecodeError
| AttributeError
| OperationalError (msg : string)
| OtherDatabaseError (msg : string).

Inductive result (A : Type) : Type :=
| Ok (a : A)
| Raise (e : exn).
Arguments Ok {A} a.
Arguments Raise {A} e.

Definition result_bind {A B} (r : result A) (k : A -> result B) : result B :=
  match r with
  | Ok a => k a
  | Raise e => Raise e
  end.

(** A comprehension [[f(x) for x in l]]: left to right, the first
    exception ends it. *)
Fixpoint result_map {A B} (f : A -> result B) (l : list A) : result (list B) :=
  match l with
  | [] => Ok []
  | x :: r =>
      result_bind (f x) (fun y =>
      result_bind (result_map f r) (fun ys => Ok (y :: ys)))
  end.

(** ** Dictionaries (insertion ordered) *)

Definition dict (V : Type) : Type := list (string * V).

Definition dict_keys {V} (d : dict V) : list string := map fst d.

Fixpoint dict_lookup {V} (d : dict V) (k : string) : option V :=
  match d with
  | [] => None
  | (k', v) :: r => if String.eqb k' k then Some v else dict_lookup r k
  end.

(** [d[k]] *)
Definition dict_getitem {V} (d : dict V) (k : string) : result V :=
  match dict_lookup d k with
  | Some v => Ok v
  | None => Raise (KeyError (PStr k))
  end.

(** [d.get(k)] *)
Definition dict_get (d : dict pyval) (k : string) : pyval :=
  match dict_lookup d k with
  | Some v => v
  | None => PNone
  end.

(** [d[k] = v]: an existing key keeps its position, a new key goes last. *)
Fixpoint dict_setitem {V} (d : dict V) (k : string) (v : V) : dict V :=
  match d with
  | [] => [(k, v)]
  | (k', v') :: r =>
      if String.eqb k' k then (k', v) :: r else (k', v') :: dict_setitem r k v
  end.

(** [v == "literal"] *)
Definition eq_str (v : pyval) (s : string) : bool :=
  match v with
  | PStr s' => String.eqb s' s
  | _ => false
  end.

(** ** Strings and integers *)

Definition dash : ascii := "-"%char.

(** [s.split("-")]: one piece more than there are dashes. *)
Fixpoint split_dash (s : string) : list string :=
  match s with
  | EmptyString => [EmptyString]
  | String c r =>
      if Ascii.eqb c dash then EmptyString :: split_dash r
      else match split_dash r with
           | p :: ps => String c p :: ps
           | [] => [String c EmptyString]
           end
  end.

(** Whitespace that [int()] strips from an ASCII string: tab to carriage
    return, and the space. *)
Definition is_space (c : ascii) : bool :=
  let n := nat_of_ascii c in
  ((9 <=? n) && (n <=? 13) || (n =? 32))%nat.

Definition is_digit (c : ascii) : bool :=
  let n := nat_of_ascii c in ((48 <=? n) && (n <=? 57))%nat.

Definition digit_val (c : ascii) : Z := Z.of_nat (nat_of_ascii c) - 48.

Fixpoint all_digits (s : string) : bool :=
  match s with
  | EmptyString => true
  | String c r => is_digit c && all_digits r
  end.

Fixpoint lstrip (s : string) : string :=
  match s with
  | EmptyString => EmptyString
  | String c r => if is_space c then lstrip r else s
  end.

Fixpoint rstrip (s : string) : string :=
  match s with
  | EmptyString => EmptyString
  | String c r =>
      match rstrip r with
      | EmptyString => if is_space c then EmptyString else String c EmptyString
      | r' => String c r'
      end
  end.

(** The digits of an integer literal, most significant first; single
    underscores may separate digits.  [after_digit] says whether the
    previous character was a digit. *)
Fixpoint int_digits (after_digit : bool) (acc : Z) (s : string) : option Z :=
  match s with
  | EmptyString => if after_digit then Some acc else None
  | String c r =>
      if is_digit c then int_digits true (10 * acc + digit_val c) r
      else if Ascii.eqb c "_"%char && after_digit then int_digits false acc r
      else None
  end.

(** [int(s)] for a string, base ten: optional white space around an
    optional sign and the digits.  This is [int()] on ASCII strings; the
    decimal digits and the white space of other scripts, which [int()]
    reads too, are not modelled (see [is_ascii]). *)
Definition int_of_str (s : string) : result Z :=
  let signed :=
    match rstrip (lstrip s) with
    | String c r =>
        if Ascii.eqb c dash then option_map Z.opp (int_digits false 0 r)
        else if Ascii.eqb c "+"%char then int_digits false 0 r
        else int_digits false 0 (String c r)
    | EmptyString => None
    end in
  match signed with
  | Some z => Ok z
  | None => Raise ValueError
  end.

Definition digit_char (d : Z) : ascii := ascii_of_nat (48 + Z.to_nat d).

(** Decimal digits of [n >= 0] pushed in front of [acc]; [fuel] bounds the
    number of digits. *)
Fixpoint str_of_digits (fuel : nat) (n : Z) (acc : string) : string :=
  match fuel with
  | O => acc
  | S f =>
      let acc' := String (digit_char (n mod 10)) acc in
      if n <? 10 then acc' else str_of_digits f (n / 10) acc'
  end.

Definition str_of_nonneg (n : Z) : string :=
  str_of_digits (S (Z.to_nat (Z.log2 n))) n EmptyString.

(** [str(z)], also what an f-string writes for [{z}]. *)
Definition str_of_int (z : Z) : string :=
  if z <? 0 then String dash (str_of_nonneg (- z)) else str_of_nonneg z.

(** [min(l)] and [max(l)] of a list of integers. *)
Definition py_min (l : list Z) : result Z :=
  match l with
  | [] => Raise ValueError
  | x :: r => Ok (fold_left Z.min r x)
  end.

Definition py_max (l : list Z) : result Z :=
  match l with
  | [] => Raise ValueError
  | x :: r => Ok (fold_left Z.max r x)
  end.

(** Quotient and remainder with the quotient rounded to nearest, ties to
    the even quotient (CPython's [_PyLong_DivmodNear]), for [b > 0]. *)
Definition divmod_near (a b : Z) : Z * Z :=
  let q := a / b in
  let r := a mod b in
  if (b <? 2 * r) || ((2 * r =? b) && Z.odd q) then (q + 1, r - b) else (q, r).

(** [round(n, ndigits)] on an [int]. *)
Definition int_round (n ndigits : Z) : Z :=
  if 0 <=? ndigits then n else n - snd (divmod_near n (10 ^ (- ndigits))).


(* ================================================================== *)
(** * The random number generators                                     *)
(* ================================================================== *)

(** The process-wide generators of [random] and [numpy.random], as one
    state.  [randbelow n] is [Random._randbelow(n)] for [n > 0]: some
    integer below [n], and the generator moves on.  [seed] is what the
    caller's [random.seed(s); numpy.random.seed(s)] leaves behind.
    Floating point is kept abstract: [np_normal loc scale] is
    [numpy.random.normal(loc, scale, size=1)[0]], [np_round] is [round] on
    a numpy float and [float_int] is [int()]; the one fact assumed of them
    is that a normal sample with 64-bit integer parameters is finite, so
    that rounding and truncating it succeeds. *)
Class Randomness : Type := {
  rng : Type;
  seed : Z -> rng;
  randbelow : Z -> rng -> Z * rng;
  randbelow_range : forall n g, 0 < n -> 0 <= fst (randbelow n g) < n;
  npfloat : Type;
  np_normal : pyval -> pyval -> rng -> result npfloat * rng;
  np_round : npfloat -> Z -> npfloat;
  float_int : npfloat -> result Z;
  normal_finite : forall loc scale g,
      - 2 ^ 63 <= loc < 2 ^ 63 -> 0 <= scale < 2 ^ 63 ->
      exists x z, fst (np_normal (PInt loc) (PInt scale) g) = Ok x
                  /\ float_int (np_round x (-3)) = Ok z
}.

Section Generators.
Context {R : Randomness}.

(** Computations that draw random numbers and may raise. *)
Definition M (A : Type) : Type := rng -> result A * rng.

Definition ret {A} (a : A) : M A := fun g => (Ok a, g).

Definition raise {A} (e : exn) : M A := fun g => (Raise e, g).

Definition bind {A B} (m : M A) (k : A -> M B) : M B :=
  fun g =>
    match m g with
    | (Ok a, g') => k a g'
    | (Raise e, g') => (Raise e, g')
    end.

Definition lift {A} (r : result A) : M A := fun g => (r, g).

(** [random.randrange(start, stop)] on integers. *)
Definition randrange (start stop : Z) : M Z :=
  let width := stop - start in
  if 0 <? width
  then fun g => (Ok (start + fst (randbelow width g)), snd (randbelow width g))
  else raise ValueError.

(** [random.randint(a, b)] on integers. *)
Definition randint (a b : Z) : M Z := randrange a (b + 1).

(** Booleans count as the integers 0 and 1. *)
Definition as_index (v : pyval) : option Z :=
  match v with
  | PInt z => Some z
  | PBool b => Some (Z.b2z b)
  | _ => None
  end.

(** [randint(a, b)] on arbitrary values: [b + 1] is computed first (a
    [TypeError] unless [b] is a number), then [a] is converted, where a
    string is a [ValueError] and anything else not a number a
    [TypeError]. *)
Definition randint_args (a b : pyval) : M Z :=
  match as_index b with
  | None => raise TypeError
  | Some hi =>
      match a with
      | PStr _ => raise ValueError
      | _ => match as_index a with
             | Some lo => randint lo hi
             | None => raise TypeError
             end
      end
  end.

(** [random.choice(seq)] on a list: [seq[_randbelow(len(seq))]]; on an
    empty list nothing is drawn and [seq[0]] raises. *)
Definition choice {A} (seq : list A) : M A :=
  match seq with
  | [] => raise IndexError
  | _ :: _ =>
      fun g =>
        let n := Z.of_nat (List.length seq) in
        (match nth_error seq (Z.to_nat (fst (randbelow n g))) with
         | Some v => Ok v
         | None => Raise IndexError
         end, snd (randbelow n g))
  end.

(** [random.choice] on arbitrary values: a string is a sequence of
    one-character strings, a dict is indexed with an integer it does not
    have as a key, and the rest has no [len()]. *)
Definition choice_args (seq : pyval) : M pyval :=
  match seq with
  | PList l => choice l
  | PStr s =>
      choice (map (fun c => PStr (String c EmptyString)) (list_ascii_of_string s))
  | PDict [] => raise (KeyError (PInt 0))
  | PDict d =>
      fun g =>
        let n := Z.of_nat (List.length d) in
        (Raise (KeyError (PInt (fst (randbelow n g)))), snd (randbelow n g))
  | _ => raise TypeError
  end.

End Generators.

Declare Scope py_scope.
Notation "x <- m ;; k" := (bind m (fun x => k))
  (at level 61, m at next level, right associativity) : py_scope.
Local Open Scope py_scope.

(* ================================================================== *)
(** * pandas and csv                                                   *)
(* ================================================================== *)

(** A frame with the default index [0 .. len-1]: the column labels and
    the rows, a missing cell ([NaN]) being [None]. *)
Record DataFrame : Type := {
  columns : list string;
  rows : list (list (option pyval))
}.

(** [len(df)] *)
Definition df_len (df : DataFrame) : Z := Z.of_nat (List.length (rows df)).

Definition add_label (acc : list string) (k : string) : list string :=
  if existsb (String.eqb k) acc then acc else acc ++ [k].

(** Labels of a list of records, in the order in which they first
    appear. *)
Definition record_labels (records : list (dict pyval)) : list string :=
  fold_left (fun acc r => fold_left add_label (dict_keys r) acc) records [].

(** [pd.DataFrame(records)] for a list of dicts: one row per record. *)
Definition DataFrame_of_records (records : list (dict pyval)) : DataFrame :=
  let labels := record_labels records in
  {| columns := labels;
     rows := map (fun r => map (dict_lookup r) labels) records |}.

(** [pd.DataFrame(cols)] for a dict of lists: one column per key; the
    lists must have one length, which is the number of rows; no key, no
    row. *)
Definition DataFrame_of_columns (cols : dict (list pyval)) : result DataFrame :=
  match cols with
  | [] => Ok {| columns := []; rows := [] |}
  | (_, first) :: _ =>
      let n := List.length first in
      if forallb (fun kv => Nat.eqb (List.length (snd kv)) n) cols
      then Ok {| columns := dict_keys cols;
                 rows := map (fun i => map (fun kv => nth_error (snd kv) i) cols)
                             (seq 0 n) |}
      else Raise ValueError
  end.

(** Cell of the first column labelled [label] in a row. *)
Fixpoint row_cell (labels : list string) (row : list (option pyval))
    (label : string) : option (option pyval) :=
  match labels, row with
  | l :: ls, c :: cs => if String.eqb l label then Some c else row_cell ls cs label
  | _, _ => None
  end.

(** A row with the cells of every column labelled [label] replaced. *)
Fixpoint row_replace (labels : list string) (row : list (option pyval))
    (label : string) (v : option pyval) : list (option pyval) :=
  match labels, row with
  | l :: ls, c :: cs =>
      (if String.eqb l label then v else c) :: row_replace ls cs label v
  | _, _ => row
  end.

(** [df[label] = values] for a list: the list must be as long as the
    frame, except that a frame without rows takes the length of a
    non-empty list, its other cells being [NaN]. *)
Definition df_setitem (df : DataFrame) (label : string) (values : list pyval)
  : result DataFrame :=
  let old_rows :=
    match rows df, values with
    | [], _ :: _ => map (fun _ => map (fun _ => None) (columns df)) values
    | _, _ => rows df
    end in
  if Nat.eqb (List.length values) (List.length old_rows) then
    if existsb (String.eqb label) (columns df) then
      Ok {| columns := columns df;
            rows := map (fun rv => row_replace (columns df) (fst rv) label (Some (snd rv)))
                        (combine old_rows values) |}
    else
      Ok {| columns := columns df ++ [label];
            rows := map (fun rv => fst rv ++ [Some (snd rv)]) (combine old_rows values) |}
  else Raise ValueError.

(** ** Writing CSV (csv.writer, minimal quoting, line terminator LF) *)

Definition quotechar : ascii := ascii_of_nat 34.
Definition newline : ascii := ascii_of_nat 10.
Definition comma : ascii := ","%char.

Fixpoint needs_quote (s : string) : bool :=
  match s with
  | EmptyString => false
  | String c r =>
      Ascii.eqb c comma || Ascii.eqb c quotechar || Ascii.eqb c newline
      || needs_quote r
  end.

Fixpoint double_quotes (s : string) : string :=
  match s with
  | EmptyString => EmptyString
  | String c r =>
      if Ascii.eqb c quotechar then String c (String c (double_quotes r))
      else String c (double_quotes r)
  end.

Definition csv_field (s : string) : string :=
  if needs_quote s
  then String quotechar (String.append (double_quotes s) (String quotechar EmptyString))
  else s.

Fixpoint join_comma (fields : list string) : string :=
  match fields with
  | [] => EmptyString
  | [f] => f
  | f :: r => String.append f (String comma (join_comma r))
  end.

(** [writer.writerow(fields)]: a row of one empty field is written as a
    pair of quotes, a row of no field as an empty line. *)
Definition csv_writerow (fields : list string) : string :=
  match fields with
  | [EmptyString] => String quotechar (String quotechar (String newline EmptyString))
  | _ => String.append (join_comma (map csv_field fields)) (String newline EmptyString)
  end.

Section ToCsv.
(** How pandas prints one cell depends on the column's dtype; it is a
    parameter here. *)
Variable fmt : option pyval -> string.

(** [df.to_csv(index=index)]: the header, then one line per row; with
    [index] every line starts with the row's index, the header with an
    empty label. *)
Definition to_csv (index : bool) (df : DataFrame) : string :=
  let header := if index then EmptyString :: columns df else columns df in
  let line (ir : nat * list (option pyval)) :=
    if index then str_of_int (Z.of_nat (fst ir)) :: map fmt (snd ir)
    else map fmt (snd ir) in
  String.concat EmptyString
    (map csv_writerow
       (header :: map line (combine (seq 0 (List.length (rows df))) (rows df)))).
End ToCsv.

(* ================================================================== *)
(** * Loading the configuration                                        *)
(* ================================================================== *)

(** Both notebooks load [config/housing.toml] with [tomli.load] and use
    the result as it is.  The file is given by what the decoder makes of
    it: a syntax error, or a document of sections (tier, or attribute),
    each a table. *)
Inductive toml_file : Type :=
| Malformed
| Document (doc : dict (dict pyval)).

Definition tomli_load (file_obj : toml_file) : result (dict (dict pyval)) :=
  match file_obj with
  | Malformed => Raise TOMLDecodeError
  | Document doc => Ok doc
  end.

(* ================================================================== *)
(** * Notebook: build a test data set (tiered configuration)           *)
(* ================================================================== *)

Section BuildTiered.
Context {R : Randomness}.

Definition get_randint_from_range_str (range_str : string) : M Z :=
  range_list <- lift (result_map int_of_str (split_dash range_str)) ;;
  min_value <- lift (py_min range_list) ;;
  max_value <- lift (py_max range_list) ;;
  rand_int <- randint min_value max_value ;;
  ret (if rand_int <=? 100000 then rand_int else int_round rand_int (-3)).

Definition get_random_tier_config (housing_config : dict (dict pyval))
  : M (dict pyval) :=
  let tiers := dict_keys housing_config in
  random_tier <- choice tiers ;;
  tier_config <- lift (dict_getitem housing_config random_tier) ;;
  ret tier_config.

(** The body of the loop [for housing_attribute in config]. *)
Definition one_row_body (config : dict pyval) (housing_attribute : string)
    (new_row : dict pyval) : M (dict pyval) :=
  housing_attribute_value <- lift (dict_getitem config housing_attribute) ;;
  new_row <-
    match housing_attribute_value with
    | PStr range_str =>
        v <- get_randint_from_range_str range_str ;;
        ret (dict_setitem new_row housing_attribute (PInt v))
    | _ => ret new_row
    end ;;
  match housing_attribute_value with
  | PList l =>
      v <- choice l ;;
      ret (dict_setitem new_row housing_attribute v)
  | _ => ret new_row
  end.

(** The loop, over the keys still to visit. *)
Fixpoint one_row_loop (attributes : list string) (config new_row : dict pyval)
  : M (dict pyval) :=
  match attributes with
  | [] => ret new_row
  | housing_attribute :: rest =>
      new_row <- one_row_body config housing_attribute new_row ;;
      one_row_loop rest config new_row
  end.

Definition generate_one_row_random_house_data (config : dict pyval)
  : M (dict pyval) :=
  one_row_loop (dict_keys config) config [].

(** The body of [for i in range(row_size)]. *)
Fixpoint housing_rows_loop (n : nat) (housing_config : dict (dict pyval))
    (df_rows : list (dict pyval)) : M (list (dict pyval)) :=
  match n with
  | O => ret df_rows
  | S n' =>
      tier_config <- get_random_tier_config housing_config ;;
      new_row <- generate_one_row_random_house_data tier_config ;;
      housing_rows_loop n' housing_config (df_rows ++ [new_row])
  end.

Definition generate_housing_df (housing_config : dict (dict pyval))
    (row_size : Z) : M DataFrame :=
  df_rows <- housing_rows_loop (Z.to_nat row_size) housing_config [] ;;
  ret (DataFrame_of_records df_rows).

End BuildTiered.

(* ================================================================== *)
(** * Notebook: build a test CSV (flat configuration, explicit types)  *)
(* ================================================================== *)

Section BuildFlat.
Context {R : Randomness}.

Definition build_random_housing_column_value (attribute : dict pyval)
  : M pyval :=
  type <- lift (dict_getitem attribute "type") ;;
  if eq_str type "min_max" then
    min <- lift (dict_getitem attribute "min") ;;
    max <- lift (dict_getitem attribute "max") ;;
    v <- randint_args min max ;;
    ret (PInt v)
  else if eq_str (dict_get attribute "type") "bool" then
    choice [PBool true; PBool false]
  else if eq_str (dict_get attribute "type") "dist" then
    mean <- lift (dict_getitem attribute "mean") ;;
    sd <- lift (dict_getitem attribute "sd") ;;
    sample_price <- np_normal mean sd ;;
    v <- lift (float_int (np_round sample_price (-3))) ;;
    ret (PInt v)
  else if eq_str (dict_get attribute "type") "list" then
    l <- lift (dict_getitem attribute "list") ;;
    choice_args l
  else
    ret PNone.

(** [[build_random_housing_column_value(column_config) for i in
    range(0, sample_size)]] *)
Fixpoint column_values (n : nat) (column_config : dict pyval) : M (list pyval) :=
  match n with
  | O => ret []
  | S n' =>
      v <- build_random_housing_column_value column_config ;;
      vs <- column_values n' column_config ;;
      ret (v :: vs)
  end.

(** The body of [for col in housing_config]. *)
Fixpoint housing_cols_loop (cols : list string) (housing_config : dict (dict pyval))
    (sample_size : Z) (df_cols : dict (list pyval)) : M (dict (list pyval)) :=
  match cols with
  | [] => ret df_cols
  | col :: rest =>
      column_config <- lift (dict_getitem housing_config col) ;;
      values <- column_values (Z.to_nat sample_size) column_config ;;
      housing_cols_loop rest housing_config sample_size
                        (dict_setitem df_cols col values)
  end.

(** [housing_config] is a global of the notebook; it is a parameter
    here. *)
Definition generate_housing_data_df (housing_config : dict (dict pyval))
    (sample_size : Z) : M DataFrame :=
  df_cols <- housing_cols_loop (dict_keys housing_config) housing_config
                               sample_size [] ;;
  lift (DataFrame_of_columns df_cols).

End BuildFlat.

(* ================================================================== *)
(** * Notebook: create an SQLite database                              *)
(* ================================================================== *)

(** [[f"prop_{i}" for i in range(n)]] *)
Definition market_ids (n : Z) : list pyval :=
  map (fun i => PStr (String.append "prop_" (str_of_int (Z.of_nat i))))
      (seq 0 (Z.to_nat n)).

(** [df["market_id"] = [f"prop_{i}" for i in range(len(df))]] *)
Definition add_market_id (df : DataFrame) : result DataFrame :=
  df_setitem df "market_id" (market_ids (df_len df)).

(** The mapped class of table [housing_market]; [market_id] is its
    primary key. *)
Record HousingMarket : Type := {
  market_id : option pyval;
  price : option pyval;
  bedrooms : option pyval;
  bathrooms : option pyval;
  estate_agent_code : option pyval;
  transport_link_code : option pyval;
  council_tax : option pyval;
  freehold : option pyval;
  garage : option pyval;
  parking : option pyval
}.

(** [row.name] on a row of [df.iterrows()]. *)
Definition row_attr (labels : list string) (row : list (option pyval))
    (name : string) : result (option pyval) :=
  match row_cell labels row name with
  | Some c => Ok c
  | None => Raise AttributeError
  end.

Definition house_item (labels : list string) (row : list (option pyval))
  : result HousingMarket :=
  let attr := row_attr labels row in
  result_bind (attr "market_id") (fun a0 =>
  result_bind (attr "price") (fun a1 =>
  result_bind (attr "bedrooms") (fun a2 =>
  result_bind (attr "bathrooms") (fun a3 =>
  result_bind (attr "estate_agent_code") (fun a4 =>
  result_bind (attr "transport_link_code") (fun a5 =>
  result_bind (attr "council_tax") (fun a6 =>
  result_bind (attr "freehold") (fun a7 =>
  result_bind (attr "garage") (fun a8 =>
  result_bind (attr "parking") (fun a9 =>
  Ok {| market_id := a0; price := a1; bedrooms := a2; bathrooms := a3;
        estate_agent_code := a4; transport_link_code := a5;
        council_tax := a6; freehold := a7; garage := a8;
        parking := a9 |})))))))))).

(** The objects that the loop over [df.iterrows()] collects for
    [session.add_all]. *)
Definition db_rows (df : DataFrame) : result (list HousingMarket) :=
  result_map (house_item (columns df)) (rows df).

(** The database behind the engine: executing a statement changes the
    connection and may raise. *)
Class Engine : Type := {
  conn : Type;
  execute : string -> conn -> result unit * conn
}.

Section DropTables.
Context {E : Engine}.

(** The connection and what [print] has written so far.  What the
    engine logs with [echo=True] and what leaving the [with Session]
    block does to the connection are not modelled. *)
Definition world : Type := (conn * list string)%type.

Definition drop_tables (table_name : string) (w : world) : result unit * world :=
  let str_sql := String.append "drop table " table_name in
  match execute str_sql (fst w) with
  | (Ok _, c) => (Ok tt, (c, snd w))
  | (Raise (OperationalError e), c) => (Ok tt, (c, snd w ++ [e]))
  | (Raise other, c) => (Raise other, (c, snd w))
  end.

End DropTables.

(* ================================================================== *)
(** * Concrete generators and a concrete database                      *)
(* ================================================================== *)

(** A small linear congruential generator stands for the Mersenne
    Twister: [randbelow n] reads the state modulo [n].  Its floats are
    integers, its normal sample the mean moved by a few deviations. *)
Definition lcg_next (g : Z) : Z := (1103515245 * g + 12345) mod 2 ^ 31.

Definition lcg_randbelow (n g : Z) : Z * Z := (g mod n, lcg_next g).

Definition lcg_normal (loc scale : pyval) (g : Z) : result Z * Z :=
  match loc, scale with
  | PInt m, PInt s =>
      if s <? 0 then (Raise ValueError, g)
      else (Ok (m + s * (g mod 7 - 3)), lcg_next g)
  | _, _ => (Raise TypeError, g)
  end.

(** A database that is the list of its tables. *)
Fixpoint strip_prefix (p s : string) : option string :=
  match p, s with
  | EmptyString, _ => Some s
  | String a p', String b s' => if Ascii.eqb a b then strip_prefix p' s' else None
  | _, _ => None
  end.

Definition tables_execute (stmt : string) (tables : list string)
  : result unit * list string :=
  match strip_prefix "drop table " stmt with
  | Some t =>
      if existsb (String.eqb t) tables
      then (Ok tt, filter (fun t' => negb (String.eqb t t')) tables)
      else (Raise (OperationalError (String.append "no such table: " t)), tables)
  | None => (Raise (OtherDatabaseError stmt), tables)
  end.

#[export] Instance tables_engine : Engine :=
  {| conn := list string; execute := tables_execute |}.

#[export] Instance lcg : Randomness :=
  {| rng := Z;
     seed := Z.abs;
     randbelow := lcg_randbelow;
     randbelow_range := fun n g H => Z.mod_pos_bound g n H;
     npfloat := Z;
     np_normal := lcg_normal;
     np_round := int_round;
     float_int := fun x => Ok x;
     normal_finite :=
       ltac:(intros loc scale g _ Hs; unfold lcg_normal;
             destruct (Z.ltb_spec scale 0); [lia|];
             cbn [fst]; eexists; eexists; split; reflexivity) |}.

(** ** The configurations shown in the notebooks, and some others *)

(** Tier 1 of the tiered [config/housing.toml]. *)
Definition tier_1 : dict pyval :=
  [("price", PStr "100000-200000");
   ("bedrooms", PStr "1-3");
   ("bathrooms", PStr "1-3");
   ("estate_agent_code", PStr "1-5");
   ("transport_link_code", PStr "1-8");
   ("council_tax", PList [PStr "A"; PStr "B"; PStr "C"]);
   ("freehold", PList [PBool true; PBool false]);
   ("garage", PList [PBool false]);
   ("parking", PList [PBool true; PBool false])].

Definition housing_tiered : dict (dict pyval) := [("tier-1", tier_1)].

(** The flat [config/housing.toml]. *)
Definition housing_flat : dict (dict pyval) :=
  [("price", [("type", PStr "dist"); ("mean", PInt 500000); ("sd", PInt 200000)]);
   ("area", [("type", PStr "min_max"); ("max", PInt 300); ("min", PInt 50)]);
   ("bathrooms", [("type", PStr "min_max"); ("max", PInt 5); ("min", PInt 1)]);
   ("bedrooms", [("type", PStr "min_max"); ("max", PInt 5); ("min", PInt 1)]);
   ("garage", [("type", PStr "bool")]);
   ("parking", [("type", PStr "bool")]);
   ("council_tax_band",
     [("type", PStr "list");
      ("list", PList [PStr "A"; PStr "B"; PStr "C"; PStr "D"; PStr "E"])])].

(** The same file with [min] deleted from section [area]. *)
Definition housing_without_min : dict (dict pyval) :=
  [("bedrooms", [("type", PStr "min_max"); ("max", PInt 5); ("min", PInt 1)]);
   ("area", [("type", PStr "min_max"); ("max", PInt 300)])].

(** A file with a rule type that the generator does not know. *)
Definition housing_unknown_type : dict (dict pyval) :=
  [("roof", [("type", PStr "triangular"); ("min", PInt 1); ("max", PInt 3)]);
   ("garage", [("type", PStr "bool")])].

(** A plain way of printing cells. *)
Definition plain_fmt (cell : option pyval) : string :=
  match cell with
  | Some (PInt z) => str_of_int z
  | Some (PBool true) => "True"
  | Some (PBool false) => "False"
  | Some (PStr s) => s
  | _ => EmptyString
  end.

(** Two rows of the housing data, as [read_csv] returns them. *)
Definition housing_data : DataFrame :=
  {| columns := ["price"; "bedrooms"; "bathrooms"; "estate_agent_code";
                 "transport_link_code"; "council_tax"; "freehold"; "garage";
                 "parking"];
     rows := [[Some (PInt 304000); Some (PInt 4); Some (PInt 3); Some (PInt 4);
               Some (PInt 7); Some (PStr "F"); Some (PBool true);
               Some (PBool true); Some (PBool false)];
              [Some (PInt 218000); Some (PInt 2); Some (PInt 3); Some (PInt 3);
               Some (PInt 7); Some (PStr "B"); Some (PBool false);
               Some (PBool true); Some (PBool false)]] |}.

(* ================================================================== *)
(** * Vocabulary of the statements                                     *)
(* ================================================================== *)

(** The string ["a-b"] made of two pieces. *)
Definition range_str (a b : string) : string := String.append a (String dash b).

(** The bounds that [get_randint_from_range_str] reads off a range
    string: its first three lines. *)
Definition range_bounds (s : string) : result (Z * Z) :=
  result_bind (result_map int_of_str (split_dash s)) (fun range_list =>
  result_bind (py_min range_list) (fun min_value =>
  result_bind (py_max range_list) (fun max_value =>
  Ok (min_value, max_value)))).

(** Rules of the tiered configuration: a range string that can be read,
    or a non-empty array of values. *)
Definition valid_rule (v : pyval) : Prop :=
  match v with
  | PStr s => exists lo hi, range_bounds s = Ok (lo, hi)
  | PList l => l <> []
  | _ => False
  end.

Definition valid_tier (config : dict pyval) : Prop :=
  Forall (fun kv => valid_rule (snd kv)) config.

Definition valid_tiers (housing_config : dict (dict pyval)) : Prop :=
  housing_config <> [] /\ Forall (fun kv => valid_tier (snd kv)) housing_config.

Definition int64 (z : Z) : Prop := - 2 ^ 63 <= z < 2 ^ 63.

(** Rules of the flat configuration: a recognized [type] with the fields
    it needs. *)
Inductive valid_attribute (attribute : dict pyval) : Prop :=
| valid_min_max (lo hi : Z) :
    dict_lookup attribute "type" = Some (PStr "min_max") ->
    dict_lookup attribute "min" = Some (PInt lo) ->
    dict_lookup attribute "max" = Some (PInt hi) ->
    lo <= hi -> valid_attribute attribute
| valid_bool :
    dict_lookup attribute "type" = Some (PStr "bool") ->
    valid_attribute attribute
| valid_dist (mean sd : Z) :
    dict_lookup attribute "type" = Some (PStr "dist") ->
    dict_lookup attribute "mean" = Some (PInt mean) ->
    dict_lookup attribute "sd" = Some (PInt sd) ->
    int64 mean -> 0 <= sd < 2 ^ 63 -> valid_attribute attribute
| valid_list (l : list pyval) :
    dict_lookup attribute "type" = Some (PStr "list") ->
    dict_lookup attribute "list" = Some (PList l) ->
    l <> [] -> valid_attribute attribute.

Definition recognized (type : pyval) : bool :=
  eq_str type "min_max" || eq_str type "bool" || eq_str type "dist"
  || eq_str type "list".

Definition valid_flat (housing_config : dict (dict pyval)) : Prop :=
  Forall (fun kv => valid_attribute (snd kv)) housing_config.

(** Every row of a frame has one cell per column. *)
Definition well_formed (df : DataFrame) : Prop :=
  Forall (fun row => List.length row = List.length (columns df)) (rows df).

(** A value that a rule of the tiered configuration can produce: for a
    range string an integer within 500 of its bounds, for an array one
    of its elements. *)
Definition generated_by (rule v : pyval) : Prop :=
  match rule with
  | PStr s =>
      exists lo hi x, range_bounds s = Ok (lo, hi) /\ v = PInt x
                      /\ lo - 500 <= x <= hi + 500
  | PList l => In v l
  | _ => False
  end.

(** A value of the tiered configuration that the row generator acts on:
    a string or a list. *)
Definition is_rule (v : pyval) : bool :=
  match v with
  | PStr _ | PList _ => true
  | _ => false
  end.

(** A value of the tiered configuration on which the row generator does
    not raise: a readable range string, a non-empty list, or anything
    that is neither a string nor a list. *)
Definition rule_ok (v : pyval) : Prop :=
  match v with
  | PStr s => exists lo hi, range_bounds s = Ok (lo, hi)
  | PList l => l <> []
  | _ => True
  end.

(** The attributes that the loop over [df.iterrows()] reads of a row, in
    the order in which it reads them. *)
Definition housing_market_labels : list string :=
  ["market_id"; "price"; "bedrooms"; "bathrooms"; "estate_agent_code";
   "transport_link_code"; "council_tax"; "freehold"; "garage"; "parking"].

(** ** The lookup table of estate agents *)

(** A dict with integer keys, and its [get]. *)
Fixpoint int_dict_get {V} (d : list (Z * V)) (k : Z) : option V :=
  match d with
  | [] => None
  | (k', v) :: r => if Z.eqb k' k then Some v else int_dict_get r k
  end.

Definition estate_agent_mapping : list (Z * string) :=
  [(1, "Clapham"); (2, "Deptford"); (3, "Brixton"); (4, "Richmond");
   (5, "Isle of Dogs")].

(** The mapped class of table [estate_agent_codes]; the string is
    [None] when [get] finds nothing. *)
Module EstageAgentCodes.
Record t : Type := {
  estate_agent_code : Z;
  estate_agent_string : option string
}.
End EstageAgentCodes.

(** The objects that the loop [for code in estate_agent_mapping]
    collects for [session.add_all]. *)
Definition estate_agent_rows (mapping : list (Z * string))
  : list EstageAgentCodes.t :=
  map (fun code =>
         {| EstageAgentCodes.estate_agent_code := code;
            EstageAgentCodes.estate_agent_string := int_dict_get mapping code |})
      (map fst mapping).

(** A value that a rule of the flat configuration can produce: for
    [min_max] an integer between its bounds, for [bool] a boolean, for
    [dist] an integer, for [list] one of the listed values. *)
Inductive produced_by (attribute : dict pyval) : pyval -> Prop :=
| produced_min_max (lo hi x : Z) :
    dict_lookup attribute "type" = Some (PStr "min_max") ->
    dict_lookup attribute "min" = Some (PInt lo) ->
    dict_lookup attribute "max" = Some (PInt hi) ->
    lo <= x <= hi -> produced_by attribute (PInt x)
| produced_bool (b : bool) :
    dict_lookup attribute "type" = Some (PStr "bool") ->
    produced_by attribute (PBool b)
| produced_dist (x : Z) :
    dict_lookup attribute "type" = Some (PStr "dist") ->
    produced_by attribute (PInt x)
| produced_list (l : list pyval) (v : pyval) :
    dict_lookup attribute "type" = Some (PStr "list") ->
    dict_lookup attribute "list" = Some (PList l) ->
    In v l -> produced_by attribute v.

(** The field of a [HousingMarket] object that an attribute name
    denotes. *)
Definition house_field (o : HousingMarket) (label : string)
  : option (option pyval) :=
  if String.eqb label "market_id" then Some (market_id o)
  else if String.eqb label "price" then Some (price o)
  else if String.eqb label "bedrooms" then Some (bedrooms o)
  else if String.eqb label "bathrooms" then Some (bathrooms o)
  else if String.eqb label "estate_agent_code" then Some (estate_agent_code o)
  else if String.eqb label "transport_link_code" then Some (transport_link_code o)
  else if String.eqb label "council_tax" then Some (council_tax o)
  else if String.eqb label "freehold" then Some (freehold o)
  else if String.eqb label "garage" then Some (garage o)
  else if String.eqb label "parking" then Some (parking o)
  else None.

(** An engine whose connection is closed: every statement fails, and not
    with an [OperationalError]. *)
Definition closed_engine : Engine :=
  {| conn := unit;
     execute := fun stmt c => (Raise (OtherDatabaseError stmt), c) |}.

(** A string of ASCII characters: the strings on which [int_of_str] is
    [int()]. *)
Fixpoint is_ascii (s : string) : bool :=
  match s with
  | EmptyString => true
  | String c r => (nat_of_ascii c <? 128)%nat && is_ascii r
  end.

(** ** Two generators that deliver the same numbers *)

(** [int(round(normal(loc, scale, size=1)[0], -3))], the way the [dist]
    rule uses the normal sample. *)
Definition normal_thousands {R : Randomness} (loc scale : pyval) : M Z :=
  sample_price <- np_normal loc scale ;;
  lift (float_int (np_round sample_price (-3))).

(** States of two generators, related by [sim], from which every draw
    gives the same number and related states again: the two generators
    deliver the same numbers from there on, however they are built. *)
Definition same_draws (R1 R2 : Randomness)
    (sim : @rng R1 -> @rng R2 -> Prop) : Prop :=
  forall g1 g2, sim g1 g2 ->
    (forall n, fst (randbelow n g1) = fst (randbelow n g2)
               /\ sim (snd (randbelow n g1)) (snd (randbelow n g2)))
    /\ (forall loc scale,
          fst (normal_thousands loc scale g1) = fst (normal_thousands loc scale g2)
          /\ sim (snd (normal_thousands loc scale g1))
                 (snd (normal_thousands loc scale g2))).

(** Two computations that, from related states, have the same outcome
    and leave related states. *)
Definition related {R1 R2 : Randomness} (sim : @rng R1 -> @rng R2 -> Prop)
    {A} (m1 : @M R1 A) (m2 : @M R2 A) : Prop :=
  forall g1 g2, sim g1 g2 ->
    fst (m1 g1) = fst (m2 g2) /\ sim (snd (m1 g1)) (snd (m2 g2)).

(** The concrete generator again, with a count of the draws made beside
    its state. *)
Definition lcg_counting : Randomness :=
  {| rng := (Z * nat)%type;
     seed := fun s => (Z.abs s, O);
     randbelow := fun n gc => (fst gc mod n, (lcg_next (fst gc), S (snd gc)));
     randbelow_range := fun n gc H => Z.mod_pos_bound (fst gc) n H;
     npfloat := Z;
     np_normal := fun loc scale gc =>
                    (fst (lcg_normal loc scale (fst gc)),
                     (snd (lcg_normal loc scale (fst gc)), S (snd gc)));
     np_round := int_round;
     float_int := fun x => Ok x;
     normal_finite :=
       ltac:(intros loc scale g _ Hs; cbn [fst]; unfold lcg_normal;
             destruct (Z.ltb_spec scale 0); [lia|];
             cbn [fst]; eexists; eexists; split; reflexivity) |}.

(* ================================================================== *)
(** * Properties of the builtins                                       *)
(* ================================================================== *)

Example int_round_ex1 : int_round 100499 (-3) = 100000. Proof. reflexivity. Qed.
Example int_round_ex2 : int_round 100500 (-3) = 100000. Proof. reflexivity. Qed.
Example int_round_ex3 : int_round 101500 (-3) = 102000. Proof. reflexivity. Qed.
Example split_dash_ex : split_dash "100000-200000" = ["100000"; "200000"].
Proof. reflexivity. Qed.
Example split_dash_neg : split_dash "-5-10" = [EmptyString; "5"; "10"].
Proof. reflexivity. Qed.
Example int_of_str_ex : int_of_str " 1_000 " = Ok 1000. Proof. reflexivity. Qed.
Example str_of_int_ex : str_of_int 200000 = "200000". Proof. reflexivity. Qed.
Example str_of_int_neg : str_of_int (-17) = "-17". Proof. reflexivity. Qed.

(** [round(n, -3)] is the multiple of 1000 nearest to [n]; of two
    equally near ones it is the even multiple. *)
Lemma int_round_thousand (n : Z) :
  exists q, int_round n (-3) = 1000 * q
            /\ Z.abs (int_round n (-3) - n) <= 500
            /\ (Z.abs (int_round n (-3) - n) = 500 -> Z.even q = true).
Proof.
  unfold int_round, divmod_near.
  change (0 <=? -3) with false. change (10 ^ (- -3)) with 1000. cbv iota.
  pose proof (Z.div_mod n 1000 ltac:(lia)) as Hdm.
  pose proof (Z.mod_pos_bound n 1000 ltac:(lia)) as Hr.
  set (q := n / 1000) in *. set (r := n mod 1000) in *.
  destruct ((1000 <? 2 * r) || ((2 * r =? 1000) && Z.odd q)) eqn:Hc; cbn [snd].
  - exists (q + 1). apply orb_true_iff in Hc.
    destruct Hc as [Hc | Hc].
    + apply Z.ltb_lt in Hc. repeat split; try lia.
    + apply andb_true_iff in Hc. destruct Hc as [Hc Ho].
      apply Z.eqb_eq in Hc. repeat split; try lia.
      intros _. replace (q + 1) with (Z.succ q) by lia.
      rewrite Z.even_succ. exact Ho.
  - exists q. apply orb_false_iff in Hc. destruct Hc as [Hc1 Hc2].
    apply Z.ltb_ge in Hc1. repeat split; try lia.
    intros Habs. apply andb_false_iff in Hc2. destruct Hc2 as [Hc2 | Hc2].
    + apply Z.eqb_neq in Hc2. lia.
    + rewrite <- Z.negb_odd, Hc2. reflexivity.
Qed.

Lemma int_round_multiple (n : Z) : int_round n (-3) mod 1000 = 0.
Proof.
  destruct (int_round_thousand n) as (q & Hq & _).
  rewrite Hq, Z.mul_comm. apply Z.mod_mul. lia.
Qed.

Lemma digit_cases (d : Z) :
  0 <= d < 10 ->
  d = 0 \/ d = 1 \/ d = 2 \/ d = 3 \/ d = 4 \/ d = 5 \/ d = 6 \/ d = 7
  \/ d = 8 \/ d = 9.
Proof. lia. Qed.

Lemma digit_char_spec (d : Z) :
  0 <= d < 10 ->
  is_digit (digit_char d) = true /\ digit_val (digit_char d) = d.
Proof.
  intros H. destruct (digit_cases d H) as [E|[E|[E|[E|[E|[E|[E|[E|[E|E]]]]]]]]];
    subst d; split; reflexivity.
Qed.

Lemma is_digit_not_space (c : ascii) : is_digit c = true -> is_space c = false.
Proof.
  unfold is_digit, is_space. intros H.
  apply andb_true_iff in H. destruct H as [H1 H2].
  apply Nat.leb_le in H1.
  apply orb_false_iff. split.
  - apply andb_false_iff. right. apply Nat.leb_gt. lia.
  - apply Nat.eqb_neq. lia.
Qed.

Lemma is_digit_not_sign (c : ascii) :
  is_digit c = true -> Ascii.eqb c dash = false /\ Ascii.eqb c "+"%char = false.
Proof.
  intros H. split; apply Ascii.eqb_neq; intros ->; discriminate H.
Qed.

Lemma all_digits_lstrip (s : string) : all_digits s = true -> lstrip s = s.
Proof.
  destruct s as [|c r]; [reflexivity|]. cbn [all_digits lstrip]. intros H.
  apply andb_true_iff in H. destruct H as [H _].
  rewrite (is_digit_not_space c H). reflexivity.
Qed.

Lemma all_digits_rstrip (s : string) : all_digits s = true -> rstrip s = s.
Proof.
  induction s as [|c r IH]; [reflexivity|]. cbn [all_digits rstrip]. intros H.
  apply andb_true_iff in H. destruct H as [Hc Hr].
  rewrite (IH Hr). destruct r; [|reflexivity].
  rewrite (is_digit_not_space c Hc). reflexivity.
Qed.

Lemma all_digits_split (s : string) : all_digits s = true -> split_dash s = [s].
Proof.
  induction s as [|c r IH]; [reflexivity|]. cbn [all_digits split_dash]. intros H.
  apply andb_true_iff in H. destruct H as [Hc Hr].
  rewrite (proj1 (is_digit_not_sign c Hc)), (IH Hr). reflexivity.
Qed.

Lemma str_of_digits_all_digits (fuel : nat) :
  forall n acc, 0 <= n -> all_digits acc = true ->
                all_digits (str_of_digits fuel n acc) = true.
Proof.
  induction fuel as [|f IH]; intros n acc Hn Hacc; [exact Hacc|].
  cbn [str_of_digits].
  assert (Hd : all_digits (String (digit_char (n mod 10)) acc) = true).
  { cbn [all_digits]. rewrite Hacc.
    rewrite (proj1 (digit_char_spec (n mod 10) (Z.mod_pos_bound n 10 ltac:(lia)))).
    reflexivity. }
  destruct (n <? 10); [exact Hd|].
  apply IH; [apply Z.div_pos; lia | exact Hd].
Qed.

(** Reading back the digits that [str_of_digits] wrote. *)
Lemma int_digits_str_of_digits (f : nat) :
  forall n rest, 0 <= n < 2 ^ Z.of_nat (S f) ->
    exists p, forall b acc,
      int_digits b acc (str_of_digits (S f) n rest)
      = int_digits true (acc * p + n) rest.
Proof.
  induction f as [|f IH]; intros n rest Hn.
  - exists 10. intros b acc. cbn [str_of_digits].
    change (2 ^ Z.of_nat 1) with 2 in Hn.
    destruct (Z.ltb_spec n 10); [|lia].
    cbn [int_digits].
    destruct (digit_char_spec (n mod 10) (Z.mod_pos_bound n 10 ltac:(lia))) as [-> ->].
    rewrite Z.mod_small by lia. f_equal. lia.
  - cbn [str_of_digits].
    destruct (Z.ltb_spec n 10) as [Hlt | Hge].
    + exists 10. intros b acc. cbn [int_digits].
      destruct (digit_char_spec (n mod 10) (Z.mod_pos_bound n 10 ltac:(lia))) as [-> ->].
      rewrite Z.mod_small by lia. f_equal. lia.
    + assert (Hq : 0 <= n / 10 < 2 ^ Z.of_nat (S f)).
      { split; [apply Z.div_pos; lia|].
        apply Z.div_lt_upper_bound; [lia|].
        replace (Z.of_nat (S (S f))) with (Z.succ (Z.of_nat (S f))) in Hn by lia.
        rewrite Z.pow_succ_r in Hn by lia. lia. }
      destruct (IH (n / 10) (String (digit_char (n mod 10)) rest) Hq) as [p Hp].
      exists (10 * p). intros b acc.
      rewrite Hp. cbn [int_digits].
      destruct (digit_char_spec (n mod 10) (Z.mod_pos_bound n 10 ltac:(lia))) as [-> ->].
      f_equal. pose proof (Z.div_mod n 10 ltac:(lia)). lia.
Qed.

Lemma str_of_nonneg_all_digits (n : Z) :
  0 <= n -> all_digits (str_of_nonneg n) = true.
Proof. intros H. apply str_of_digits_all_digits; [exact H | reflexivity]. Qed.

Lemma int_digits_str_of_nonneg (n : Z) :
  0 <= n -> int_digits false 0 (str_of_nonneg n) = Some n.
Proof.
  intros Hn. unfold str_of_nonneg.
  destruct (int_digits_str_of_digits (Z.to_nat (Z.log2 n)) n EmptyString) as [p Hp].
  - split; [exact Hn|].
    replace (Z.of_nat (S (Z.to_nat (Z.log2 n)))) with (Z.succ (Z.log2 n))
      by (pose proof (Z.log2_nonneg n); lia).
    destruct (Z.eq_dec n 0) as [->|Hne]; [reflexivity|].
    apply Z.log2_spec. lia.
  - rewrite Hp. cbn [int_digits]. f_equal; lia.
Qed.

(** [int(str(n)) == n] for a natural number. *)
Lemma int_of_str_nonneg (n : Z) : 0 <= n -> int_of_str (str_of_nonneg n) = Ok n.
Proof.
  intros Hn. unfold int_of_str.
  pose proof (str_of_nonneg_all_digits n Hn) as Hd.
  pose proof (int_digits_str_of_nonneg n Hn) as Hp.
  rewrite (all_digits_lstrip _ Hd), (all_digits_rstrip _ Hd).
  destruct (str_of_nonneg n) as [|c r]; [discriminate Hp|].
  cbn [all_digits] in Hd. apply andb_true_iff in Hd. destruct Hd as [Hc _].
  destruct (is_digit_not_sign c Hc) as [-> ->]. rewrite Hp. reflexivity.
Qed.

(** [int(str(z)) == z] *)
Lemma int_of_str_of_int (z : Z) : int_of_str (str_of_int z) = Ok z.
Proof.
  unfold str_of_int. destruct (Z.ltb_spec z 0) as [Hneg | Hpos].
  - assert (Hn : 0 <= - z) by lia.
    pose proof (str_of_nonneg_all_digits _ Hn) as Hd.
    pose proof (int_digits_str_of_nonneg _ Hn) as Hp.
    unfold int_of_str.
    change (lstrip (String dash (str_of_nonneg (- z))))
      with (String dash (str_of_nonneg (- z))).
    cbn [rstrip]. rewrite (all_digits_rstrip _ Hd).
    destruct (str_of_nonneg (- z)) as [|c r] eqn:E; [discriminate Hp|].
    change (Ascii.eqb dash dash) with true. cbv iota.
    rewrite Hp. cbn [option_map]. f_equal; lia.
  - apply int_of_str_nonneg. exact Hpos.
Qed.

Lemma str_of_int_inj (a b : Z) : str_of_int a = str_of_int b -> a = b.
Proof.
  intros H. pose proof (int_of_str_of_int a) as Ha.
  rewrite H, int_of_str_of_int in Ha. congruence.
Qed.

Lemma split_dash_nonempty (s : string) : split_dash s <> [].
Proof.
  destruct s as [|c r]; cbn [split_dash]; [discriminate|].
  destruct (Ascii.eqb c dash); [discriminate|].
  destruct (split_dash r); discriminate.
Qed.

Lemma split_dash_range_str (a b : string) :
  split_dash (range_str a b) = split_dash a ++ split_dash b.
Proof.
  unfold range_str. induction a as [|c a IH]; [reflexivity|].
  cbn [String.append split_dash]. destruct (Ascii.eqb c dash).
  - rewrite IH. reflexivity.
  - rewrite IH. pose proof (split_dash_nonempty a) as Hne.
    destruct (split_dash a); [congruence | reflexivity].
Qed.

Lemma result_map_app {A B} (f : A -> result B) (l1 l2 : list A) :
  result_map f (l1 ++ l2)
  = result_bind (result_map f l1) (fun m1 =>
    result_bind (result_map f l2) (fun m2 => Ok (m1 ++ m2))).
Proof.
  induction l1 as [|x l1 IH]; cbn [app result_map result_bind].
  - destruct (result_map f l2); reflexivity.
  - destruct (f x); cbn [result_bind]; [|reflexivity].
    rewrite IH. destruct (result_map f l1); cbn [result_bind]; [|reflexivity].
    destruct (result_map f l2); reflexivity.
Qed.

Lemma int_of_str_raises (s : string) (e : exn) :
  int_of_str s = Raise e -> e = ValueError.
Proof.
  unfold int_of_str.
  destruct (match rstrip (lstrip s) with EmptyString => _ | String _ _ => _ end);
    congruence.
Qed.

Lemma result_map_int_raises (l : list string) (e : exn) :
  result_map int_of_str l = Raise e -> e = ValueError.
Proof.
  induction l as [|s l IH]; cbn [result_map]; [discriminate|].
  destruct (int_of_str s) eqn:Hs; cbn [result_bind].
  - destruct (result_map int_of_str l); cbn [result_bind]; [discriminate|].
    intros H. apply IH. congruence.
  - intros H. apply (int_of_str_raises s). congruence.
Qed.

Lemma fold_min_spec (l : list Z) :
  forall x, let m := fold_left Z.min l x in
            (m = x \/ In m l) /\ m <= x /\ Forall (fun y => m <= y) l.
Proof.
  induction l as [|y l IH]; intros x; cbn [fold_left].
  - cbn. repeat split; auto; lia.
  - destruct (IH (Z.min x y)) as (Hin & Hle & Hall). cbn zeta in *.
    set (m := fold_left Z.min l (Z.min x y)) in *.
    repeat split.
    + destruct Hin as [Hin | Hin]; [|right; right; exact Hin].
      destruct (Z.min_spec x y) as [[_ E] | [_ E]]; rewrite E in Hin;
        [left | right; left]; congruence.
    + lia.
    + constructor; [lia | exact Hall].
Qed.

Lemma fold_max_spec (l : list Z) :
  forall x, let m := fold_left Z.max l x in
            (m = x \/ In m l) /\ x <= m /\ Forall (fun y => y <= m) l.
Proof.
  induction l as [|y l IH]; intros x; cbn [fold_left].
  - cbn. repeat split; auto; lia.
  - destruct (IH (Z.max x y)) as (Hin & Hle & Hall). cbn zeta in *.
    set (m := fold_left Z.max l (Z.max x y)) in *.
    repeat split.
    + destruct Hin as [Hin | Hin]; [|right; right; exact Hin].
      destruct (Z.max_spec x y) as [[_ E] | [_ E]]; rewrite E in Hin;
        [right; left | left]; congruence.
    + lia.
    + constructor; [lia | exact Hall].
Qed.

Lemma py_min_spec (l : list Z) (m : Z) :
  py_min l = Ok m -> In m l /\ Forall (fun y => m <= y) l.
Proof.
  destruct l as [|x l]; cbn [py_min]; [discriminate|].
  intros H. injection H as <-.
  destruct (fold_min_spec l x) as (Hin & Hle & Hall). split.
  - destruct Hin as [-> | Hin]; [left; reflexivity | right; exact Hin].
  - constructor; assumption.
Qed.

Lemma py_max_spec (l : list Z) (m : Z) :
  py_max l = Ok m -> In m l /\ Forall (fun y => y <= m) l.
Proof.
  destruct l as [|x l]; cbn [py_max]; [discriminate|].
  intros H. injection H as <-.
  destruct (fold_max_spec l x) as (Hin & Hle & Hall). split.
  - destruct Hin as [-> | Hin]; [left; reflexivity | right; exact Hin].
  - constructor; assumption.
Qed.

Lemma py_min_same_elements (l l' : list Z) :
  (forall x, In x l <-> In x l') -> py_min l = py_min l'.
Proof.
  intros H. destruct (py_min l) as [m|e] eqn:E; destruct (py_min l') as [m'|e'] eqn:E'.
  - destruct (py_min_spec _ _ E) as [Hin Hall].
    destruct (py_min_spec _ _ E') as [Hin' Hall'].
    rewrite Forall_forall in Hall, Hall'.
    pose proof (Hall _ (proj2 (H _) Hin')). pose proof (Hall' _ (proj1 (H _) Hin)).
    f_equal. lia.
  - destruct l' as [|y l']; [|discriminate E'].
    destruct (py_min_spec _ _ E) as [Hin _]. destruct (proj1 (H _) Hin).
  - destruct l as [|y l]; [|discriminate E].
    destruct (py_min_spec _ _ E') as [Hin _]. destruct (proj2 (H _) Hin).
  - destruct l; [|discriminate E]. destruct l'; [|discriminate E'].
    cbn in E, E'. congruence.
Qed.

Lemma py_max_same_elements (l l' : list Z) :
  (forall x, In x l <-> In x l') -> py_max l = py_max l'.
Proof.
  intros H. destruct (py_max l) as [m|e] eqn:E; destruct (py_max l') as [m'|e'] eqn:E'.
  - destruct (py_max_spec _ _ E) as [Hin Hall].
    destruct (py_max_spec _ _ E') as [Hin' Hall'].
    rewrite Forall_forall in Hall, Hall'.
    pose proof (Hall _ (proj2 (H _) Hin')). pose proof (Hall' _ (proj1 (H _) Hin)).
    f_equal. lia.
  - destruct l' as [|y l']; [|discriminate E'].
    destruct (py_max_spec _ _ E) as [Hin _]. destruct (proj1 (H _) Hin).
  - destruct l as [|y l]; [|discriminate E].
    destruct (py_max_spec _ _ E') as [Hin _]. destruct (proj2 (H _) Hin).
  - destruct l; [|discriminate E]. destruct l'; [|discriminate E'].
    cbn in E, E'. congruence.
Qed.

(** The bounds read off a range string are ordered. *)
Lemma range_bounds_ordered (s : string) (lo hi : Z) :
  range_bounds s = Ok (lo, hi) -> lo <= hi.
Proof.
  unfold range_bounds.
  destruct (result_map int_of_str (split_dash s)) as [l|]; cbn [result_bind];
    [|discriminate].
  destruct (py_min l) as [m|] eqn:Em; cbn [result_bind]; [|discriminate].
  destruct (py_max l) as [m'|] eqn:Em'; cbn [result_bind]; [|discriminate].
  intros H. injection H as <- <-.
  destruct (py_min_spec _ _ Em) as [Hin Hall].
  destruct (py_max_spec _ _ Em') as [_ Hall'].
  rewrite Forall_forall in Hall'. apply Hall'. exact Hin.
Qed.

(** Swapping the two sides of a dash changes neither the bounds nor
    whether the string can be read. *)
Lemma range_bounds_swap (x y : string) :
  range_bounds (range_str x y) = range_bounds (range_str y x).
Proof.
  unfold range_bounds. rewrite !split_dash_range_str, !result_map_app.
  destruct (result_map int_of_str (split_dash x)) as [m1|e1] eqn:E1;
    destruct (result_map int_of_str (split_dash y)) as [m2|e2] eqn:E2;
    cbn [result_bind]; try reflexivity.
  - rewrite (py_min_same_elements (m1 ++ m2) (m2 ++ m1)),
      (py_max_same_elements (m1 ++ m2) (m2 ++ m1)); [reflexivity | |];
      intros z; rewrite !in_app_iff; tauto.
  - rewrite (result_map_int_raises _ _ E1), (result_map_int_raises _ _ E2).
    reflexivity.
Qed.

Lemma range_bounds_two (sa sb : string) (a b : Z) :
  split_dash sa = [sa] -> split_dash sb = [sb] ->
  int_of_str sa = Ok a -> int_of_str sb = Ok b ->
  range_bounds (range_str sa sb) = Ok (Z.min a b, Z.max a b).
Proof.
  intros Ha Hb Ia Ib. unfold range_bounds.
  rewrite split_dash_range_str, Ha, Hb. cbn [app result_map].
  rewrite Ia, Ib. reflexivity.
Qed.

Section GeneratorFacts.
Context {R : Randomness}.

Lemma randint_run (lo hi : Z) (g : rng) :
  lo <= hi ->
  randint lo hi g
  = (Ok (lo + fst (randbelow (hi - lo + 1) g)), snd (randbelow (hi - lo + 1) g)).
Proof.
  intros H. unfold randint, randrange.
  destruct (Z.ltb_spec 0 (hi + 1 - lo)); [|lia].
  replace (hi + 1 - lo) with (hi - lo + 1) by lia. reflexivity.
Qed.

Lemma randint_inside (lo hi : Z) (g : rng) :
  lo <= hi -> lo <= lo + fst (randbelow (hi - lo + 1) g) <= hi.
Proof.
  intros H. pose proof (randbelow_range (hi - lo + 1) g ltac:(lia)). lia.
Qed.

Lemma choice_run {A} (seq : list A) (g : rng) :
  seq <> [] ->
  exists v, choice seq g = (Ok v, snd (randbelow (Z.of_nat (List.length seq)) g))
            /\ nth_error seq (Z.to_nat (fst (randbelow (Z.of_nat (List.length seq)) g)))
               = Some v.
Proof.
  intros H. destruct seq as [|x seq]; [congruence|].
  unfold choice. set (n := Z.of_nat (List.length (x :: seq))).
  assert (Hn : 0 < n) by (unfold n; cbn [List.length]; lia).
  pose proof (randbelow_range n g Hn) as Hr.
  destruct (nth_error (x :: seq) (Z.to_nat (fst (randbelow n g)))) as [v|] eqn:E.
  - exists v. split; reflexivity.
  - exfalso. apply nth_error_None in E. subst n. lia.
Qed.

(** What [get_randint_from_range_str] does, in terms of the bounds
    it reads. *)
Lemma get_randint_unfold (s : string) (g : rng) :
  get_randint_from_range_str s g
  = match range_bounds s with
    | Ok (lo, hi) =>
        match randint lo hi g with
        | (Ok rand_int, g') =>
            (Ok (if rand_int <=? 100000 then rand_int
                 else int_round rand_int (-3)), g')
        | (Raise e, g') => (Raise e, g')
        end
    | Raise e => (Raise e, g)
    end.
Proof.
  unfold get_randint_from_range_str, range_bounds, bind, lift, ret.
  destruct (result_map int_of_str (split_dash s)) as [l|]; cbn [result_bind];
    [|reflexivity].
  destruct (py_min l); cbn [result_bind]; [|reflexivity].
  destruct (py_max l); cbn [result_bind]; reflexivity.
Qed.

Lemma get_randint_run (s : string) (lo hi : Z) (g : rng) :
  range_bounds s = Ok (lo, hi) ->
  get_randint_from_range_str s g
  = (Ok (let rand_int := lo + fst (randbelow (hi - lo + 1) g) in
         if rand_int <=? 100000 then rand_int else int_round rand_int (-3)),
     snd (randbelow (hi - lo + 1) g)).
Proof.
  intros H. rewrite get_randint_unfold, H.
  rewrite (randint_run lo hi g (range_bounds_ordered s lo hi H)). reflexivity.
Qed.

End GeneratorFacts.

(* ================================================================== *)
(** * Properties of dictionaries                                       *)
(* ================================================================== *)

Lemma dict_lookup_setitem {V} (d : dict V) (k k' : string) (v : V) :
  dict_lookup (dict_setitem d k v) k'
  = if String.eqb k k' then Some v else dict_lookup d k'.
Proof.
  induction d as [|[k0 v0] d IH]; cbn [dict_setitem dict_lookup].
  - reflexivity.
  - destruct (String.eqb_spec k0 k) as [->|Hne]; cbn [dict_lookup].
    + destruct (String.eqb k k'); reflexivity.
    + rewrite IH. destruct (String.eqb_spec k0 k') as [->|Hne'].
      * destruct (String.eqb_spec k k'); [congruence | reflexivity].
      * reflexivity.
Qed.

Lemma dict_setitem_keys_in {V} (d : dict V) (k : string) (v : V) (k' : string) :
  In k' (dict_keys (dict_setitem d k v)) <-> In k' (dict_keys d) \/ k' = k.
Proof.
  unfold dict_keys. induction d as [|[k0 v0] d IH]; cbn [dict_setitem map In fst].
  - intuition congruence.
  - destruct (String.eqb_spec k0 k) as [->|Hne]; cbn [map In fst].
    + intuition congruence.
    + rewrite IH. tauto.
Qed.

Lemma dict_setitem_keys_nodup {V} (d : dict V) (k : string) (v : V) :
  NoDup (dict_keys d) -> NoDup (dict_keys (dict_setitem d k v)).
Proof.
  unfold dict_keys. induction d as [|[k0 v0] d IH]; cbn [dict_setitem map fst];
    intros H.
  - constructor; [intros [] | constructor].
  - inversion H as [|? ? Hnotin Hnd]; subst.
    destruct (String.eqb_spec k0 k) as [->|Hne]; cbn [map fst].
    + constructor; assumption.
    + constructor; [|apply IH; exact Hnd].
      intros Hin. apply (dict_setitem_keys_in d k v k0) in Hin.
      destruct Hin as [Hin | Heq]; [exact (Hnotin Hin) | congruence].
Qed.


Lemma dict_lookup_in {V} (d : dict V) (k : string) :
  In k (dict_keys d) -> exists v, dict_lookup d k = Some v /\ In (k, v) d.
Proof.
  unfold dict_keys. induction d as [|[k0 v0] d IH]; cbn [map In fst dict_lookup];
    [intros []|].
  intros H. destruct (String.eqb_spec k0 k) as [->|Hne].
  - exists v0. split; [reflexivity | left; reflexivity].
  - destruct H as [H | H]; [congruence|].
    destruct (IH H) as (v & Hv & Hin). exists v. split; [exact Hv | right; exact Hin].
Qed.


Lemma dict_getitem_in {V} (d : dict V) (k : string) :
  In k (dict_keys d) -> exists v, dict_getitem d k = Ok v /\ In (k, v) d.
Proof.
  intros H. destruct (dict_lookup_in d k H) as (v & Hv & Hin).
  exists v. unfold dict_getitem. rewrite Hv. split; [reflexivity | exact Hin].
Qed.

(* ================================================================== *)
(** * Properties of the tiered generator                               *)
(* ================================================================== *)

Section TieredFacts.
Context {R : Randomness}.

(** The value that a range string yields stays within 500 of the
    bounds. *)
Lemma get_randint_near_bounds (s : string) (lo hi : Z) (g : rng) :
  range_bounds s = Ok (lo, hi) ->
  exists x g', get_randint_from_range_str s g = (Ok x, g')
               /\ lo - 500 <= x <= hi + 500.
Proof.
  intros H. rewrite (get_randint_run s lo hi g H). cbn zeta.
  pose proof (randint_inside lo hi g (range_bounds_ordered s lo hi H)) as Hin.
  set (d := lo + fst (randbelow (hi - lo + 1) g)) in *.
  eexists. eexists. split; [reflexivity|].
  destruct (d <=? 100000); [lia|].
  destruct (int_round_thousand d) as (q & _ & Habs & _). lia.
Qed.

(** One turn of the loop of [generate_one_row_random_house_data] on a
    valid rule: the attribute gets a value that its rule generates. *)
Lemma one_row_body_valid (config : dict pyval) (attribute : string)
    (rule : pyval) (new_row : dict pyval) (g : rng) :
  dict_lookup config attribute = Some rule -> valid_rule rule ->
  exists v g',
    generated_by rule v
    /\ one_row_body config attribute new_row g
       = (Ok (dict_setitem new_row attribute v), g').
Proof.
  intros Hlook Hv. unfold one_row_body, dict_getitem. rewrite Hlook.
  destruct rule as [| | |s|l|]; cbn [valid_rule] in Hv; try contradiction.
  - destruct Hv as (lo & hi & Hb).
    destruct (get_randint_near_bounds s lo hi g Hb) as (x & g' & Hrun & Hx).
    exists (PInt x), g'. split.
    + cbn [generated_by]. exists lo, hi, x. auto.
    + unfold bind, ret, lift. rewrite Hrun. reflexivity.
  - destruct (choice_run l g Hv) as (v & Hrun & Hnth).
    exists v. eexists. split.
    + cbn [generated_by]. apply nth_error_In in Hnth. exact Hnth.
    + unfold bind, ret, lift. rewrite Hrun. reflexivity.
Qed.

(** A value that is neither a string nor a list is passed over. *)
Lemma one_row_body_skips (config : dict pyval) (attribute : string)
    (value : pyval) (new_row : dict pyval) (g : rng) :
  dict_lookup config attribute = Some value ->
  (forall s, value <> PStr s) -> (forall l, value <> PList l) ->
  one_row_body config attribute new_row g = (Ok new_row, g).
Proof.
  intros Hlook Hs Hl. unfold one_row_body, dict_getitem. rewrite Hlook.
  destruct value; try reflexivity.
  - exfalso. exact (Hs _ eq_refl).
  - exfalso. exact (Hl _ eq_refl).
Qed.

Lemma one_row_loop_valid (attributes : list string) (config : dict pyval) :
  (forall k, In k attributes ->
             exists rule, dict_lookup config k = Some rule /\ valid_rule rule) ->
  forall new_row g,
  exists row g',
    one_row_loop attributes config new_row g = (Ok row, g')
    /\ (forall k, In k (dict_keys row) <-> In k (dict_keys new_row) \/ In k attributes)
    /\ (NoDup (dict_keys new_row) -> NoDup (dict_keys row))
    /\ ((forall k v, dict_lookup new_row k = Some v ->
           exists rule, dict_lookup config k = Some rule /\ generated_by rule v) ->
        forall k v, dict_lookup row k = Some v ->
           exists rule, dict_lookup config k = Some rule /\ generated_by rule v).
Proof.
  induction attributes as [|a rest IH]; intros Hvalid new_row g.
  - exists new_row, g. cbn [one_row_loop In]. unfold ret.
    repeat split; auto; tauto.
  - destruct (Hvalid a (or_introl eq_refl)) as (rule & Hlook & Hrule).
    destruct (one_row_body_valid config a rule new_row g Hlook Hrule)
      as (v & g1 & Hgen & Hstep).
    destruct (IH (fun k Hk => Hvalid k (or_intror Hk)) (dict_setitem new_row a v) g1)
      as (row & g' & Hrun & Hkeys & Hnd & Hvals).
    exists row, g'. split; [|split; [|split]].
    + cbn [one_row_loop]. unfold bind. rewrite Hstep. exact Hrun.
    + intros k. rewrite Hkeys, dict_setitem_keys_in. cbn [In].
      split; intros H; intuition congruence.
    + intros H. apply Hnd. apply dict_setitem_keys_nodup. exact H.
    + intros Hold. apply Hvals. intros k v0. rewrite dict_lookup_setitem.
      destruct (String.eqb_spec a k) as [->|Hne].
      * intros E. injection E as <-. exists rule. auto.
      * apply Hold.
Qed.

Lemma valid_tier_lookup (config : dict pyval) (k : string) :
  valid_tier config -> In k (dict_keys config) ->
  exists rule, dict_lookup config k = Some rule /\ valid_rule rule.
Proof.
  intros Hv Hin. destruct (dict_lookup_in config k Hin) as (rule & Hl & Hmem).
  exists rule. split; [exact Hl|].
  unfold valid_tier in Hv. rewrite Forall_forall in Hv. exact (Hv _ Hmem).
Qed.

(** On a valid rule-set a row is produced, with the keys of the
    rule-set, each once, each with a value generated by its rule. *)
Lemma generate_one_row_valid (config : dict pyval) (g : rng) :
  valid_tier config ->
  exists row g',
    generate_one_row_random_house_data config g = (Ok row, g')
    /\ (forall k, In k (dict_keys row) <-> In k (dict_keys config))
    /\ NoDup (dict_keys row)
    /\ (forall k v, dict_lookup row k = Some v ->
          exists rule, dict_lookup config k = Some rule /\ generated_by rule v).
Proof.
  intros Hv. unfold generate_one_row_random_house_data.
  destruct (one_row_loop_valid (dict_keys config) config
              (fun k Hk => valid_tier_lookup config k Hv Hk) [] g)
    as (row & g' & Hrun & Hkeys & Hnd & Hvals).
  exists row, g'. split; [exact Hrun|]. split; [|split].
  - intros k. rewrite Hkeys. cbn. tauto.
  - apply Hnd. constructor.
  - apply Hvals. intros k v H. discriminate H.
Qed.

End TieredFacts.

Section MonadFacts.
Context {R : Randomness}.

Lemma bind_ok {A B} (m : M A) (k : A -> M B) (g g' : rng) (a : A) :
  m g = (Ok a, g') -> bind m k g = k a g'.
Proof. intros H. unfold bind. rewrite H. reflexivity. Qed.

Lemma bind_raise {A B} (m : M A) (k : A -> M B) (g g' : rng) (e : exn) :
  m g = (Raise e, g') -> bind m k g = (Raise e, g').
Proof. intros H. unfold bind. rewrite H. reflexivity. Qed.

Lemma bind_lift_ok {A B} (a : A) (k : A -> M B) (g : rng) :
  bind (lift (Ok a)) k g = k a g.
Proof. reflexivity. Qed.

End MonadFacts.

Section TieredDatasetFacts.
Context {R : Randomness}.

Lemma get_random_tier_config_valid (housing_config : dict (dict pyval)) (g : rng) :
  valid_tiers housing_config ->
  exists tier_config g',
    get_random_tier_config housing_config g = (Ok tier_config, g')
    /\ valid_tier tier_config.
Proof.
  intros [Hne Hall]. unfold get_random_tier_config.
  assert (Hkeys : dict_keys housing_config <> []).
  { destruct housing_config; [congruence | discriminate]. }
  destruct (choice_run (dict_keys housing_config) g Hkeys) as (k & Hrun & Hnth).
  apply nth_error_In in Hnth.
  destruct (dict_getitem_in housing_config k Hnth) as (tier & Hget & Hmem).
  exists tier. eexists. split.
  - rewrite (bind_ok _ _ _ _ _ Hrun). rewrite Hget. reflexivity.
  - rewrite Forall_forall in Hall. exact (Hall _ Hmem).
Qed.

Lemma housing_rows_loop_valid (n : nat) (housing_config : dict (dict pyval)) :
  valid_tiers housing_config ->
  forall df_rows g,
  exists out g',
    housing_rows_loop n housing_config df_rows g = (Ok out, g')
    /\ List.length out = (List.length df_rows + n)%nat.
Proof.
  intros Hv. induction n as [|n IH]; intros df_rows g.
  - exists df_rows, g. split; [reflexivity | lia].
  - destruct (get_random_tier_config_valid housing_config g Hv)
      as (tier & g1 & Htier & Hvt).
    destruct (generate_one_row_valid tier g1 Hvt) as (row & g2 & Hrow & _).
    destruct (IH (df_rows ++ [row]) g2) as (out & g' & Hrun & Hlen).
    exists out, g'. split.
    + cbn [housing_rows_loop].
      rewrite (bind_ok _ _ _ _ _ Htier), (bind_ok _ _ _ _ _ Hrow). exact Hrun.
    + rewrite Hlen, length_app. cbn [List.length]. lia.
Qed.

Lemma df_len_of_records (records : list (dict pyval)) :
  df_len (DataFrame_of_records records) = Z.of_nat (List.length records).
Proof.
  unfold df_len, DataFrame_of_records. cbn [rows]. rewrite length_map. reflexivity.
Qed.

(** With a valid configuration [generate_housing_df] returns a frame
    of [row_size] rows. *)
Lemma generate_housing_df_rows (housing_config : dict (dict pyval))
    (row_size : Z) (g : rng) :
  valid_tiers housing_config -> 0 <= row_size ->
  exists df g',
    generate_housing_df housing_config row_size g = (Ok df, g')
    /\ df_len df = row_size.
Proof.
  intros Hv Hn. unfold generate_housing_df.
  destruct (housing_rows_loop_valid (Z.to_nat row_size) housing_config Hv [] g)
    as (out & g' & Hrun & Hlen).
  exists (DataFrame_of_records out), g'. split.
  - rewrite (bind_ok _ _ _ _ _ Hrun). reflexivity.
  - rewrite df_len_of_records, Hlen. cbn [List.length]. lia.
Qed.

End TieredDatasetFacts.

(* ================================================================== *)
(** * Properties of the flat generator                                 *)
(* ================================================================== *)

Section FlatFacts.
Context {R : Randomness}.

(** A valid attribute yields a value. *)
Lemma build_valid (attribute : dict pyval) (g : rng) :
  valid_attribute attribute ->
  exists v g', build_random_housing_column_value attribute g = (Ok v, g').
Proof.
  intros Hv. unfold build_random_housing_column_value, dict_getitem, dict_get.
  destruct Hv as [lo hi Ht Hlo Hhi Hle | Ht | mean sd Ht Hm Hs Hmr Hsr | l Ht Hl Hne];
    rewrite Ht; rewrite bind_lift_ok.
  - change (eq_str (PStr "min_max") "min_max") with true. cbv iota.
    rewrite Hlo, Hhi, !bind_lift_ok. cbn [randint_args as_index].
    rewrite (bind_ok _ _ _ _ _ (randint_run lo hi g Hle)).
    eexists. eexists. reflexivity.
  - change (eq_str (PStr "bool") "min_max") with false.
    change (eq_str (PStr "bool") "bool") with true. cbv iota.
    destruct (choice_run [PBool true; PBool false] g ltac:(discriminate))
      as (v & Hrun & _).
    exists v. eexists. exact Hrun.
  - change (eq_str (PStr "dist") "min_max") with false.
    change (eq_str (PStr "dist") "bool") with false.
    change (eq_str (PStr "dist") "dist") with true. cbv iota.
    rewrite Hm, Hs, !bind_lift_ok.
    destruct (normal_finite mean sd g Hmr Hsr) as (x & z & Hx & Hz).
    destruct (np_normal (PInt mean) (PInt sd) g) as [r g1] eqn:E.
    cbn [fst] in Hx. subst r.
    rewrite (bind_ok _ _ _ _ _ E). unfold bind, lift. rewrite Hz.
    eexists. eexists. reflexivity.
  - change (eq_str (PStr "list") "min_max") with false.
    change (eq_str (PStr "list") "bool") with false.
    change (eq_str (PStr "list") "dist") with false.
    change (eq_str (PStr "list") "list") with true. cbv iota.
    rewrite Hl, bind_lift_ok. cbn [choice_args].
    destruct (choice_run l g Hne) as (v & Hrun & _).
    exists v. eexists. exact Hrun.
Qed.

(** A [type] that is none of the four recognized ones yields [None],
    and nothing is drawn. *)
Lemma build_unrecognized (attribute : dict pyval) (type : pyval) (g : rng) :
  dict_lookup attribute "type" = Some type -> recognized type = false ->
  build_random_housing_column_value attribute g = (Ok PNone, g).
Proof.
  intros Ht Hr. unfold recognized in Hr.
  apply orb_false_iff in Hr. destruct Hr as [Hr H4].
  apply orb_false_iff in Hr. destruct Hr as [Hr H3].
  apply orb_false_iff in Hr. destruct Hr as [H1 H2].
  unfold build_random_housing_column_value, dict_getitem, dict_get.
  rewrite Ht, bind_lift_ok, H1, H2, H3, H4. reflexivity.
Qed.

(** A [min_max] attribute without [min] raises [KeyError] when a value
    is asked of it. *)
Lemma build_min_max_without_min (attribute : dict pyval) (g : rng) :
  dict_lookup attribute "type" = Some (PStr "min_max") ->
  dict_lookup attribute "min" = None ->
  build_random_housing_column_value attribute g = (Raise (KeyError (PStr "min")), g).
Proof.
  intros Ht Hm. unfold build_random_housing_column_value, dict_getitem.
  rewrite Ht, bind_lift_ok.
  change (eq_str (PStr "min_max") "min_max") with true. cbv iota.
  rewrite Hm. reflexivity.
Qed.

Lemma build_min_max_without_max (attribute : dict pyval) (lo : pyval) (g : rng) :
  dict_lookup attribute "type" = Some (PStr "min_max") ->
  dict_lookup attribute "min" = Some lo ->
  dict_lookup attribute "max" = None ->
  build_random_housing_column_value attribute g = (Raise (KeyError (PStr "max")), g).
Proof.
  intros Ht Hm Hx. unfold build_random_housing_column_value, dict_getitem.
  rewrite Ht, bind_lift_ok.
  change (eq_str (PStr "min_max") "min_max") with true. cbv iota.
  rewrite Hm, bind_lift_ok, Hx. reflexivity.
Qed.

Lemma column_values_valid (n : nat) (column_config : dict pyval) :
  valid_attribute column_config ->
  forall g, exists vs g',
    column_values n column_config g = (Ok vs, g') /\ List.length vs = n.
Proof.
  intros Hv. induction n as [|n IH]; intros g.
  - exists [], g. split; reflexivity.
  - destruct (build_valid column_config g Hv) as (v & g1 & Hb).
    destruct (IH g1) as (vs & g' & Hrun & Hlen).
    exists (v :: vs), g'. split.
    + cbn [column_values].
      rewrite (bind_ok _ _ _ _ _ Hb), (bind_ok _ _ _ _ _ Hrun). reflexivity.
    + cbn [List.length]. rewrite Hlen. reflexivity.
Qed.

Lemma dict_setitem_forall {V} (P : V -> Prop) (d : dict V) (k : string) (v : V) :
  Forall (fun kv => P (snd kv)) d -> P v ->
  Forall (fun kv => P (snd kv)) (dict_setitem d k v).
Proof.
  intros Hd Hv. induction d as [|[k0 v0] d IH]; cbn [dict_setitem].
  - constructor; [exact Hv | constructor].
  - inversion Hd as [|? ? H0 Hrest]; subst.
    destruct (String.eqb k0 k); constructor; auto.
Qed.

Lemma housing_cols_loop_valid (cols : list string)
    (housing_config : dict (dict pyval)) (sample_size : Z) :
  (forall col, In col cols ->
     exists a, dict_lookup housing_config col = Some a /\ valid_attribute a) ->
  forall df_cols g,
    Forall (fun kv => List.length (snd kv) = Z.to_nat sample_size) df_cols ->
    exists out g',
      housing_cols_loop cols housing_config sample_size df_cols g = (Ok out, g')
      /\ Forall (fun kv => List.length (snd kv) = Z.to_nat sample_size) out
      /\ (forall k, In k (dict_keys out) <-> In k (dict_keys df_cols) \/ In k cols).
Proof.
  induction cols as [|col rest IH]; intros Hv df_cols g Hlen.
  - exists df_cols, g. cbn [housing_cols_loop In]. repeat split; auto; tauto.
  - destruct (Hv col (or_introl eq_refl)) as (a & Hlook & Ha).
    destruct (column_values_valid (Z.to_nat sample_size) a Ha g)
      as (vs & g1 & Hvals & Hvlen).
    destruct (IH (fun c Hc => Hv c (or_intror Hc)) (dict_setitem df_cols col vs) g1)
      as (out & g' & Hrun & Hout & Hkeys).
    { apply (dict_setitem_forall
               (fun l => List.length l = Z.to_nat sample_size)); assumption. }
    exists out, g'. split; [|split].
    + cbn [housing_cols_loop]. unfold dict_getitem. rewrite Hlook, bind_lift_ok.
      rewrite (bind_ok _ _ _ _ _ Hvals). exact Hrun.
    + exact Hout.
    + intros k. rewrite Hkeys, dict_setitem_keys_in. cbn [In].
      split; intros H; intuition congruence.
Qed.

Lemma DataFrame_of_columns_same_length (cols : dict (list pyval)) (n : nat) :
  cols <> [] -> Forall (fun kv => List.length (snd kv) = n) cols ->
  exists df, DataFrame_of_columns cols = Ok df
             /\ columns df = dict_keys cols
             /\ List.length (rows df) = n.
Proof.
  intros Hne Hall. destruct cols as [|[k first] cols]; [congruence|].
  unfold DataFrame_of_columns.
  assert (Hfirst : List.length first = n).
  { inversion Hall as [|? ? H0 ?]. exact H0. }
  assert (Hb : forallb (fun kv : string * list pyval =>
                          Nat.eqb (List.length (snd kv)) (List.length first))
                       ((k, first) :: cols) = true).
  { apply forallb_forall. intros kv Hin. rewrite Forall_forall in Hall.
    apply Nat.eqb_eq. rewrite (Hall _ Hin). symmetry. exact Hfirst. }
  rewrite Hb. eexists. split; [reflexivity|]. cbn [columns rows]. split.
  - reflexivity.
  - rewrite length_map, length_seq. exact Hfirst.
Qed.

Lemma valid_flat_lookup (housing_config : dict (dict pyval)) (col : string) :
  valid_flat housing_config -> In col (dict_keys housing_config) ->
  exists a, dict_lookup housing_config col = Some a /\ valid_attribute a.
Proof.
  intros Hv Hin. destruct (dict_lookup_in housing_config col Hin) as (a & Hl & Hmem).
  exists a. split; [exact Hl|].
  unfold valid_flat in Hv. rewrite Forall_forall in Hv. exact (Hv _ Hmem).
Qed.

(** With a valid configuration of at least one attribute
    [generate_housing_data_df] returns a frame of [sample_size] rows. *)
Lemma generate_housing_data_df_rows (housing_config : dict (dict pyval))
    (sample_size : Z) (g : rng) :
  valid_flat housing_config -> housing_config <> [] -> 0 <= sample_size ->
  exists df g',
    generate_housing_data_df housing_config sample_size g = (Ok df, g')
    /\ df_len df = sample_size.
Proof.
  intros Hv Hne Hn. unfold generate_housing_data_df.
  destruct (housing_cols_loop_valid (dict_keys housing_config) housing_config
              sample_size (fun c Hc => valid_flat_lookup housing_config c Hv Hc)
              [] g (Forall_nil _))
    as (out & g' & Hrun & Hlen & Hkeys).
  assert (Hout : out <> []).
  { destruct housing_config as [|[k a] rest]; [congruence|].
    intros ->. apply (proj2 (Hkeys k)). right. left. reflexivity. }
  destruct (DataFrame_of_columns_same_length out _ Hout Hlen) as (df & Hdf & _ & Hrows).
  exists df, g'. split.
  - rewrite (bind_ok _ _ _ _ _ Hrun). unfold lift. rewrite Hdf. reflexivity.
  - unfold df_len. rewrite Hrows. lia.
Qed.

Lemma dict_setitem_new {V} (d : dict V) (k : string) (v : V) :
  ~ In k (dict_keys d) -> dict_setitem d k v = d ++ [(k, v)].
Proof.
  unfold dict_keys. induction d as [|[k0 v0] d IH]; cbn [dict_setitem map fst app In];
    intros H; [reflexivity|].
  destruct (String.eqb_spec k0 k) as [->|Hne]; [tauto|].
  rewrite IH; [reflexivity | tauto].
Qed.

(** With [sample_size = 0] every column is the empty list: nothing is
    drawn and no rule is looked at. *)
Lemma housing_cols_loop_zero (cols : list string)
    (housing_config : dict (dict pyval)) :
  (forall col, In col cols -> In col (dict_keys housing_config)) ->
  forall df_cols g,
    NoDup (dict_keys df_cols ++ cols) ->
    housing_cols_loop cols housing_config 0 df_cols g
    = (Ok (df_cols ++ map (fun col => (col, [])) cols), g).
Proof.
  induction cols as [|col rest IH]; intros Hin df_cols g Hnd.
  - cbn [housing_cols_loop map]. rewrite app_nil_r. reflexivity.
  - cbn [housing_cols_loop map].
    destruct (dict_getitem_in housing_config col (Hin col (or_introl eq_refl)))
      as (a & Hget & _).
    rewrite Hget, bind_lift_ok. change (Z.to_nat 0) with O. cbn [column_values].
    unfold bind at 1. unfold ret at 1.
    assert (Hnew : ~ In col (dict_keys df_cols)).
    { apply NoDup_remove_2 in Hnd. intros H. apply Hnd.
      apply in_or_app. left. exact H. }
    rewrite (dict_setitem_new df_cols col [] Hnew).
    rewrite IH.
    + rewrite <- app_assoc. reflexivity.
    + intros c Hc. apply Hin. right. exact Hc.
    + unfold dict_keys in *. rewrite map_app. cbn [map fst].
      rewrite <- app_assoc. exact Hnd.
Qed.

Lemma DataFrame_of_empty_columns (labels : list string) :
  DataFrame_of_columns (map (fun col => (col, [])) labels)
  = Ok {| columns := labels; rows := [] |}.
Proof.
  assert (Hb : forall ks, forallb (fun kv : string * list pyval =>
                          Nat.eqb (List.length (snd kv)) 0)
                       (map (fun col => (col, @nil pyval)) ks) = true).
  { intros ks. apply forallb_forall. intros kv Hin. apply in_map_iff in Hin.
    destruct Hin as (c & <- & _). reflexivity. }
  assert (Hk : forall ks, dict_keys (map (fun col => (col, @nil pyval)) ks) = ks).
  { intros ks. unfold dict_keys. rewrite map_map. cbn [fst]. apply map_id. }
  destruct labels as [|k rest]; [reflexivity|].
  unfold DataFrame_of_columns.
  change (map (fun col => (col, @nil pyval)) (k :: rest))
    with ((k, @nil pyval) :: map (fun col => (col, @nil pyval)) rest) at 1.
  cbv iota beta. change (List.length (@nil pyval)) with O.
  rewrite (Hb (k :: rest)), (Hk (k :: rest)). reflexivity.
Qed.

Lemma generate_housing_data_df_zero (housing_config : dict (dict pyval)) (g : rng) :
  NoDup (dict_keys housing_config) ->
  generate_housing_data_df housing_config 0 g
  = (Ok {| columns := dict_keys housing_config; rows := [] |}, g).
Proof.
  intros Hnd. unfold generate_housing_data_df.
  rewrite (bind_ok _ _ _ _ _
             (housing_cols_loop_zero (dict_keys housing_config) housing_config
                (fun c Hc => Hc) [] g Hnd)).
  cbn [app]. unfold lift. rewrite DataFrame_of_empty_columns. reflexivity.
Qed.

End FlatFacts.

(* ================================================================== *)
(** * Properties of the SQLite notebook                                *)
(* ================================================================== *)

Lemma market_ids_length (n : Z) : List.length (market_ids n) = Z.to_nat n.
Proof. unfold market_ids. rewrite length_map, length_seq. reflexivity. Qed.

Lemma market_id_inj (i j : nat) :
  PStr (String.append "prop_" (str_of_int (Z.of_nat i)))
  = PStr (String.append "prop_" (str_of_int (Z.of_nat j))) -> i = j.
Proof.
  intros H. injection H as H. apply str_of_int_inj in H. lia.
Qed.

Lemma NoDup_map_injective {A B} (f : A -> B) (l : list A) :
  (forall x y, f x = f y -> x = y) -> NoDup l -> NoDup (map f l).
Proof.
  intros Hinj Hnd. induction Hnd as [|x l Hnotin Hnd IH]; cbn [map]; constructor.
  - intros Hin. apply in_map_iff in Hin. destruct Hin as (y & Hy & Hin).
    apply Hinj in Hy. subst y. exact (Hnotin Hin).
  - exact IH.
Qed.

Lemma market_ids_NoDup (n : Z) : NoDup (market_ids n).
Proof.
  unfold market_ids. apply NoDup_map_injective; [exact market_id_inj | apply seq_NoDup].
Qed.

Lemma row_cell_replace (labels : list string) (label : string) (v : option pyval) :
  existsb (String.eqb label) labels = true ->
  forall row, List.length row = List.length labels ->
              row_cell labels (row_replace labels row label v) label = Some v.
Proof.
  induction labels as [|l labels IH]; cbn [existsb]; [discriminate|].
  intros H [|c row] Hlen; [discriminate Hlen|].
  cbn [row_replace row_cell].
  destruct (String.eqb_spec l label) as [->|Hne]; [reflexivity|].
  apply IH.
  - destruct (String.eqb_spec label l); [congruence | exact H].
  - cbn [List.length] in Hlen. lia.
Qed.

Lemma row_cell_append (labels : list string) (label : string) (v : option pyval) :
  existsb (String.eqb label) labels = false ->
  forall row, List.length row = List.length labels ->
              row_cell (labels ++ [label]) (row ++ [v]) label = Some v.
Proof.
  induction labels as [|l labels IH]; cbn [existsb]; intros H [|c row] Hlen;
    try discriminate Hlen.
  - cbn [app row_cell]. rewrite String.eqb_refl. reflexivity.
  - apply orb_false_iff in H. destruct H as [Hl Hrest].
    cbn [app row_cell]. rewrite String.eqb_sym, Hl.
    apply IH; [exact Hrest | cbn [List.length] in Hlen; lia].
Qed.

(** After the assignment, every row reads back the value given to it. *)
Lemma attr_after_assignment (labels labels' : list string) (label : string)
    (upd : list (option pyval) -> pyval -> list (option pyval)) :
  (forall row v, List.length row = List.length labels ->
                 row_cell labels' (upd row v) label = Some (Some v)) ->
  forall old values,
    Forall (fun row => List.length row = List.length labels) old ->
    List.length values = List.length old ->
    map (fun row => row_attr labels' row label)
        (map (fun rv => upd (fst rv) (snd rv)) (combine old values))
    = map (fun v => Ok (Some v)) values.
Proof.
  intros Hupd old. induction old as [|row old IH]; intros [|v values] Hall Hlen;
    try discriminate Hlen; [reflexivity|].
  inversion Hall as [|? ? Hrow Hold]; subst.
  cbn [combine map fst snd]. unfold row_attr at 1. rewrite (Hupd row v Hrow).
  f_equal. apply IH; [exact Hold | cbn [List.length] in Hlen; lia].
Qed.

(** [df["market_id"] = ...] succeeds on every frame and numbers the rows
    from zero. *)
Lemma add_market_id_run (df : DataFrame) :
  well_formed df ->
  exists df',
    add_market_id df = Ok df'
    /\ df_len df' = df_len df
    /\ map (fun row => row_attr (columns df') row "market_id") (rows df')
       = map (fun v => Ok (Some v)) (market_ids (df_len df)).
Proof.
  intros Hwf. unfold add_market_id, df_setitem.
  assert (Hlen : List.length (market_ids (df_len df)) = List.length (rows df)).
  { rewrite market_ids_length. unfold df_len. apply Nat2Z.id. }
  remember (market_ids (df_len df)) as values eqn:Ev. clear Ev.
  assert (Hold : match rows df, values with
                 | [], _ :: _ => map (fun _ => map (fun _ => None) (columns df)) values
                 | _, _ => rows df
                 end = rows df).
  { destruct (rows df) as [|r rs] eqn:Er; [|reflexivity].
    destruct values; [reflexivity | discriminate Hlen]. }
  rewrite Hold. rewrite (proj2 (Nat.eqb_eq _ _) Hlen).
  destruct (existsb (String.eqb "market_id") (columns df)) eqn:Hex.
  - eexists. split; [reflexivity|]. cbn [columns rows]. split.
    + unfold df_len. cbn [rows]. rewrite length_map, length_combine, Hlen.
      rewrite Nat.min_id. reflexivity.
    + apply (attr_after_assignment (columns df) (columns df) "market_id"
               (fun row v => row_replace (columns df) row "market_id" (Some v)));
        [|exact Hwf | exact Hlen].
      intros row v Hrow. apply row_cell_replace; assumption.
  - eexists. split; [reflexivity|]. cbn [columns rows]. split.
    + unfold df_len. cbn [rows]. rewrite length_map, length_combine, Hlen.
      rewrite Nat.min_id. reflexivity.
    + apply (attr_after_assignment (columns df) (columns df ++ ["market_id"])
               "market_id" (fun row v => row ++ [Some v]));
        [|exact Hwf | exact Hlen].
      intros row v Hrow. apply row_cell_append; assumption.
Qed.

Lemma house_item_market_id (labels : list string) (row : list (option pyval))
    (o : HousingMarket) :
  house_item labels row = Ok o ->
  row_attr labels row "market_id" = Ok (market_id o).
Proof.
  unfold house_item.
  destruct (row_attr labels row "market_id") as [a0|]; cbn [result_bind]; [|discriminate].
  repeat match goal with
         | |- context [result_bind (row_attr labels row ?n) _] =>
             destruct (row_attr labels row n); cbn [result_bind]; [|discriminate]
         end.
  intros H. injection H as <-. reflexivity.
Qed.

Lemma db_rows_market_ids (labels : list string) (rs : list (list (option pyval))) :
  forall objs,
    result_map (house_item labels) rs = Ok objs ->
    map (fun o => Ok (market_id o)) objs
    = map (fun row => row_attr labels row "market_id") rs.
Proof.
  induction rs as [|row rs IH]; cbn [result_map]; intros objs H.
  - injection H as <-. reflexivity.
  - destruct (house_item labels row) as [o|] eqn:Ho; cbn [result_bind] in H;
      [|discriminate].
    destruct (result_map (house_item labels) rs) as [os|]; cbn [result_bind] in H;
      [|discriminate].
    injection H as <-. cbn [map]. rewrite (house_item_market_id _ _ _ Ho).
    f_equal. apply IH. reflexivity.
Qed.

Lemma map_Ok_inj {A} (l l' : list A) :
  map (@Ok A) l = map (@Ok A) l' -> l = l'.
Proof.
  revert l'. induction l as [|x l IH]; intros [|y l'] H; try discriminate H.
  - reflexivity.
  - cbn [map] in H. injection H as -> H. f_equal. apply IH. exact H.
Qed.

Section DropTablesFacts.
Context {E : Engine}.

(** Whatever the engine does, [drop_tables] does not let an
    [OperationalError] out. *)
Lemma drop_tables_never_operational (table_name : string) (w : world) (msg : string) :
  fst (drop_tables table_name w) <> Raise (OperationalError msg).
Proof.
  unfold drop_tables.
  destruct (execute (String.append "drop table " table_name) (fst w)) as [[u|e] c].
  - discriminate.
  - destruct e; cbn [fst]; discriminate.
Qed.

End DropTablesFacts.

(* ================================================================== *)
(** * The range rule (get_randint_from_range_str)                      *)
(* ================================================================== *)

(** With the concrete generator every value of the interval is drawn
    from some state. *)
Lemma randint_reaches_every_value (lo hi v : Z) :
  lo <= v <= hi -> fst (randint (R := lcg) lo hi (v - lo)) = Ok v.
Proof.
  intros H. rewrite randint_run by lia. cbn [fst randbelow lcg lcg_randbelow].
  rewrite Z.mod_small by lia. f_equal. lia.
Qed.

(** C1. For every range rule with bounds min <= max and every randomness
    source, [get_randint_from_range_str] first draws an integer with
    [random.randint] from the inclusive interval [min, max]; a draw above
    100000 is returned rounded to the nearest multiple of 1000, ties going
    to the even multiple, and any other draw is returned as it is.  The
    rounding belongs to this rule form only: a choice rule returns the
    chosen element of its list as it stands. *)
Theorem C1_range_rule_draw_then_round
    (R : Randomness) (range_rule : string) (min_value max_value : Z) (g : rng) :
  range_bounds range_rule = Ok (min_value, max_value) ->
  min_value <= max_value
  /\ (exists rand_int g',
        randint min_value max_value g = (Ok rand_int, g')
        /\ min_value <= rand_int <= max_value
        /\ get_randint_from_range_str range_rule g
           = (Ok (if 100000 <? rand_int then int_round rand_int (-3) else rand_int),
              g')
        /\ exists q, int_round rand_int (-3) = 1000 * q
                     /\ Z.abs (int_round rand_int (-3) - rand_int) <= 500
                     /\ (Z.abs (int_round rand_int (-3) - rand_int) = 500 ->
                         Z.even q = true))
  /\ (forall config attribute l new_row,
        dict_lookup config attribute = Some (PList l) -> l <> [] ->
        exists v g',
          one_row_body config attribute new_row g
          = (Ok (dict_setitem new_row attribute v), g')
          /\ In v l).
Proof.
  intros Hb. pose proof (range_bounds_ordered _ _ _ Hb) as Hle.
  split; [exact Hle|]. split.
  - eexists. eexists. split; [apply randint_run; exact Hle|].
    split; [apply randint_inside; exact Hle|]. split.
    + rewrite (get_randint_run _ _ _ g Hb). cbn zeta.
      set (d := min_value + fst (randbelow (max_value - min_value + 1) g)).
      destruct (Z.leb_spec d 100000); destruct (Z.ltb_spec 100000 d);
        try lia; reflexivity.
    + apply int_round_thousand.
  - intros config attribute l new_row Hlook Hne.
    destruct (one_row_body_valid config attribute (PList l) new_row g Hlook Hne)
      as (v & g' & Hgen & Hrun).
    exists v, g'. split; [exact Hrun | exact Hgen].
Qed.

Lemma C1_witness :
  range_bounds "100000-200000" = Ok (100000, 200000)
  /\ exists rand_int g',
       randint (R := lcg) 100000 200000 (seed 42) = (Ok rand_int, g')
       /\ 100000 <= rand_int <= 200000
       /\ get_randint_from_range_str "100000-200000" (seed 42)
          = (Ok (if 100000 <? rand_int then int_round rand_int (-3) else rand_int),
             g')
       /\ exists q, int_round rand_int (-3) = 1000 * q
                    /\ Z.abs (int_round rand_int (-3) - rand_int) <= 500
                    /\ (Z.abs (int_round rand_int (-3) - rand_int) = 500 ->
                        Z.even q = true).
Proof.
  split; [reflexivity|].
  exact (proj1 (proj2 (C1_range_rule_draw_then_round lcg "100000-200000"
                         100000 200000 (seed 42) eq_refl))).
Defined.

(** A draw above 100000 and what is returned for it. *)
Example range_rule_rounds :
  randint (R := lcg) 100000 200000 150499 = (Ok 150498, lcg_next 150499)
  /\ get_randint_from_range_str (R := lcg) "100000-200000" 150499
     = (Ok 150000, lcg_next 150499).
Proof. split; vm_compute; reflexivity. Qed.

(** C5. For every valid range rule the draw lies in [min, max]; the
    returned value differs from the draw by at most 500, so it leaves
    [min, max] by at most 500; it is the draw itself up to 100000 and a
    multiple of 1000 above.  In particular for the rule
    ["100000-200000"]: a returned value whose draw exceeded 100000 is a
    multiple of 1000, and the only other draw is 100000 itself. *)
Theorem C5_range_value_near_bounds (R : Randomness) (g : rng) :
  (forall (range_rule : string) (min_value max_value : Z),
      range_bounds range_rule = Ok (min_value, max_value) ->
      exists rand_int v g',
        randint min_value max_value g = (Ok rand_int, g')
        /\ min_value <= rand_int <= max_value
        /\ get_randint_from_range_str range_rule g = (Ok v, g')
        /\ Z.abs (v - rand_int) <= 500
        /\ min_value - 500 <= v <= max_value + 500
        /\ (rand_int <= 100000 -> v = rand_int)
        /\ (100000 < rand_int -> v mod 1000 = 0))
  /\ (exists rand_int v g',
        randint 100000 200000 g = (Ok rand_int, g')
        /\ get_randint_from_range_str "100000-200000" g = (Ok v, g')
        /\ (100000 < rand_int -> v mod 1000 = 0)
        /\ (rand_int <= 100000 -> rand_int = 100000 /\ v = 100000)).
Proof.
  assert (General : forall (range_rule : string) (min_value max_value : Z),
      range_bounds range_rule = Ok (min_value, max_value) ->
      exists rand_int v g',
        randint min_value max_value g = (Ok rand_int, g')
        /\ min_value <= rand_int <= max_value
        /\ get_randint_from_range_str range_rule g = (Ok v, g')
        /\ Z.abs (v - rand_int) <= 500
        /\ min_value - 500 <= v <= max_value + 500
        /\ (rand_int <= 100000 -> v = rand_int)
        /\ (100000 < rand_int -> v mod 1000 = 0)).
  { intros range_rule lo hi Hb.
    pose proof (range_bounds_ordered _ _ _ Hb) as Hle.
    pose proof (randint_inside lo hi g Hle) as Hin.
    eexists. eexists. eexists.
    split; [apply randint_run; exact Hle|]. split; [exact Hin|].
    split; [apply (get_randint_run _ _ _ g Hb)|]. cbn zeta.
    set (d := lo + fst (randbelow (hi - lo + 1) g)) in *.
    destruct (int_round_thousand d) as (q & Hq & Habs & _).
    pose proof (int_round_multiple d) as Hmul.
    destruct (Z.leb_spec d 100000); repeat split; try lia; intros; lia. }
  split; [exact General|].
  destruct (General "100000-200000" 100000 200000 eq_refl)
    as (rand_int & v & g' & Hdraw & Hin & Hrun & _ & _ & Hsmall & Hbig).
  exists rand_int, v, g'. split; [exact Hdraw|]. split; [exact Hrun|].
  split; [exact Hbig|]. intros Hs. rewrite (Hsmall Hs). lia.
Qed.

Lemma C5_witness :
  range_bounds "100400-100600" = Ok (100400, 100600)
  /\ exists rand_int v g',
       randint (R := lcg) 100400 100600 0 = (Ok rand_int, g')
       /\ 100400 <= rand_int <= 100600
       /\ get_randint_from_range_str "100400-100600" 0 = (Ok v, g')
       /\ Z.abs (v - rand_int) <= 500
       /\ 100400 - 500 <= v <= 100600 + 500
       /\ (rand_int <= 100000 -> v = rand_int)
       /\ (100000 < rand_int -> v mod 1000 = 0).
Proof.
  split; [reflexivity|].
  exact (proj1 (C5_range_value_near_bounds lcg 0) "100400-100600" 100400 100600
           eq_refl).
Defined.

(** Rounding can take the value out of the interval: here the draw is
    the lower bound 100400 and the value returned is 100000. *)
Example rounding_leaves_the_interval :
  get_randint_from_range_str (R := lcg) "100400-100600" 0 = (Ok 100000, 12345).
Proof. reflexivity. Qed.

(** A string that does not contain a dash is one piece. *)
Lemma str_of_nonneg_one_piece (n : Z) :
  0 <= n -> split_dash (str_of_int n) = [str_of_int n].
Proof.
  intros H. unfold str_of_int. destruct (Z.ltb_spec n 0); [lia|].
  apply all_digits_split. apply str_of_nonneg_all_digits. exact H.
Qed.

(** C10. For every range string of the form "a-b", where a and b are
    pieces without a dash that [int()] reads as integers,
    [get_randint_from_range_str] draws between the smaller and the larger
    of the two; the reversed string "b-a" gives the same bounds and the
    same outcome, and neither call fails.  Swapping the two sides of the
    dash never changes the outcome, whatever the pieces are. *)
Theorem C10_reversed_range_string
    (R : Randomness) (sa sb : string) (a b : Z) (g : rng) :
  split_dash sa = [sa] -> split_dash sb = [sb] ->
  int_of_str sa = Ok a -> int_of_str sb = Ok b ->
  range_bounds (range_str sa sb) = Ok (Z.min a b, Z.max a b)
  /\ range_bounds (range_str sb sa) = Ok (Z.min a b, Z.max a b)
  /\ (exists rand_int g',
        randint (Z.min a b) (Z.max a b) g = (Ok rand_int, g')
        /\ get_randint_from_range_str (range_str sa sb) g
           = (Ok (if rand_int <=? 100000 then rand_int
                  else int_round rand_int (-3)), g')
        /\ get_randint_from_range_str (range_str sb sa) g
           = (Ok (if rand_int <=? 100000 then rand_int
                  else int_round rand_int (-3)), g'))
  /\ (forall x y : string,
        get_randint_from_range_str (range_str y x) g
        = get_randint_from_range_str (range_str x y) g).
Proof.
  intros Ha Hb Ia Ib.
  pose proof (range_bounds_two sa sb a b Ha Hb Ia Ib) as Hab.
  assert (Hba : range_bounds (range_str sb sa) = Ok (Z.min a b, Z.max a b)).
  { rewrite range_bounds_swap. exact Hab. }
  split; [exact Hab|]. split; [exact Hba|]. split.
  - eexists. eexists. split; [apply randint_run; lia|].
    rewrite (get_randint_run _ _ _ g Hab), (get_randint_run _ _ _ g Hba).
    split; reflexivity.
  - intros x y. rewrite !get_randint_unfold, (range_bounds_swap y x). reflexivity.
Qed.

Lemma C10_witness :
  range_bounds (range_str "10" "2") = Ok (2, 10)
  /\ range_bounds (range_str "2" "10") = Ok (2, 10)
  /\ get_randint_from_range_str (R := lcg) "2-10" (seed 42)
     = get_randint_from_range_str (R := lcg) "10-2" (seed 42).
Proof.
  pose proof (C10_reversed_range_string lcg "10" "2" 10 2 (seed 42)
                eq_refl eq_refl eq_refl eq_refl) as H.
  split; [exact (proj1 H)|]. split; [exact (proj1 (proj2 H))|].
  exact (proj2 (proj2 (proj2 H)) "10" "2").
Defined.

(** The theorem covers every pair of natural numbers written in
    decimal. *)
Lemma range_of_naturals (a b : Z) :
  0 <= a -> 0 <= b ->
  range_bounds (range_str (str_of_int a) (str_of_int b)) = Ok (Z.min a b, Z.max a b).
Proof.
  intros Ha Hb. apply range_bounds_two;
    auto using str_of_nonneg_one_piece, int_of_str_of_int.
Qed.

(** A minus sign is taken for the separator: a negative endpoint cannot
    be written in a range string. *)
Example negative_endpoint_is_not_read :
  range_str (str_of_int (-5)) (str_of_int 10) = "-5-10"
  /\ split_dash "-5-10" = [EmptyString; "5"; "10"]
  /\ int_of_str EmptyString = Raise ValueError
  /\ get_randint_from_range_str (R := lcg) "-5-10" 42 = (Raise ValueError, 42).
Proof. repeat split; reflexivity. Qed.

(* ================================================================== *)
(** * Rows and datasets                                                *)
(* ================================================================== *)

Lemma tier_1_valid : valid_tier tier_1.
Proof.
  unfold valid_tier, tier_1.
  repeat (apply Forall_cons; [cbn [snd valid_rule]|]); try apply Forall_nil;
    try (eexists; eexists; vm_compute; reflexivity); discriminate.
Qed.

Lemma housing_tiered_valid : valid_tiers housing_tiered.
Proof.
  split; [discriminate|]. constructor; [exact tier_1_valid | constructor].
Qed.

Lemma housing_flat_valid : valid_flat housing_flat.
Proof.
  unfold valid_flat, housing_flat.
  repeat (apply Forall_cons; [cbn [snd]|]); [| | | | | | |apply Forall_nil].
  - apply (valid_dist _ 500000 200000); try reflexivity; unfold int64; lia.
  - apply (valid_min_max _ 50 300); try reflexivity; lia.
  - apply (valid_min_max _ 1 5); try reflexivity; lia.
  - apply (valid_min_max _ 1 5); try reflexivity; lia.
  - apply valid_bool; reflexivity.
  - apply valid_bool; reflexivity.
  - eapply valid_list; try reflexivity; discriminate.
Qed.

(** C3. For every rule-set (every attribute mapped to a range string
    that can be read or to a non-empty list) and every randomness source,
    one call of [generate_one_row_random_house_data] returns a row whose
    keys are exactly the keys of the rule-set, each key once, with a value
    generated by the rule of that key. *)
Theorem C3_row_has_the_keys_of_the_rule_set
    (R : Randomness) (config : dict pyval) (g : rng) :
  valid_tier config ->
  exists row g',
    generate_one_row_random_house_data config g = (Ok row, g')
    /\ (forall k, In k (dict_keys row) <-> In k (dict_keys config))
    /\ NoDup (dict_keys row)
    /\ (forall k v, dict_lookup row k = Some v ->
          exists rule, dict_lookup config k = Some rule /\ generated_by rule v).
Proof. intros Hv. apply generate_one_row_valid. exact Hv. Qed.

Lemma C3_witness :
  valid_tier tier_1
  /\ exists row g',
       generate_one_row_random_house_data (R := lcg) tier_1 (seed 42) = (Ok row, g')
       /\ (forall k, In k (dict_keys row) <-> In k (dict_keys tier_1))
       /\ NoDup (dict_keys row)
       /\ (forall k v, dict_lookup row k = Some v ->
             exists rule, dict_lookup tier_1 k = Some rule /\ generated_by rule v).
Proof.
  split; [exact tier_1_valid|].
  exact (C3_row_has_the_keys_of_the_rule_set lcg tier_1 (seed 42) tier_1_valid).
Defined.

(** In a row made from [tier_1] the keys even come in the order of the
    configuration. *)
Example tier_1_row :
  generate_one_row_random_house_data (R := lcg) tier_1 (seed 42)
  = (Ok [("price", PInt 100000); ("bedrooms", PInt 1); ("bathrooms", PInt 3);
         ("estate_agent_code", PInt 4); ("transport_link_code", PInt 7);
         ("council_tax", PStr "B"); ("freehold", PBool true);
         ("garage", PBool false); ("parking", PBool true)],
     1314989459).
Proof. vm_compute. reflexivity. Qed.


(** C4, as the code has it.  For every valid configuration and every
    row count N >= 0, [generate_housing_df] returns a dataset of exactly
    N rows, and so does [generate_housing_data_df] when the configuration
    has at least one attribute.  For N = 0 the dataset of
    [generate_housing_data_df] keeps its columns and is written (without
    index) as the header line of attribute names alone, whereas the
    dataset of [generate_housing_df] has no column and is written as one
    empty line. *)
Theorem C4_dataset_size_and_empty_dataset
    (R : Randomness) (fmt : option pyval -> string)
    (tiered flat : dict (dict pyval)) (N : Z) (g : rng) :
  0 <= N ->
  (valid_tiers tiered ->
     exists df g', generate_housing_df tiered N g = (Ok df, g') /\ df_len df = N)
  /\ (valid_flat flat -> flat <> [] ->
     exists df g', generate_housing_data_df flat N g = (Ok df, g') /\ df_len df = N)
  /\ (NoDup (dict_keys flat) ->
     exists df, generate_housing_data_df flat 0 g = (Ok df, g)
                /\ df_len df = 0
                /\ columns df = dict_keys flat
                /\ to_csv fmt false df = csv_writerow (dict_keys flat))
  /\ (exists df, generate_housing_df tiered 0 g = (Ok df, g)
                 /\ df_len df = 0
                 /\ columns df = []
                 /\ to_csv fmt false df = String newline EmptyString).
Proof.
  intros HN. split; [|split; [|split]].
  - intros Hv. apply generate_housing_df_rows; assumption.
  - intros Hv Hne. apply generate_housing_data_df_rows; assumption.
  - intros Hnd. eexists. split; [apply generate_housing_data_df_zero; exact Hnd|].
    repeat split.
  - eexists. split; [reflexivity|]. repeat split.
Qed.

Lemma housing_flat_keys : NoDup (dict_keys housing_flat).
Proof.
  repeat (constructor; [cbn [In]; intuition discriminate|]). constructor.
Qed.

Lemma C4_witness :
  0 <= 3 /\ valid_tiers housing_tiered /\ valid_flat housing_flat
  /\ (exists df g',
        generate_housing_df (R := lcg) housing_tiered 3 (seed 42) = (Ok df, g')
        /\ df_len df = 3)
  /\ (exists df g',
        generate_housing_data_df (R := lcg) housing_flat 3 (seed 42) = (Ok df, g')
        /\ df_len df = 3)
  /\ (exists df,
        generate_housing_data_df (R := lcg) housing_flat 0 (seed 42)
        = (Ok df, seed 42)
        /\ df_len df = 0
        /\ columns df = dict_keys housing_flat
        /\ to_csv plain_fmt false df = csv_writerow (dict_keys housing_flat)).
Proof.
  pose proof (C4_dataset_size_and_empty_dataset lcg plain_fmt housing_tiered
                housing_flat 3 (seed 42) ltac:(lia)) as H.
  split; [lia|]. split; [exact housing_tiered_valid|].
  split; [exact housing_flat_valid|]. split; [|split].
  - exact (proj1 H housing_tiered_valid).
  - exact (proj1 (proj2 H) housing_flat_valid ltac:(discriminate)).
  - exact (proj1 (proj2 (proj2 H)) housing_flat_keys).
Defined.

(** The header that the flat builder writes for no rows. *)
Example flat_csv_no_rows :
  csv_writerow (dict_keys housing_flat)
  = String.append "price,area,bathrooms,bedrooms,garage,parking,council_tax_band"
                  (String newline EmptyString).
Proof. reflexivity. Qed.

(** C4 as stated fails for [generate_housing_df] at N = 0: the frame is
    built from the empty list of rows, so it has no columns, and what is
    written is an empty line, not the header of attribute names.  It also
    fails for [generate_housing_data_df] on the configuration without
    attributes, whose frame has no row whatever N is. *)
Lemma C4_counterexample :
  (exists df,
     generate_housing_df (R := lcg) housing_tiered 0 (seed 42) = (Ok df, seed 42)
     /\ columns df = []
     /\ to_csv plain_fmt false df = String newline EmptyString
     /\ to_csv plain_fmt false df <> csv_writerow (dict_keys tier_1))
  /\ (exists df,
        generate_housing_data_df (R := lcg) [] 3 (seed 42) = (Ok df, seed 42)
        /\ df_len df = 0).
Proof.
  split.
  - eexists. split; [reflexivity|]. repeat split. discriminate.
  - eexists. split; [reflexivity|]. reflexivity.
Qed.

(** With one row or more the header of [generate_housing_df] is there. *)
Example tiered_csv_two_rows :
  exists df g',
    generate_housing_df (R := lcg) [("tier-1", [("bedrooms", PStr "1-3");
                                                ("garage", PList [PBool false])])]
                        2 (seed 42) = (Ok df, g')
    /\ to_csv plain_fmt false df
       = String.concat (String newline EmptyString)
           ["bedrooms,garage"; "1,False"; "2,False"; EmptyString].
Proof. eexists. eexists. split; vm_compute; reflexivity. Qed.

(* ================================================================== *)
(** * Loading and errors                                               *)
(* ================================================================== *)

(** C2, as the code has it.  Loading is [tomli.load] and nothing else: a
    file that is not TOML is rejected, every other file is returned as
    decoded, whatever its rules are.  A [min_max] rule without [min] or
    without [max] fails when a value is generated from it, with a
    [KeyError]; a rule with an unrecognized type generates [None] without
    any error. *)
Theorem C2_loading_does_not_validate (R : Randomness) (doc : dict (dict pyval)) :
  tomli_load Malformed = Raise TOMLDecodeError
  /\ tomli_load (Document doc) = Ok doc
  /\ (forall attribute g,
        dict_lookup attribute "type" = Some (PStr "min_max") ->
        dict_lookup attribute "min" = None ->
        build_random_housing_column_value attribute g
        = (Raise (KeyError (PStr "min")), g))
  /\ (forall attribute lo g,
        dict_lookup attribute "type" = Some (PStr "min_max") ->
        dict_lookup attribute "min" = Some lo ->
        dict_lookup attribute "max" = None ->
        build_random_housing_column_value attribute g
        = (Raise (KeyError (PStr "max")), g))
  /\ (forall attribute type g,
        dict_lookup attribute "type" = Some type -> recognized type = false ->
        build_random_housing_column_value attribute g = (Ok PNone, g)).
Proof.
  split; [reflexivity|]. split; [reflexivity|]. split; [|split].
  - intros. apply build_min_max_without_min; assumption.
  - intros. eapply build_min_max_without_max; eassumption.
  - intros. eapply build_unrecognized; eassumption.
Qed.

Lemma C2_witness :
  tomli_load (Document housing_without_min) = Ok housing_without_min
  /\ build_random_housing_column_value (R := lcg)
       [("type", PStr "min_max"); ("max", PInt 300)] (seed 42)
     = (Raise (KeyError (PStr "min")), seed 42).
Proof.
  pose proof (C2_loading_does_not_validate lcg housing_without_min) as H.
  split; [exact (proj1 (proj2 H))|].
  exact (proj1 (proj2 (proj2 H)) [("type", PStr "min_max"); ("max", PInt 300)]
           (seed 42) eq_refl eq_refl).
Defined.

(** C2 as stated fails: the file whose section [area] lacks [min] is
    loaded without complaint, and the [KeyError] comes in the middle of
    generation, after column [bedrooms] has been drawn (the generator has
    moved).  The file with the unknown type [triangular] is loaded and
    generated from without any error. *)
Lemma C2_counterexample :
  tomli_load (Document housing_without_min) = Ok housing_without_min
  /\ generate_housing_data_df (R := lcg) housing_without_min 2 (seed 42)
     = (Raise (KeyError (PStr "min")), 1116302264)
  /\ tomli_load (Document housing_unknown_type) = Ok housing_unknown_type
  /\ generate_housing_data_df (R := lcg) housing_unknown_type 2 (seed 42)
     = (Ok {| columns := ["roof"; "garage"];
              rows := [[Some PNone; Some (PBool true)];
                       [Some PNone; Some (PBool false)]] |}, 1116302264).
Proof. repeat split; vm_compute; reflexivity. Qed.

(** C6, as the code has it.  A rule whose type is not recognized is no
    error: [build_random_housing_column_value] returns [None] for it, and
    the loop of [generate_one_row_random_house_data] passes over a value
    that is neither a string nor a list.  On a validated configuration
    generation raises nothing. *)
Theorem C6_unrecognized_rule_is_no_error (R : Randomness) (g : rng) :
  (forall attribute type,
      dict_lookup attribute "type" = Some type -> recognized type = false ->
      build_random_housing_column_value attribute g = (Ok PNone, g))
  /\ (forall config attribute value new_row,
        dict_lookup config attribute = Some value ->
        (forall s, value <> PStr s) -> (forall l, value <> PList l) ->
        one_row_body config attribute new_row g = (Ok new_row, g))
  /\ (forall attribute,
        valid_attribute attribute ->
        exists v g', build_random_housing_column_value attribute g = (Ok v, g'))
  /\ (forall config,
        valid_tier config ->
        exists row g', generate_one_row_random_house_data config g = (Ok row, g')).
Proof.
  split; [|split; [|split]].
  - intros. eapply build_unrecognized; eassumption.
  - intros. apply (one_row_body_skips config attribute value); assumption.
  - intros attribute Hv. apply build_valid. exact Hv.
  - intros config Hv. destruct (generate_one_row_valid config g Hv) as (row & g' & H & _).
    exists row, g'. exact H.
Qed.

Lemma C6_witness :
  build_random_housing_column_value (R := lcg) [("type", PStr "triangular")] (seed 42)
  = (Ok PNone, seed 42)
  /\ exists row g',
       generate_one_row_random_house_data (R := lcg) tier_1 (seed 42) = (Ok row, g').
Proof.
  pose proof (C6_unrecognized_rule_is_no_error lcg (seed 42)) as H.
  split.
  - exact (proj1 H [("type", PStr "triangular")] (PStr "triangular") eq_refl eq_refl).
  - exact (proj2 (proj2 (proj2 H)) tier_1 tier_1_valid).
Defined.

(** C6 as stated fails: the rule of type [triangular] reaches the
    generation stage and no error is raised, [None] is the value; and the
    tiered generator drops an attribute whose value is a bare boolean. *)
Lemma C6_counterexample :
  build_random_housing_column_value (R := lcg)
    [("type", PStr "triangular"); ("min", PInt 1); ("max", PInt 3)] (seed 42)
  = (Ok PNone, seed 42)
  /\ generate_one_row_random_house_data (R := lcg) [("garage", PBool false)] (seed 42)
     = (Ok [], seed 42).
Proof. split; reflexivity. Qed.

(* ================================================================== *)
(** * Reproducibility                                                  *)
(* ================================================================== *)

Section SameDraws.
Variables R1 R2 : Randomness.
Variable sim : @rng R1 -> @rng R2 -> Prop.
Hypothesis Hsame : same_draws R1 R2 sim.

Lemma related_ret {A} (a : A) : related sim (ret (R := R1) a) (ret (R := R2) a).
Proof. intros g1 g2 H. split; [reflexivity | exact H]. Qed.

Lemma related_raise {A} (e : exn) :
  related sim (raise (R := R1) (A := A) e) (raise (R := R2) e).
Proof. intros g1 g2 H. split; [reflexivity | exact H]. Qed.

Lemma related_lift {A} (r : result A) :
  related sim (lift (R := R1) r) (lift (R := R2) r).
Proof. intros g1 g2 H. split; [reflexivity | exact H]. Qed.

Lemma related_bind {A B} (m1 : @M R1 A) (m2 : @M R2 A)
    (k1 : A -> @M R1 B) (k2 : A -> @M R2 B) :
  related sim m1 m2 -> (forall a, related sim (k1 a) (k2 a)) ->
  related sim (bind m1 k1) (bind m2 k2).
Proof.
  intros Hm Hk g1 g2 H. unfold bind. destruct (Hm g1 g2 H) as [Hfst Hsnd].
  destruct (m1 g1) as [[a1|e1] h1]; destruct (m2 g2) as [[a2|e2] h2];
    cbn [fst snd] in Hfst, Hsnd; try discriminate Hfst.
  - injection Hfst as <-. apply Hk. exact Hsnd.
  - injection Hfst as <-. split; [reflexivity | exact Hsnd].
Qed.

Lemma related_randint (a b : Z) :
  related sim (randint (R := R1) a b) (randint (R := R2) a b).
Proof.
  unfold randint, randrange. destruct (0 <? b + 1 - a); [|apply related_raise].
  intros g1 g2 H. destruct (proj1 (Hsame g1 g2 H) (b + 1 - a)) as [Hv Hs].
  cbn [fst snd]. rewrite Hv. split; [reflexivity | exact Hs].
Qed.

Lemma related_choice {A} (seq : list A) :
  related sim (choice (R := R1) seq) (choice (R := R2) seq).
Proof.
  unfold choice. destruct seq as [|x seq]; [apply related_raise|].
  intros g1 g2 H.
  destruct (proj1 (Hsame g1 g2 H) (Z.of_nat (List.length (x :: seq)))) as [Hv Hs].
  cbn [fst snd]. rewrite Hv. split; [reflexivity | exact Hs].
Qed.

Lemma related_get_randint (range_string : string) :
  related sim (get_randint_from_range_str (R := R1) range_string)
              (get_randint_from_range_str (R := R2) range_string).
Proof.
  unfold get_randint_from_range_str.
  apply related_bind; [apply related_lift | intros range_list].
  apply related_bind; [apply related_lift | intros min_value].
  apply related_bind; [apply related_lift | intros max_value].
  apply related_bind; [apply related_randint | intros rand_int].
  apply related_ret.
Qed.

Lemma related_one_row_body (config : dict pyval) (attribute : string)
    (new_row : dict pyval) :
  related sim (one_row_body (R := R1) config attribute new_row)
              (one_row_body (R := R2) config attribute new_row).
Proof.
  unfold one_row_body. apply related_bind; [apply related_lift | intros value].
  apply related_bind.
  - destruct value; try apply related_ret.
    apply related_bind; [apply related_get_randint | intros v; apply related_ret].
  - intros row. destruct value; try apply related_ret.
    apply related_bind; [apply related_choice | intros v; apply related_ret].
Qed.

Lemma related_one_row_loop (attributes : list string) (config : dict pyval) :
  forall new_row,
    related sim (one_row_loop (R := R1) attributes config new_row)
                (one_row_loop (R := R2) attributes config new_row).
Proof.
  induction attributes as [|a rest IH]; intros new_row; cbn [one_row_loop].
  - apply related_ret.
  - apply related_bind; [apply related_one_row_body | exact IH].
Qed.

Lemma related_get_random_tier_config (housing_config : dict (dict pyval)) :
  related sim (get_random_tier_config (R := R1) housing_config)
              (get_random_tier_config (R := R2) housing_config).
Proof.
  unfold get_random_tier_config.
  apply related_bind; [apply related_choice | intros random_tier].
  apply related_bind; [apply related_lift | intros tier_config; apply related_ret].
Qed.

Lemma related_housing_rows_loop (n : nat) (housing_config : dict (dict pyval)) :
  forall df_rows,
    related sim (housing_rows_loop (R := R1) n housing_config df_rows)
                (housing_rows_loop (R := R2) n housing_config df_rows).
Proof.
  induction n as [|n IH]; intros df_rows; cbn [housing_rows_loop].
  - apply related_ret.
  - apply related_bind; [apply related_get_random_tier_config | intros tier_config].
    apply related_bind; [|intros new_row; apply IH].
    unfold generate_one_row_random_house_data. apply related_one_row_loop.
Qed.

Lemma related_generate_housing_df (housing_config : dict (dict pyval))
    (row_size : Z) :
  related sim (generate_housing_df (R := R1) housing_config row_size)
              (generate_housing_df (R := R2) housing_config row_size).
Proof.
  unfold generate_housing_df.
  apply related_bind; [apply related_housing_rows_loop | intros df_rows].
  apply related_ret.
Qed.

Lemma related_randint_args (a b : pyval) :
  related sim (randint_args (R := R1) a b) (randint_args (R := R2) a b).
Proof.
  unfold randint_args. destruct (as_index b); [|apply related_raise].
  destruct a; cbn [as_index];
    first [apply related_raise | apply related_randint].
Qed.

Lemma related_choice_args (seq : pyval) :
  related sim (choice_args (R := R1) seq) (choice_args (R := R2) seq).
Proof.
  destruct seq as [| b | z | s | l | d]; cbn [choice_args];
    try apply related_raise; try apply related_choice.
  destruct d as [|kv d]; [apply related_raise|].
  intros g1 g2 H.
  destruct (proj1 (Hsame g1 g2 H) (Z.of_nat (List.length (kv :: d)))) as [Hv Hs].
  cbn [fst snd]. rewrite Hv. split; [reflexivity | exact Hs].
Qed.

Lemma related_dist (mean sd : pyval) :
  related sim
    (sample_price <- np_normal (Randomness := R1) mean sd ;;
     v <- lift (float_int (np_round sample_price (-3))) ;; ret (PInt v))
    (sample_price <- np_normal (Randomness := R2) mean sd ;;
     v <- lift (float_int (np_round sample_price (-3))) ;; ret (PInt v)).
Proof.
  intros g1 g2 H. destruct (proj2 (Hsame g1 g2 H) mean sd) as [Hv Hs].
  unfold normal_thousands, bind, lift, ret in *.
  destruct (np_normal (Randomness := R1) mean sd g1) as [[x1|e1] h1];
    destruct (np_normal (Randomness := R2) mean sd g2) as [[x2|e2] h2];
    cbn [fst snd] in *.
  - destruct (float_int (np_round x1 (-3))); destruct (float_int (np_round x2 (-3)));
      cbn [fst snd] in *; try discriminate Hv.
    + injection Hv as <-. split; [reflexivity | exact Hs].
    + injection Hv as <-. split; [reflexivity | exact Hs].
  - destruct (float_int (np_round x1 (-3))); cbn [fst snd] in *;
      try discriminate Hv.
    injection Hv as <-. split; [reflexivity | exact Hs].
  - destruct (float_int (np_round x2 (-3))); cbn [fst snd] in *;
      try discriminate Hv.
    injection Hv as <-. split; [reflexivity | exact Hs].
  - injection Hv as <-. split; [reflexivity | exact Hs].
Qed.

Lemma related_build (attribute : dict pyval) :
  related sim (build_random_housing_column_value (R := R1) attribute)
              (build_random_housing_column_value (R := R2) attribute).
Proof.
  unfold build_random_housing_column_value.
  apply related_bind; [apply related_lift | intros type].
  destruct (eq_str type "min_max").
  { apply related_bind; [apply related_lift | intros lo].
    apply related_bind; [apply related_lift | intros hi].
    apply related_bind; [apply related_randint_args | intros v; apply related_ret]. }
  destruct (eq_str (dict_get attribute "type") "bool"); [apply related_choice|].
  destruct (eq_str (dict_get attribute "type") "dist").
  { apply related_bind; [apply related_lift | intros mean].
    apply related_bind; [apply related_lift | intros sd].
    apply related_dist. }
  destruct (eq_str (dict_get attribute "type") "list"); [|apply related_ret].
  apply related_bind; [apply related_lift | intros l; apply related_choice_args].
Qed.

Lemma related_column_values (n : nat) (column_config : dict pyval) :
  related sim (column_values (R := R1) n column_config)
              (column_values (R := R2) n column_config).
Proof.
  induction n as [|n IH]; cbn [column_values]; [apply related_ret|].
  apply related_bind; [apply related_build | intros v].
  apply related_bind; [exact IH | intros vs; apply related_ret].
Qed.

Lemma related_housing_cols_loop (cols : list string)
    (housing_config : dict (dict pyval)) (sample_size : Z) :
  forall df_cols,
    related sim (housing_cols_loop (R := R1) cols housing_config sample_size df_cols)
                (housing_cols_loop (R := R2) cols housing_config sample_size df_cols).
Proof.
  induction cols as [|col rest IH]; intros df_cols; cbn [housing_cols_loop].
  - apply related_ret.
  - apply related_bind; [apply related_lift | intros column_config].
    apply related_bind; [apply related_column_values | intros values; apply IH].
Qed.

Lemma related_generate_housing_data_df (housing_config : dict (dict pyval))
    (sample_size : Z) :
  related sim (generate_housing_data_df (R := R1) housing_config sample_size)
              (generate_housing_data_df (R := R2) housing_config sample_size).
Proof.
  unfold generate_housing_data_df.
  apply related_bind; [apply related_housing_cols_loop | intros df_cols].
  apply related_lift.
Qed.

End SameDraws.

(** The counting generator delivers the numbers of the plain one. *)
Lemma lcg_counting_same_draws :
  same_draws lcg lcg_counting (fun g gc => g = fst gc).
Proof.
  intros g [g' c] H. cbn [fst] in H. subst g'. split.
  - intros n. split; reflexivity.
  - intros loc scale. unfold normal_thousands, bind, lift.
    cbn [np_normal np_round float_int lcg lcg_counting fst snd].
    destruct (lcg_normal loc scale g) as [[x|e] h]; cbn [fst snd];
      split; reflexivity.
Qed.




(** The draws of a run, counted: two rows of [tier_1] take twenty draws,
    one for the tier and nine for the attributes of each row. *)
Example two_rows_take_twenty_draws :
  snd (snd (generate_housing_df (R := lcg_counting) housing_tiered 2 (42, O))) = 20%nat.
Proof. vm_compute. reflexivity. Qed.

(* ================================================================== *)
(** * The SQLite notebook                                              *)
(* ================================================================== *)

(** C8. For every table name and every state of the database,
    [drop_tables] lets no [OperationalError] out: when executing the drop
    statement raises one, the error is printed and the call returns
    normally. *)
Theorem C8_drop_tables_swallows_operational_error
    (E : Engine) (table_name : string) (w : world) :
  (forall msg, fst (drop_tables table_name w) <> Raise (OperationalError msg))
  /\ (forall msg c,
        execute (String.append "drop table " table_name) (fst w)
        = (Raise (OperationalError msg), c) ->
        drop_tables table_name w = (Ok tt, (c, snd w ++ [msg]))).
Proof.
  split.
  - intros msg. apply drop_tables_never_operational.
  - intros msg c H. unfold drop_tables. rewrite H. reflexivity.
Qed.

Lemma C8_witness :
  execute (String.append "drop table " "estate_agent_codes") ["housing_market"]
  = (Raise (OperationalError "no such table: estate_agent_codes"), ["housing_market"])
  /\ drop_tables "estate_agent_codes" (["housing_market"], [])
     = (Ok tt, (["housing_market"], ["no such table: estate_agent_codes"])).
Proof.
  split; [reflexivity|].
  exact (proj2 (C8_drop_tables_swallows_operational_error tables_engine
                  "estate_agent_codes" (["housing_market"], []))
           "no such table: estate_agent_codes" ["housing_market"] eq_refl).
Defined.

(** Dropping the two tables of the notebook, the second of which is
    there. *)
Example drop_both_tables :
  let w1 := snd (drop_tables "estate_agent_codes" (["housing_market"], [])) in
  drop_tables "housing_market" w1
  = (Ok tt, ([], ["no such table: estate_agent_codes"])).
Proof. reflexivity. Qed.

(** C9. For every dataset of N rows, the assignment of [market_id]
    succeeds and gives row i the identifier "prop_" followed by i in
    decimal, for i from 0 to N-1; the objects built from the rows for the
    database carry these identifiers as primary keys, so the keys are
    pairwise distinct. *)
Theorem C9_market_id_is_prefix_and_row_index (df : DataFrame) :
  well_formed df ->
  exists df',
    add_market_id df = Ok df'
    /\ df_len df' = df_len df
    /\ map (fun row => row_attr (columns df') row "market_id") (rows df')
       = map (fun i => Ok (Some (PStr (String.append "prop_"
                                         (str_of_int (Z.of_nat i))))))
             (seq 0 (List.length (rows df)))
    /\ (forall objs,
          db_rows df' = Ok objs ->
          map market_id objs
          = map (fun i => Some (PStr (String.append "prop_"
                                        (str_of_int (Z.of_nat i)))))
                (seq 0 (List.length (rows df)))
          /\ NoDup (map market_id objs)).
Proof.
  intros Hwf. destruct (add_market_id_run df Hwf) as (df' & Hrun & Hlen & Hattr).
  assert (Hids : market_ids (df_len df)
                 = map (fun i => PStr (String.append "prop_" (str_of_int (Z.of_nat i))))
                       (seq 0 (List.length (rows df)))).
  { unfold market_ids, df_len. rewrite Nat2Z.id. reflexivity. }
  exists df'. split; [exact Hrun|]. split; [exact Hlen|]. split.
  - rewrite Hattr, Hids, map_map. reflexivity.
  - intros objs Hobjs. unfold db_rows in Hobjs.
    pose proof (db_rows_market_ids _ _ _ Hobjs) as Hm.
    rewrite Hattr in Hm.
    assert (Hkeys : map market_id objs = map Some (market_ids (df_len df))).
    { apply map_Ok_inj. rewrite !map_map. exact Hm. }
    split.
    + rewrite Hkeys, Hids, map_map. reflexivity.
    + rewrite Hkeys. apply NoDup_map_injective; [congruence | apply market_ids_NoDup].
Qed.

Lemma housing_data_well_formed : well_formed housing_data.
Proof. repeat constructor. Qed.

Lemma C9_witness :
  well_formed housing_data
  /\ exists df',
       add_market_id housing_data = Ok df'
       /\ df_len df' = df_len housing_data
       /\ map (fun row => row_attr (columns df') row "market_id") (rows df')
          = map (fun i => Ok (Some (PStr (String.append "prop_"
                                            (str_of_int (Z.of_nat i))))))
                (seq 0 (List.length (rows housing_data)))
       /\ (forall objs,
             db_rows df' = Ok objs ->
             map market_id objs
             = map (fun i => Some (PStr (String.append "prop_"
                                           (str_of_int (Z.of_nat i)))))
                   (seq 0 (List.length (rows housing_data)))
             /\ NoDup (map market_id objs)).
Proof.
  split; [exact housing_data_well_formed|].
  exact (C9_market_id_is_prefix_and_row_index housing_data housing_data_well_formed).
Defined.

(** The two rows of the notebook, ready for the session. *)
Example housing_data_db_rows :
  exists df' objs,
    add_market_id housing_data = Ok df'
    /\ db_rows df' = Ok objs
    /\ map market_id objs = [Some (PStr "prop_0"); Some (PStr "prop_1")].
Proof. eexists. eexists. repeat split; vm_compute; reflexivity. Qed.

(* ================================================================== *)
(** * More on range strings                                            *)
(* ================================================================== *)

Lemma result_map_length {A B} (f : A -> result B) (l : list A) :
  forall ys, result_map f l = Ok ys -> List.length ys = List.length l.
Proof.
  induction l as [|x l IH]; cbn [result_map]; intros ys H.
  - injection H as <-. reflexivity.
  - destruct (f x); cbn [result_bind] in H; [|discriminate].
    destruct (result_map f l) as [ys'|]; cbn [result_bind] in H; [|discriminate].
    injection H as <-. cbn [List.length]. rewrite (IH ys' eq_refl). reflexivity.
Qed.

Lemma result_map_raise_exists {A B} (f : A -> result B) (l : list A) (e : exn) :
  result_map f l = Raise e -> Exists (fun x => f x = Raise e) l.
Proof.
  induction l as [|x l IH]; cbn [result_map]; [discriminate|].
  destruct (f x) eqn:Hx; cbn [result_bind].
  - destruct (result_map f l); cbn [result_bind]; [discriminate|].
    intros H. apply Exists_cons_tl. apply IH. congruence.
  - intros H. apply Exists_cons_hd. congruence.
Qed.

(** What is read off a string whose pieces are all integers. *)
Lemma range_bounds_of_pieces (s : string) (zs : list Z) :
  result_map int_of_str (split_dash s) = Ok zs ->
  exists lo hi, range_bounds s = Ok (lo, hi)
                /\ In lo zs /\ In hi zs /\ Forall (fun z => lo <= z <= hi) zs.
Proof.
  intros H. unfold range_bounds. rewrite H. cbn [result_bind].
  assert (Hne : zs <> []).
  { pose proof (result_map_length _ _ _ H) as Hlen.
    pose proof (split_dash_nonempty s) as Hs.
    intros ->. destruct (split_dash s); [congruence | discriminate Hlen]. }
  destruct zs as [|z zs]; [congruence|].
  destruct (py_min (z :: zs)) as [lo|] eqn:Elo; [|discriminate Elo].
  destruct (py_max (z :: zs)) as [hi|] eqn:Ehi; [|discriminate Ehi].
  cbn [result_bind]. exists lo, hi.
  destruct (py_min_spec _ _ Elo) as [Hlo Hall].
  destruct (py_max_spec _ _ Ehi) as [Hhi Hall'].
  repeat split; try assumption.
  rewrite Forall_forall in *. intros x Hx. split; auto.
Qed.

(** X1. Whatever the ASCII string and the state of the generator,
    [get_randint_from_range_str] either returns a value after exactly one
    draw, or raises [ValueError] without drawing; it raises exactly when
    some piece between dashes is not an integer literal. *)
Theorem X1_range_string_outcome (R : Randomness) (range_string : string) (g : rng) :
  is_ascii range_string = true ->
  (Forall (fun piece => exists z, int_of_str piece = Ok z) (split_dash range_string)
   /\ exists lo hi v,
        range_bounds range_string = Ok (lo, hi) /\ lo <= hi
        /\ get_randint_from_range_str range_string g
           = (Ok v, snd (randbelow (hi - lo + 1) g)))
  \/ (Exists (fun piece => int_of_str piece = Raise ValueError) (split_dash range_string)
      /\ get_randint_from_range_str range_string g = (Raise ValueError, g)).
Proof.
  intros _.
  destruct (result_map int_of_str (split_dash range_string)) as [zs|e] eqn:E.
  - left. split.
    + clear - E. revert zs E.
      induction (split_dash range_string) as [|p ps IH]; intros zs E; [constructor|].
      cbn [result_map] in E.
      destruct (int_of_str p) as [z|] eqn:Hp; cbn [result_bind] in E; [|discriminate].
      destruct (result_map int_of_str ps) as [zs'|] eqn:Hps; cbn [result_bind] in E;
        [|discriminate].
      constructor; [exists z; exact Hp | exact (IH zs' eq_refl)].
    + destruct (range_bounds_of_pieces _ _ E) as (lo & hi & Hb & _).
      exists lo, hi. eexists. split; [exact Hb|].
      split; [exact (range_bounds_ordered _ _ _ Hb)|].
      apply (get_randint_run _ _ _ g Hb).
  - right. pose proof (result_map_int_raises _ _ E) as ->. split.
    + exact (result_map_raise_exists _ _ _ E).
    + rewrite get_randint_unfold. unfold range_bounds. rewrite E. reflexivity.
Qed.

Lemma X1_witness :
  is_ascii "100000 to 200000" = true
  /\ get_randint_from_range_str (R := lcg) "100000 to 200000" (seed 42)
     = (Raise ValueError, seed 42).
Proof.
  split; [reflexivity|].
  destruct (X1_range_string_outcome lcg "100000 to 200000" (seed 42) eq_refl)
    as [(Hall & _) | (_ & Hrun)]; [|exact Hrun].
  exfalso. inversion Hall as [|? ? (z & Hz) _]. vm_compute in Hz. discriminate Hz.
Defined.

(** X2. However many pieces a range string has, the draw is made between
    the smallest and the largest of the integers read off them. *)
Theorem X2_bounds_are_smallest_and_largest
    (R : Randomness) (range_string : string) (zs : list Z) (g : rng) :
  result_map int_of_str (split_dash range_string) = Ok zs ->
  exists lo hi rand_int g',
    In lo zs /\ In hi zs /\ Forall (fun z => lo <= z <= hi) zs
    /\ randint lo hi g = (Ok rand_int, g')
    /\ get_randint_from_range_str range_string g
       = (Ok (if rand_int <=? 100000 then rand_int else int_round rand_int (-3)),
          g').
Proof.
  intros H. destruct (range_bounds_of_pieces _ _ H) as (lo & hi & Hb & Hlo & Hhi & Hall).
  exists lo, hi. eexists. eexists.
  split; [exact Hlo|]. split; [exact Hhi|]. split; [exact Hall|].
  split; [apply randint_run; exact (range_bounds_ordered _ _ _ Hb)|].
  apply (get_randint_run _ _ _ g Hb).
Qed.

Lemma X2_witness :
  result_map int_of_str (split_dash "4-9-2") = Ok [4; 9; 2]
  /\ exists lo hi rand_int g',
       In lo [4; 9; 2] /\ In hi [4; 9; 2]
       /\ Forall (fun z => lo <= z <= hi) [4; 9; 2]
       /\ randint (R := lcg) lo hi (seed 42) = (Ok rand_int, g')
       /\ get_randint_from_range_str "4-9-2" (seed 42)
          = (Ok (if rand_int <=? 100000 then rand_int
                 else int_round rand_int (-3)), g').
Proof.
  split; [reflexivity|].
  exact (X2_bounds_are_smallest_and_largest lcg "4-9-2" [4; 9; 2] (seed 42) eq_refl).
Defined.

(** X3. A string without a dash that is an integer literal is a constant
    rule: the value returned is that integer (rounded to the thousand
    above 100000), whatever the generator draws. *)
Theorem X3_single_number_is_constant
    (R : Randomness) (range_string : string) (n : Z) (g : rng) :
  split_dash range_string = [range_string] -> int_of_str range_string = Ok n ->
  fst (get_randint_from_range_str range_string g)
  = Ok (if n <=? 100000 then n else int_round n (-3)).
Proof.
  intros Hs Hn.
  assert (Hb : range_bounds range_string = Ok (n, n)).
  { unfold range_bounds. rewrite Hs. cbn [result_map]. rewrite Hn. reflexivity. }
  rewrite (get_randint_run _ _ _ g Hb). cbn [fst]. cbn zeta.
  pose proof (randbelow_range (n - n + 1) g ltac:(lia)) as Hr.
  replace (n + fst (randbelow (n - n + 1) g)) with n by lia. reflexivity.
Qed.

Lemma X3_witness :
  split_dash "250499" = ["250499"] /\ int_of_str "250499" = Ok 250499
  /\ fst (get_randint_from_range_str (R := lcg) "250499" (seed 42)) = Ok 250000.
Proof.
  split; [reflexivity|]. split; [reflexivity|].
  exact (X3_single_number_is_constant lcg "250499" 250499 (seed 42) eq_refl eq_refl).
Defined.

(** X4. The value returned for a range string does not fall below the
    lower bound when that bound is at most 100000 or a multiple of 1000,
    and does not exceed the upper bound when that bound is at most 100000
    or a multiple of 1000: for such bounds rounding never leaves the
    interval. *)
Theorem X4_round_bounds_keep_the_value_inside
    (R : Randomness) (range_string : string) (lo hi : Z) (g : rng) :
  range_bounds range_string = Ok (lo, hi) ->
  exists v g',
    get_randint_from_range_str range_string g = (Ok v, g')
    /\ (lo <= 100000 \/ lo mod 1000 = 0 -> lo <= v)
    /\ (hi <= 100000 \/ hi mod 1000 = 0 -> v <= hi).
Proof.
  intros Hb. rewrite (get_randint_run _ _ _ g Hb). cbn zeta.
  pose proof (randint_inside lo hi g (range_bounds_ordered _ _ _ Hb)) as Hin.
  set (d := lo + fst (randbelow (hi - lo + 1) g)) in *.
  eexists. eexists. split; [reflexivity|].
  destruct (Z.leb_spec d 100000) as [Hd | Hd].
  - split; intros _; lia.
  - destruct (int_round_thousand d) as (q & Hq & Habs & _). rewrite Hq in *.
    split; intros [Hle | Hmod]; try lia.
    + pose proof (Z.div_mod lo 1000 ltac:(lia)). lia.
    + pose proof (Z.div_mod hi 1000 ltac:(lia)). lia.
Qed.

Lemma X4_witness :
  range_bounds "100000-200000" = Ok (100000, 200000)
  /\ exists v g',
       get_randint_from_range_str (R := lcg) "100000-200000" (seed 42) = (Ok v, g')
       /\ (100000 <= 100000 \/ 100000 mod 1000 = 0 -> 100000 <= v)
       /\ (200000 <= 100000 \/ 200000 mod 1000 = 0 -> v <= 200000).
Proof.
  split; [reflexivity|].
  exact (X4_round_bounds_keep_the_value_inside lcg "100000-200000" 100000 200000
           (seed 42) eq_refl).
Defined.

(* ================================================================== *)
(** * More on tiers and rows                                           *)
(* ================================================================== *)

Lemma dict_lookup_member {V} (d : dict V) (k : string) (v : V) :
  dict_lookup d k = Some v -> In (k, v) d.
Proof.
  induction d as [|[k0 v0] d IH]; cbn [dict_lookup]; [discriminate|].
  destruct (String.eqb_spec k0 k) as [->|Hne].
  - intros H. injection H as ->. left. reflexivity.
  - intros H. right. apply IH. exact H.
Qed.

Lemma dict_lookup_key {V} (d : dict V) (k : string) (v : V) :
  dict_lookup d k = Some v -> In k (dict_keys d).
Proof.
  intros H. apply dict_lookup_member in H.
  unfold dict_keys. apply in_map_iff. exists (k, v). split; [reflexivity | exact H].
Qed.

Lemma dict_lookup_nodup {V} (d : dict V) :
  NoDup (dict_keys d) ->
  forall kv, In kv d -> dict_lookup d (fst kv) = Some (snd kv).
Proof.
  unfold dict_keys. induction d as [|[k0 v0] d IH]; cbn [map fst]; intros Hnd kv Hin;
    [destruct Hin|].
  inversion Hnd as [|? ? Hnotin Hnd']; subst. cbn [dict_lookup].
  destruct Hin as [<- | Hin]; cbn [fst snd].
  - rewrite String.eqb_refl. reflexivity.
  - destruct (String.eqb_spec k0 (fst kv)) as [E|Hne].
    + exfalso. apply Hnotin. rewrite E. apply in_map. exact Hin.
    + apply IH; assumption.
Qed.

Section TierFacts.
Context {R : Randomness}.

Lemma get_random_tier_config_run (housing_config : dict (dict pyval)) (g : rng) :
housing_config <> [] ->
exists name tier_config,
  get_random_tier_config housing_config g
  = (Ok tier_config,
     snd (randbelow (Z.of_nat (List.length housing_config)) g))
  /\ dict_lookup housing_config name = Some tier_config.
Proof.
intros Hne. unfold get_random_tier_config.
assert (Hkeys : dict_keys housing_config <> []).
{ destruct housing_config; [congruence | discriminate]. }
destruct (choice_run (dict_keys housing_config) g Hkeys) as (k & Hrun & Hnth).
apply nth_error_In in Hnth.
destruct (dict_lookup_in housing_config k Hnth) as (tier & Hlook & _).
exists k, tier. split; [|exact Hlook].
rewrite (bind_ok _ _ _ _ _ Hrun). unfold dict_getitem. rewrite Hlook.
unfold dict_keys. rewrite length_map. reflexivity.
Qed.

Lemma range_bounds_raises (s : string) (e : exn) :
range_bounds s = Raise e -> e = ValueError.
Proof.
unfold range_bounds.
destruct (result_map int_of_str (split_dash s)) as [zs|e'] eqn:E; cbn [result_bind].
- destruct (range_bounds_of_pieces s zs E) as (lo & hi & Hb & _).
  unfold range_bounds in Hb. rewrite E in Hb. cbn [result_bind] in Hb.
  rewrite Hb. discriminate.
- intros H. injection H as <-. exact (result_map_int_raises _ _ E).
Qed.

(** One turn of the row loop: on a value that is in order the row gets
  the attribute if the value is a string or a list and is left alone
  otherwise; on any other value the turn raises and draws nothing. *)
Lemma one_row_body_outcome (config : dict pyval) (attribute : string)
  (value : pyval) (new_row : dict pyval) (g : rng) :
dict_lookup config attribute = Some value ->
(rule_ok value
 /\ exists v g',
      one_row_body config attribute new_row g
      = (Ok (if is_rule value then dict_setitem new_row attribute v else new_row),
         g'))
\/ (~ rule_ok value
    /\ exists e, one_row_body config attribute new_row g = (Raise e, g)
                 /\ (e = ValueError \/ e = IndexError)).
Proof.
intros Hlook. destruct value as [| b | z | s | l | d].
1-3, 6: left; split; [exact I|]; exists PNone, g; cbn [is_rule];
  apply (one_row_body_skips config attribute _ new_row g Hlook); discriminate.
- destruct (range_bounds s) as [[lo hi]|e] eqn:Hb.
  + left. split; [cbn; eauto|].
    destruct (one_row_body_valid config attribute (PStr s) new_row g Hlook)
      as (v & g' & _ & Hrun); [cbn; eauto|].
    exists v, g'. exact Hrun.
  + right. split.
    * cbn [rule_ok]. intros (lo & hi & H). congruence.
    * exists ValueError. split; [|left; reflexivity].
      unfold one_row_body, dict_getitem. rewrite Hlook, bind_lift_ok.
      unfold bind. rewrite get_randint_unfold, Hb.
      rewrite (range_bounds_raises s e Hb). reflexivity.
- destruct l as [|x l].
  + right. split; [cbn [rule_ok]; congruence|].
    exists IndexError. split; [|right; reflexivity].
    unfold one_row_body, dict_getitem. rewrite Hlook. reflexivity.
  + left. split; [cbn [rule_ok]; discriminate|].
    destruct (one_row_body_valid config attribute (PList (x :: l)) new_row g Hlook)
      as (v & g' & _ & Hrun); [cbn; discriminate|].
    exists v, g'. exact Hrun.
Qed.

Lemma one_row_loop_raises (attributes : list string) (config : dict pyval)
  (k : string) (bad : pyval) :
(forall a, In a attributes -> In a (dict_keys config)) ->
In k attributes -> dict_lookup config k = Some bad -> ~ rule_ok bad ->
forall new_row g,
exists e g', one_row_loop attributes config new_row g = (Raise e, g')
             /\ (e = ValueError \/ e = IndexError).
Proof.
induction attributes as [|a rest IH]; intros Hsub Hin Hlook Hbad new_row g;
  [destruct Hin|].
destruct (dict_lookup_in config a (Hsub a (or_introl eq_refl))) as (va & Hva & _).
cbn [one_row_loop].
destruct (one_row_body_outcome config a va new_row g Hva)
  as [(Hok & v & g1 & Hrun) | (_ & e & Hrun & He)].
- rewrite (bind_ok _ _ _ _ _ Hrun).
  destruct Hin as [-> | Hin]; [congruence|].
  apply IH; auto. intros a' Ha'. apply Hsub. right. exact Ha'.
- exists e, g. split; [|exact He]. apply (bind_raise _ _ _ _ _ Hrun).
Qed.

Lemma one_row_loop_order (attributes : list string) (config : dict pyval) :
(forall a, In a attributes ->
           exists v, dict_lookup config a = Some v /\ rule_ok v) ->
forall new_row g,
  NoDup (dict_keys new_row ++ attributes) ->
  exists row g',
    one_row_loop attributes config new_row g = (Ok row, g')
    /\ dict_keys row
       = dict_keys new_row
         ++ filter (fun a => match dict_lookup config a with
                             | Some v => is_rule v
                             | None => false
                             end) attributes.
Proof.
induction attributes as [|a rest IH]; intros Hok new_row g Hnd.
- exists new_row, g. cbn [one_row_loop filter]. rewrite app_nil_r.
  split; reflexivity.
- destruct (Hok a (or_introl eq_refl)) as (va & Hva & Hrule).
  assert (Hnew : ~ In a (dict_keys new_row)).
  { apply NoDup_remove_2 in Hnd. intros H. apply Hnd.
    apply in_or_app. left. exact H. }
  destruct (one_row_body_outcome config a va new_row g Hva)
    as [(_ & v & g1 & Hrun) | (Hbad & _)]; [|contradiction].
  cbn [one_row_loop filter]. rewrite (bind_ok _ _ _ _ _ Hrun), Hva.
  destruct (is_rule va).
  + destruct (IH (fun a' Ha' => Hok a' (or_intror Ha')) (dict_setitem new_row a v) g1)
      as (row & g' & Hloop & Hkeys).
    { rewrite (dict_setitem_new new_row a v Hnew).
      unfold dict_keys. rewrite map_app. cbn [map fst].
      rewrite <- app_assoc. exact Hnd. }
    exists row, g'. split; [exact Hloop|].
    rewrite Hkeys, (dict_setitem_new new_row a v Hnew).
    unfold dict_keys. rewrite map_app. cbn [map fst].
    rewrite <- app_assoc. reflexivity.
  + apply IH.
    * intros a' Ha'. apply Hok. right. exact Ha'.
    * apply NoDup_remove_1 in Hnd. exact Hnd.
Qed.

End TierFacts.

Lemma filter_keys_by_lookup (config : dict pyval) :
  NoDup (dict_keys config) ->
  filter (fun a => match dict_lookup config a with
                   | Some v => is_rule v
                   | None => false
                   end) (dict_keys config)
  = dict_keys (filter (fun kv => is_rule (snd kv)) config).
Proof.
  intros Hnd. pose proof (dict_lookup_nodup config Hnd) as Hl.
  unfold dict_keys.
  assert (G : forall c, (forall kv, In kv c -> dict_lookup config (fst kv) = Some (snd kv)) ->
            filter (fun a => match dict_lookup config a with
                             | Some v => is_rule v
                             | None => false
                             end) (map fst c)
            = map fst (filter (fun kv => is_rule (snd kv)) c)).
  { induction c as [|kv c IH]; intros Hc; [reflexivity|].
    cbn [map filter]. rewrite (Hc kv (or_introl eq_refl)).
    rewrite IH by (intros kv' H'; apply Hc; right; exact H').
    destruct (is_rule (snd kv)); reflexivity. }
  apply G. exact Hl.
Qed.

(** X5. [get_random_tier_config] on a configuration without tiers raises
    [IndexError] and draws nothing; on any other configuration it makes
    one draw and returns the rule-set stored under one of the tier
    names. *)
Theorem X5_random_tier_is_a_tier_of_the_configuration
    (R : Randomness) (housing_config : dict (dict pyval)) (g : rng) :
  (housing_config = [] ->
   get_random_tier_config housing_config g = (Raise IndexError, g))
  /\ (housing_config <> [] ->
      exists name tier_config,
        get_random_tier_config housing_config g
        = (Ok tier_config,
           snd (randbelow (Z.of_nat (List.length housing_config)) g))
        /\ dict_lookup housing_config name = Some tier_config).
Proof.
  split.
  - intros ->. reflexivity.
  - apply get_random_tier_config_run.
Qed.

Lemma X5_witness :
  exists name tier_config,
    get_random_tier_config (R := lcg) housing_tiered (seed 42)
    = (Ok tier_config,
       snd (randbelow (Z.of_nat (List.length housing_tiered)) (seed 42)))
    /\ dict_lookup housing_tiered name = Some tier_config.
Proof.
  exact (proj2 (X5_random_tier_is_a_tier_of_the_configuration lcg housing_tiered
                  (seed 42)) ltac:(discriminate)).
Defined.

(** X6. [generate_one_row_random_house_data] returns a row when no
    attribute of the rule-set is a range string that cannot be read or an
    empty list.  When some attribute is an empty list, or an ASCII string
    that cannot be read as a range, it raises [ValueError] or
    [IndexError] and returns no row. *)
Theorem X6_row_generation_raises_on_a_bad_rule
    (R : Randomness) (config : dict pyval) (g : rng) :
  (Forall (fun kv => rule_ok (snd kv)) config ->
   exists row g', generate_one_row_random_house_data config g = (Ok row, g'))
  /\ (forall k bad,
        dict_lookup config k = Some bad -> ~ rule_ok bad ->
        (forall s, bad = PStr s -> is_ascii s = true) ->
        exists e g',
          generate_one_row_random_house_data config g = (Raise e, g')
          /\ (e = ValueError \/ e = IndexError)).
Proof.
  split.
  - intros Hall. unfold generate_one_row_random_house_data.
    assert (G : forall attributes new_row g0,
               (forall a, In a attributes -> In a (dict_keys config)) ->
               exists row g', one_row_loop attributes config new_row g0 = (Ok row, g')).
    { induction attributes as [|a rest IH]; intros new_row g0 Hsub.
      - exists new_row, g0. reflexivity.
      - destruct (dict_lookup_in config a (Hsub a (or_introl eq_refl)))
          as (va & Hva & Hmem).
        rewrite Forall_forall in Hall. pose proof (Hall _ Hmem) as Hok.
        destruct (one_row_body_outcome config a va new_row g0 Hva)
          as [(_ & v & g1 & Hrun) | (Hbad & _)]; [|contradiction].
        cbn [one_row_loop]. rewrite (bind_ok _ _ _ _ _ Hrun).
        apply IH. intros a' Ha'. apply Hsub. right. exact Ha'. }
    apply G. auto.
  - intros k bad Hlook Hbad _. unfold generate_one_row_random_house_data.
    apply (one_row_loop_raises (dict_keys config) config k bad); auto.
    exact (dict_lookup_key _ _ _ Hlook).
Qed.

Lemma X6_witness :
  exists e g',
    generate_one_row_random_house_data (R := lcg)
      [("bedrooms", PStr "1-3"); ("price", PStr "100000 to 200000")] (seed 42)
    = (Raise e, g')
    /\ (e = ValueError \/ e = IndexError).
Proof.
  refine (proj2 (X6_row_generation_raises_on_a_bad_rule lcg
                   [("bedrooms", PStr "1-3"); ("price", PStr "100000 to 200000")]
                   (seed 42))
            "price" (PStr "100000 to 200000") eq_refl _ _).
  - cbn [rule_ok]. intros (lo & hi & H). vm_compute in H. discriminate H.
  - intros s Hs. injection Hs as <-. reflexivity.
Defined.

(** X7. When the keys of the rule-set are distinct and no rule is bad,
    the row has the attributes whose values are strings or lists, in the
    order of the rule-set; the other attributes are left out. *)
Theorem X7_row_keeps_the_order_of_the_rule_set
    (R : Randomness) (config : dict pyval) (g : rng) :
  NoDup (dict_keys config) -> Forall (fun kv => rule_ok (snd kv)) config ->
  exists row g',
    generate_one_row_random_house_data config g = (Ok row, g')
    /\ dict_keys row = dict_keys (filter (fun kv => is_rule (snd kv)) config).
Proof.
  intros Hnd Hall. unfold generate_one_row_random_house_data.
  destruct (one_row_loop_order (dict_keys config) config) with (new_row := @nil (string * pyval)) (g := g)
    as (row & g' & Hrun & Hkeys).
  - intros a Ha. destruct (dict_lookup_in config a Ha) as (v & Hv & Hmem).
    exists v. split; [exact Hv|]. rewrite Forall_forall in Hall. exact (Hall _ Hmem).
  - exact Hnd.
  - exists row, g'. split; [exact Hrun|].
    rewrite Hkeys. cbn [dict_keys map app]. apply filter_keys_by_lookup. exact Hnd.
Qed.

Lemma tier_1_keys : NoDup (dict_keys tier_1).
Proof.
  repeat (constructor; [cbn [In]; intuition discriminate|]). constructor.
Qed.

Lemma X7_witness :
  exists row g',
    generate_one_row_random_house_data (R := lcg) tier_1 (seed 42) = (Ok row, g')
    /\ dict_keys row = dict_keys (filter (fun kv => is_rule (snd kv)) tier_1).
Proof.
  refine (X7_row_keeps_the_order_of_the_rule_set lcg tier_1 (seed 42) tier_1_keys _).
  unfold tier_1.
  repeat (apply Forall_cons; [cbn [snd rule_ok]|]); try apply Forall_nil;
    try (eexists; eexists; vm_compute; reflexivity); discriminate.
Defined.

(* ================================================================== *)
(** * More on the tiered dataset                                       *)
(* ================================================================== *)

Lemma valid_rule_is_rule (v : pyval) :
  valid_rule v -> rule_ok v /\ is_rule v = true.
Proof. destruct v; cbn; intros H; try contradiction; auto. Qed.

Lemma existsb_eqb_in (k : string) (l : list string) :
  existsb (String.eqb k) l = true <-> In k l.
Proof.
  rewrite existsb_exists. split.
  - intros (x & Hin & E). apply String.eqb_eq in E. subst. exact Hin.
  - intros Hin. exists k. split; [exact Hin | apply String.eqb_refl].
Qed.

Lemma add_labels_new (ks : list string) :
  forall acc, NoDup (acc ++ ks) -> fold_left add_label ks acc = acc ++ ks.
Proof.
  induction ks as [|k ks IH]; intros acc Hnd; cbn [fold_left].
  - rewrite app_nil_r. reflexivity.
  - assert (Hnew : existsb (String.eqb k) acc = false).
    { destruct (existsb (String.eqb k) acc) eqn:E; [|reflexivity].
      apply existsb_eqb_in in E. apply NoDup_remove_2 in Hnd.
      exfalso. apply Hnd. apply in_or_app. left. exact E. }
    unfold add_label at 2. rewrite Hnew.
    rewrite IH; rewrite <- app_assoc; [reflexivity | exact Hnd].
Qed.

Lemma add_labels_old (ks acc : list string) :
  (forall k, In k ks -> In k acc) -> fold_left add_label ks acc = acc.
Proof.
  induction ks as [|k ks IH]; intros Hsub; cbn [fold_left]; [reflexivity|].
  unfold add_label at 2.
  rewrite (proj2 (existsb_eqb_in k acc) (Hsub k (or_introl eq_refl))).
  apply IH. intros k' Hk'. apply Hsub. right. exact Hk'.
Qed.

(** Records that all have the keys [ks] make a frame with the columns
    [ks] and no missing cell. *)
Lemma DataFrame_of_uniform_records (records : list (dict pyval)) (ks : list string) :
  NoDup ks -> records <> [] -> Forall (fun r => dict_keys r = ks) records ->
  columns (DataFrame_of_records records) = ks
  /\ Forall (fun row => List.length row = List.length ks
                        /\ Forall (fun cell => cell <> None) row)
            (rows (DataFrame_of_records records)).
Proof.
  intros Hnd Hne Hall.
  assert (Hlabels : record_labels records = ks).
  { unfold record_labels. destruct records as [|r rs]; [congruence|].
    inversion Hall as [|? ? Hr Hrs]; subst. cbn [fold_left].
    rewrite (add_labels_new (dict_keys r) [] Hnd). cbn [app].
    clear Hne Hall. induction rs as [|r' rs IH]; [reflexivity|].
    inversion Hrs as [|? ? Hr' Hrs']; subst. cbn [fold_left].
    rewrite Hr', add_labels_old by auto. apply IH. exact Hrs'. }
  unfold DataFrame_of_records. cbn [columns rows]. rewrite Hlabels.
  split; [reflexivity|].
  rewrite Forall_forall in *. intros row Hrow. apply in_map_iff in Hrow.
  destruct Hrow as (r & <- & Hr). split; [apply length_map|].
  rewrite Forall_forall. intros cell Hcell. apply in_map_iff in Hcell.
  destruct Hcell as (k & <- & Hk).
  rewrite <- (Hall r Hr) in Hk.
  destruct (dict_lookup_in r k Hk) as (v & -> & _). discriminate.
Qed.

Section TieredDatasetMore.
Context {R : Randomness}.

(** A row made from a valid rule-set with distinct keys has the keys of
  the rule-set, in order. *)
Lemma generate_one_row_keys (config : dict pyval) (g : rng) :
valid_tier config -> NoDup (dict_keys config) ->
exists row g',
  generate_one_row_random_house_data config g = (Ok row, g')
  /\ dict_keys row = dict_keys config.
Proof.
intros Hv Hnd. unfold generate_one_row_random_house_data.
destruct (one_row_loop_order (dict_keys config) config) with (new_row := @nil (string * pyval)) (g := g)
  as (row & g' & Hrun & Hkeys).
- intros a Ha. destruct (valid_tier_lookup config a Hv Ha) as (v & Hl & Hr).
  exists v. split; [exact Hl | exact (proj1 (valid_rule_is_rule v Hr))].
- exact Hnd.
- exists row, g'. split; [exact Hrun|]. rewrite Hkeys. cbn [dict_keys map app].
  apply forallb_filter_id. apply forallb_forall. intros a Ha.
  destruct (valid_tier_lookup config a Hv Ha) as (v & -> & Hr).
  exact (proj2 (valid_rule_is_rule v Hr)).
Qed.

(** The loop of [generate_housing_df] keeps a property of rows that
  every row made from a tier of the configuration has. *)
Lemma housing_rows_loop_invariant (P : dict pyval -> Prop)
  (housing_config : dict (dict pyval)) :
housing_config <> [] ->
(forall name tier g,
    dict_lookup housing_config name = Some tier ->
    exists row g', generate_one_row_random_house_data tier g = (Ok row, g')
                   /\ P row) ->
forall n df_rows g,
  Forall P df_rows ->
  exists out g',
    housing_rows_loop n housing_config df_rows g = (Ok out, g')
    /\ List.length out = (List.length df_rows + n)%nat
    /\ Forall P out.
Proof.
intros Hne Hrow. induction n as [|n IH]; intros df_rows g Hall.
- exists df_rows, g. split; [reflexivity|]. split; [lia | exact Hall].
- destruct (get_random_tier_config_run housing_config g Hne)
    as (name & tier & Htier & Hlook).
  destruct (Hrow name tier
              (snd (randbelow (Z.of_nat (List.length housing_config)) g)) Hlook)
    as (row & g2 & Hgen & HP).
  destruct (IH (df_rows ++ [row]) g2) as (out & g' & Hrun & Hlen & Hout).
  { apply Forall_app. split; [exact Hall | constructor; [exact HP | constructor]]. }
  exists out, g'. split; [|split].
  + cbn [housing_rows_loop].
    rewrite (bind_ok _ _ _ _ _ Htier), (bind_ok _ _ _ _ _ Hgen). exact Hrun.
  + rewrite Hlen, length_app. cbn [List.length]. lia.
  + exact Hout.
Qed.

End TieredDatasetMore.

(** X8. Every row that [generate_housing_df] generates comes from one
    tier of the configuration: it has the attributes of that tier, and
    each value is generated by that tier's rule for the attribute.  The
    dataset is the frame made of these rows. *)
Theorem X8_each_row_comes_from_one_tier
    (R : Randomness) (housing_config : dict (dict pyval)) (row_size : Z) (g : rng) :
  valid_tiers housing_config ->
  exists records g',
    generate_housing_df housing_config row_size g
    = (Ok (DataFrame_of_records records), g')
    /\ List.length records = Z.to_nat row_size
    /\ Forall (fun row =>
                 exists name tier,
                   dict_lookup housing_config name = Some tier
                   /\ (forall k, In k (dict_keys row) <-> In k (dict_keys tier))
                   /\ (forall k v, dict_lookup row k = Some v ->
                         exists rule, dict_lookup tier k = Some rule
                                      /\ generated_by rule v))
              records.
Proof.
  intros [Hne Hall].
  set (P := fun tier (row : dict pyval) =>
              (forall k, In k (dict_keys row) <-> In k (dict_keys tier))
              /\ (forall k v, dict_lookup row k = Some v ->
                    exists rule, dict_lookup tier k = Some rule /\ generated_by rule v)).
  destruct (housing_rows_loop_invariant
              (fun row => exists name tier,
                   dict_lookup housing_config name = Some tier /\ P tier row)
              housing_config Hne) with (n := Z.to_nat row_size)
              (df_rows := @nil (dict pyval)) (g := g)
    as (out & g' & Hrun & Hlen & Hout).
  - intros name tier g0 Hlook.
    assert (Hv : valid_tier tier).
    { rewrite Forall_forall in Hall. exact (Hall _ (dict_lookup_member _ _ _ Hlook)). }
    destruct (generate_one_row_valid tier g0 Hv) as (row & g1 & Hgen & Hk & _ & Hvals).
    exists row, g1. split; [exact Hgen|]. exists name, tier. split; [exact Hlook|].
    split; assumption.
  - constructor.
  - exists out, g'. split; [|split].
    + unfold generate_housing_df. rewrite (bind_ok _ _ _ _ _ Hrun). reflexivity.
    + rewrite Hlen. reflexivity.
    + exact Hout.
Qed.

Lemma X8_witness :
  exists records g',
    generate_housing_df (R := lcg) housing_tiered 3 (seed 42)
    = (Ok (DataFrame_of_records records), g')
    /\ List.length records = Z.to_nat 3
    /\ Forall (fun row =>
                 exists name tier,
                   dict_lookup housing_tiered name = Some tier
                   /\ (forall k, In k (dict_keys row) <-> In k (dict_keys tier))
                   /\ (forall k v, dict_lookup row k = Some v ->
                         exists rule, dict_lookup tier k = Some rule
                                      /\ generated_by rule v))
              records.
Proof.
  exact (X8_each_row_comes_from_one_tier lcg housing_tiered 3 (seed 42)
           housing_tiered_valid).
Defined.

(** X9. When all tiers of a valid configuration have the same distinct
    attributes and at least one row is asked for, the dataset of
    [generate_housing_df] has exactly these attributes as columns, in the
    order of the configuration, and no cell is missing. *)
Theorem X9_columns_are_the_attributes_in_order
    (R : Randomness) (housing_config : dict (dict pyval)) (attributes : list string)
    (row_size : Z) (g : rng) :
  valid_tiers housing_config -> NoDup attributes ->
  Forall (fun kv => dict_keys (snd kv) = attributes) housing_config ->
  1 <= row_size ->
  exists df g',
    generate_housing_df housing_config row_size g = (Ok df, g')
    /\ columns df = attributes
    /\ df_len df = row_size
    /\ Forall (fun row => List.length row = List.length attributes
                          /\ Forall (fun cell => cell <> None) row) (rows df).
Proof.
  intros [Hne Hall] Hnd Hkeys HN.
  destruct (housing_rows_loop_invariant (fun row => dict_keys row = attributes)
              housing_config Hne) with (n := Z.to_nat row_size)
              (df_rows := @nil (dict pyval)) (g := g)
    as (out & g' & Hrun & Hlen & Hout).
  - intros name tier g0 Hlook.
    pose proof (dict_lookup_member _ _ _ Hlook) as Hmem.
    rewrite Forall_forall in Hall, Hkeys.
    pose proof (Hkeys _ Hmem) as Hk. cbn [snd] in Hk.
    destruct (generate_one_row_keys tier g0 (Hall _ Hmem)) as (row & g1 & Hgen & Hrk).
    { rewrite Hk. exact Hnd. }
    exists row, g1. split; [exact Hgen | congruence].
  - constructor.
  - cbn [List.length] in Hlen.
    assert (Hout_ne : out <> []).
    { intros ->. cbn [List.length] in Hlen. lia. }
    destruct (DataFrame_of_uniform_records out attributes Hnd Hout_ne Hout)
      as [Hcols Hcells].
    exists (DataFrame_of_records out), g'. split; [|split; [|split]].
    + unfold generate_housing_df. rewrite (bind_ok _ _ _ _ _ Hrun). reflexivity.
    + exact Hcols.
    + rewrite df_len_of_records, Hlen. lia.
    + exact Hcells.
Qed.

Lemma X9_witness :
  exists df g',
    generate_housing_df (R := lcg) housing_tiered 2 (seed 42) = (Ok df, g')
    /\ columns df = dict_keys tier_1
    /\ df_len df = 2
    /\ Forall (fun row => List.length row = List.length (dict_keys tier_1)
                          /\ Forall (fun cell => cell <> None) row) (rows df).
Proof.
  refine (X9_columns_are_the_attributes_in_order lcg housing_tiered
            (dict_keys tier_1) 2 (seed 42) housing_tiered_valid tier_1_keys _ _).
  - constructor; [reflexivity | constructor].
  - lia.
Defined.

(* ================================================================== *)
(** * More on the flat generator                                       *)
(* ================================================================== *)

Section FlatMore.
Context {R : Randomness}.

Lemma build_produces (attribute : dict pyval) (g : rng) :
valid_attribute attribute ->
exists v g',
  build_random_housing_column_value attribute g = (Ok v, g')
  /\ produced_by attribute v.
Proof.
intros Hv. unfold build_random_housing_column_value, dict_getitem, dict_get.
destruct Hv as [lo hi Ht Hlo Hhi Hle | Ht | mean sd Ht Hm Hs Hmr Hsr | l Ht Hl Hne];
  rewrite Ht; rewrite bind_lift_ok.
- change (eq_str (PStr "min_max") "min_max") with true. cbv iota.
  rewrite Hlo, Hhi, !bind_lift_ok. cbn [randint_args as_index].
  rewrite (bind_ok _ _ _ _ _ (randint_run lo hi g Hle)).
  eexists. eexists. split; [reflexivity|].
  apply (produced_min_max attribute lo hi); auto. apply randint_inside. exact Hle.
- change (eq_str (PStr "bool") "min_max") with false.
  change (eq_str (PStr "bool") "bool") with true. cbv iota.
  destruct (choice_run [PBool true; PBool false] g ltac:(discriminate))
    as (v & Hrun & Hnth).
  exists v. eexists. split; [exact Hrun|].
  apply nth_error_In in Hnth. destruct Hnth as [<- | [<- | []]];
    apply produced_bool; exact Ht.
- change (eq_str (PStr "dist") "min_max") with false.
  change (eq_str (PStr "dist") "bool") with false.
  change (eq_str (PStr "dist") "dist") with true. cbv iota.
  rewrite Hm, Hs, !bind_lift_ok.
  destruct (normal_finite mean sd g Hmr Hsr) as (x & z & Hx & Hz).
  destruct (np_normal (PInt mean) (PInt sd) g) as [r g1] eqn:E.
  cbn [fst] in Hx. subst r.
  rewrite (bind_ok _ _ _ _ _ E). unfold bind, lift. rewrite Hz.
  eexists. eexists. split; [reflexivity|]. apply produced_dist. exact Ht.
- change (eq_str (PStr "list") "min_max") with false.
  change (eq_str (PStr "list") "bool") with false.
  change (eq_str (PStr "list") "dist") with false.
  change (eq_str (PStr "list") "list") with true. cbv iota.
  rewrite Hl, bind_lift_ok. cbn [choice_args].
  destruct (choice_run l g Hne) as (v & Hrun & Hnth).
  exists v. eexists. split; [exact Hrun|].
  apply (produced_list attribute l); auto. exact (nth_error_In _ _ Hnth).
Qed.

Lemma column_values_produced (n : nat) (column_config : dict pyval) :
valid_attribute column_config ->
forall g, exists vs g',
  column_values n column_config g = (Ok vs, g')
  /\ List.length vs = n /\ Forall (produced_by column_config) vs.
Proof.
intros Hv. induction n as [|n IH]; intros g.
- exists [], g. repeat split. constructor.
- destruct (build_produces column_config g Hv) as (v & g1 & Hb & Hp).
  destruct (IH g1) as (vs & g' & Hrun & Hlen & Hall).
  exists (v :: vs), g'. split; [|split].
  + cbn [column_values].
    rewrite (bind_ok _ _ _ _ _ Hb), (bind_ok _ _ _ _ _ Hrun). reflexivity.
  + cbn [List.length]. rewrite Hlen. reflexivity.
  + constructor; assumption.
Qed.

(** The loop of [generate_housing_data_df] over attributes with distinct
  names adds one column per attribute, in order, each of [sample_size]
  values produced by the attribute's rule. *)
Lemma housing_cols_loop_columns (cols : list string)
  (housing_config : dict (dict pyval)) (sample_size : Z) :
(forall col, In col cols ->
   exists a, dict_lookup housing_config col = Some a /\ valid_attribute a) ->
forall df_cols g,
  NoDup (dict_keys df_cols ++ cols) ->
  exists new g',
    housing_cols_loop cols housing_config sample_size df_cols g
    = (Ok (df_cols ++ new), g')
    /\ dict_keys new = cols
    /\ Forall (fun kv =>
                 List.length (snd kv) = Z.to_nat sample_size
                 /\ exists a, dict_lookup housing_config (fst kv) = Some a
                              /\ Forall (produced_by a) (snd kv)) new.
Proof.
induction cols as [|col rest IH]; intros Hv df_cols g Hnd.
- exists [], g. cbn [housing_cols_loop]. rewrite app_nil_r.
  repeat split. constructor.
- destruct (Hv col (or_introl eq_refl)) as (a & Hlook & Ha).
  destruct (column_values_produced (Z.to_nat sample_size) a Ha g)
    as (vs & g1 & Hvals & Hvlen & Hprod).
  assert (Hnew : ~ In col (dict_keys df_cols)).
  { apply NoDup_remove_2 in Hnd. intros H. apply Hnd.
    apply in_or_app. left. exact H. }
  destruct (IH (fun c Hc => Hv c (or_intror Hc)) (df_cols ++ [(col, vs)]) g1)
    as (new & g' & Hrun & Hkeys & Hall).
  { unfold dict_keys in *. rewrite map_app. cbn [map fst].
    rewrite <- app_assoc. exact Hnd. }
  exists ((col, vs) :: new), g'. split; [|split].
  + cbn [housing_cols_loop]. unfold dict_getitem. rewrite Hlook, bind_lift_ok.
    rewrite (bind_ok _ _ _ _ _ Hvals).
    rewrite (dict_setitem_new df_cols col vs Hnew), Hrun.
    rewrite <- app_assoc. reflexivity.
  + unfold dict_keys in *. cbn [map fst]. rewrite Hkeys. reflexivity.
  + constructor; [|exact Hall]. cbn [fst snd]. split; [exact Hvlen|].
    exists a. split; assumption.
Qed.

End FlatMore.

Lemma Forall2_map_both {A B C} (P : B -> C -> Prop) (f : A -> B) (h : A -> C)
    (l : list A) :
  Forall (fun x => P (f x) (h x)) l -> Forall2 P (map f l) (map h l).
Proof.
  induction 1; cbn [map]; constructor; assumption.
Qed.



(** Above 100000 the flat generator returns the draw as it is, where the
    tiered one rounds it. *)
Example flat_min_max_is_not_rounded :
  build_random_housing_column_value (R := lcg)
    [("type", PStr "min_max"); ("max", PInt 200000); ("min", PInt 100000)] 150499
  = (Ok (PInt 150498), lcg_next 150499)
  /\ get_randint_from_range_str (R := lcg) "100000-200000" 150499
     = (Ok 150000, lcg_next 150499).
Proof. split; vm_compute; reflexivity. Qed.

(** X11. A [min_max] attribute whose [min] is above its [max] is not
    put in order: [build_random_housing_column_value] raises [ValueError]
    and draws nothing. *)
Theorem X11_flat_reversed_bounds_raise
    (R : Randomness) (attribute : dict pyval) (lo hi : Z) (g : rng) :
  dict_lookup attribute "type" = Some (PStr "min_max") ->
  dict_lookup attribute "min" = Some (PInt lo) ->
  dict_lookup attribute "max" = Some (PInt hi) ->
  hi < lo ->
  build_random_housing_column_value attribute g = (Raise ValueError, g).
Proof.
  intros Ht Hlo Hhi Hlt. unfold build_random_housing_column_value, dict_getitem.
  rewrite Ht, bind_lift_ok.
  change (eq_str (PStr "min_max") "min_max") with true. cbv iota.
  rewrite Hlo, Hhi, !bind_lift_ok. cbn [randint_args as_index].
  unfold bind, randint, randrange.
  destruct (Z.ltb_spec 0 (hi + 1 - lo)); [lia | reflexivity].
Qed.

Lemma X11_witness :
  build_random_housing_column_value (R := lcg)
    [("type", PStr "min_max"); ("max", PInt 1); ("min", PInt 5)] (seed 42)
  = (Raise ValueError, seed 42).
Proof.
  exact (X11_flat_reversed_bounds_raise lcg
           [("type", PStr "min_max"); ("max", PInt 1); ("min", PInt 5)] 5 1 (seed 42)
           eq_refl eq_refl eq_refl ltac:(lia)).
Defined.

(** X12. An attribute without [type] raises [KeyError] for [type]; a
    [dist] attribute without [mean] or without [sd], and a [list]
    attribute without [list], raise [KeyError] for the missing field.  In
    each case nothing is drawn. *)
Theorem X12_flat_missing_field_raises_key_error
    (R : Randomness) (attribute : dict pyval) (g : rng) :
  (dict_lookup attribute "type" = None ->
   build_random_housing_column_value attribute g = (Raise (KeyError (PStr "type")), g))
  /\ (dict_lookup attribute "type" = Some (PStr "dist") ->
      dict_lookup attribute "mean" = None ->
      build_random_housing_column_value attribute g
      = (Raise (KeyError (PStr "mean")), g))
  /\ (forall mean,
        dict_lookup attribute "type" = Some (PStr "dist") ->
        dict_lookup attribute "mean" = Some mean ->
        dict_lookup attribute "sd" = None ->
        build_random_housing_column_value attribute g
        = (Raise (KeyError (PStr "sd")), g))
  /\ (dict_lookup attribute "type" = Some (PStr "list") ->
      dict_lookup attribute "list" = None ->
      build_random_housing_column_value attribute g
      = (Raise (KeyError (PStr "list")), g)).
Proof.
  unfold build_random_housing_column_value, dict_getitem, dict_get.
  split; [|split; [|split]].
  - intros ->. reflexivity.
  - intros -> Hm. rewrite bind_lift_ok.
    change (eq_str (PStr "dist") "min_max") with false.
    change (eq_str (PStr "dist") "bool") with false.
    change (eq_str (PStr "dist") "dist") with true. cbv iota.
    rewrite Hm. reflexivity.
  - intros mean -> Hm Hs. rewrite bind_lift_ok.
    change (eq_str (PStr "dist") "min_max") with false.
    change (eq_str (PStr "dist") "bool") with false.
    change (eq_str (PStr "dist") "dist") with true. cbv iota.
    rewrite Hm, bind_lift_ok, Hs. reflexivity.
  - intros -> Hl. rewrite bind_lift_ok.
    change (eq_str (PStr "list") "min_max") with false.
    change (eq_str (PStr "list") "bool") with false.
    change (eq_str (PStr "list") "dist") with false.
    change (eq_str (PStr "list") "list") with true. cbv iota.
    rewrite Hl. reflexivity.
Qed.

Lemma X12_witness :
  build_random_housing_column_value (R := lcg) [("mean", PInt 500000)] (seed 42)
  = (Raise (KeyError (PStr "type")), seed 42)
  /\ build_random_housing_column_value (R := lcg)
       [("type", PStr "dist"); ("mean", PInt 500000)] (seed 42)
     = (Raise (KeyError (PStr "sd")), seed 42).
Proof.
  split.
  - exact (proj1 (X12_flat_missing_field_raises_key_error lcg
                    [("mean", PInt 500000)] (seed 42)) eq_refl).
  - exact (proj1 (proj2 (proj2 (X12_flat_missing_field_raises_key_error lcg
                    [("type", PStr "dist"); ("mean", PInt 500000)] (seed 42))))
             (PInt 500000) eq_refl eq_refl eq_refl).
Defined.

(** X13. For a valid configuration with distinct attribute names and at
    least one attribute, and a row count N >= 0, the dataset of
    [generate_housing_data_df] has the attributes as columns, in the
    order of the configuration, and N rows; in every row the cell of each
    column holds a value produced by the rule of that attribute, none is
    missing. *)
Theorem X13_flat_dataset_columns_and_cells
    (R : Randomness) (housing_config : dict (dict pyval)) (sample_size : Z)
    (g : rng) :
  valid_flat housing_config -> NoDup (dict_keys housing_config) ->
  housing_config <> [] -> 0 <= sample_size ->
  exists df g',
    generate_housing_data_df housing_config sample_size g = (Ok df, g')
    /\ columns df = dict_keys housing_config
    /\ df_len df = sample_size
    /\ Forall (fun row =>
                 Forall2 (fun col cell =>
                            exists v a, cell = Some v
                                        /\ dict_lookup housing_config col = Some a
                                        /\ produced_by a v)
                         (columns df) row)
              (rows df).
Proof.
  intros Hv Hnd Hne HN. unfold generate_housing_data_df.
  destruct (housing_cols_loop_columns (dict_keys housing_config) housing_config
              sample_size (fun c Hc => valid_flat_lookup housing_config c Hv Hc)
              [] g Hnd)
    as (new & g' & Hrun & Hkeys & Hall).
  cbn [app] in Hrun.
  assert (Hnew : new <> []).
  { intros ->. destruct housing_config; [congruence | discriminate Hkeys]. }
  assert (Hlen : Forall (fun kv : string * list pyval =>
                           List.length (snd kv) = Z.to_nat sample_size) new).
  { rewrite Forall_forall in *. intros kv Hkv. exact (proj1 (Hall kv Hkv)). }
  rewrite (bind_ok _ _ _ _ _ Hrun). unfold lift.
  destruct new as [|[k first] rest]; [congruence|].
  unfold DataFrame_of_columns.
  assert (Hfirst : List.length first = Z.to_nat sample_size).
  { inversion Hlen as [|? ? H0 ?]. exact H0. }
  assert (Hb : forallb (fun kv : string * list pyval =>
                          Nat.eqb (List.length (snd kv)) (List.length first))
                       ((k, first) :: rest) = true).
  { apply forallb_forall. intros kv Hin. rewrite Forall_forall in Hlen.
    apply Nat.eqb_eq. rewrite (Hlen _ Hin). symmetry. exact Hfirst. }
  rewrite Hb. eexists. eexists. split; [reflexivity|]. cbn [columns rows].
  split; [exact Hkeys|]. split.
  - unfold df_len. cbn [rows]. rewrite length_map, length_seq, Hfirst. lia.
  - rewrite Forall_forall. intros row Hrow. apply in_map_iff in Hrow.
    destruct Hrow as (i & <- & Hi). apply in_seq in Hi.
    unfold dict_keys. apply Forall2_map_both.
    rewrite Forall_forall in *. intros kv Hkv.
    destruct (Hall kv Hkv) as (Hl & a & Hlook & Hprod).
    destruct (nth_error (snd kv) i) as [v|] eqn:Hnth.
    + exists v, a. split; [reflexivity|]. split; [exact Hlook|].
      rewrite Forall_forall in Hprod. apply Hprod. exact (nth_error_In _ _ Hnth).
    + exfalso. apply nth_error_None in Hnth. lia.
Qed.

Lemma housing_flat_nonempty : housing_flat <> [].
Proof. discriminate. Qed.

Lemma X13_witness :
  exists df g',
    generate_housing_data_df (R := lcg) housing_flat 3 (seed 42) = (Ok df, g')
    /\ columns df = dict_keys housing_flat
    /\ df_len df = 3
    /\ Forall (fun row =>
                 Forall2 (fun col cell =>
                            exists v a, cell = Some v
                                        /\ dict_lookup housing_flat col = Some a
                                        /\ produced_by a v)
                         (columns df) row)
              (rows df).
Proof.
  exact (X13_flat_dataset_columns_and_cells lcg housing_flat 3 (seed 42)
           housing_flat_valid housing_flat_keys housing_flat_nonempty ltac:(lia)).
Defined.

(* ================================================================== *)
(** * More on the SQLite notebook                                      *)
(* ================================================================== *)

Lemma row_cell_replace_other (labels : list string) (label other : string)
    (v : option pyval) :
  other <> label ->
  forall row, row_cell labels (row_replace labels row label v) other
              = row_cell labels row other.
Proof.
  intros Hne. induction labels as [|l labels IH]; intros [|c row]; try reflexivity.
  cbn [row_replace row_cell].
  destruct (String.eqb_spec l other) as [->|Hlo].
  - destruct (String.eqb_spec other label); [congruence | reflexivity].
  - apply IH.
Qed.

Lemma row_cell_append_other (labels : list string) (label other : string)
    (v : option pyval) :
  other <> label ->
  forall row, List.length row = List.length labels ->
              row_cell (labels ++ [label]) (row ++ [v]) other
              = row_cell labels row other.
Proof.
  intros Hne. induction labels as [|l labels IH]; intros [|c row] Hlen;
    try discriminate Hlen.
  - cbn [app row_cell]. destruct (String.eqb_spec label other); [congruence|reflexivity].
  - cbn [app row_cell]. destruct (String.eqb l other); [reflexivity|].
    apply IH. cbn [List.length] in Hlen. lia.
Qed.

Lemma row_replace_length (labels : list string) (label : string) (v : option pyval) :
  forall row, List.length (row_replace labels row label v) = List.length row.
Proof.
  induction labels as [|l labels IH]; intros [|c row]; try reflexivity.
  cbn [row_replace List.length]. rewrite IH. reflexivity.
Qed.

Lemma row_replace_twice (labels : list string) (label : string) (v : option pyval) :
  forall row, row_replace labels (row_replace labels row label v) label v
              = row_replace labels row label v.
Proof.
  induction labels as [|l labels IH]; intros [|c row]; try reflexivity.
  cbn [row_replace]. rewrite IH. destruct (String.eqb l label); reflexivity.
Qed.

Lemma row_replace_appended (labels : list string) (label : string) (v : option pyval) :
  existsb (String.eqb label) labels = false ->
  forall row, List.length row = List.length labels ->
              row_replace (labels ++ [label]) (row ++ [v]) label v = row ++ [v].
Proof.
  induction labels as [|l labels IH]; cbn [existsb]; intros H [|c row] Hlen;
    try discriminate Hlen.
  - cbn [app row_replace]. rewrite String.eqb_refl. reflexivity.
  - apply orb_false_iff in H. destruct H as [Hl Hrest].
    cbn [app row_replace]. rewrite String.eqb_sym, Hl.
    rewrite IH; [reflexivity | exact Hrest | cbn [List.length] in Hlen; lia].
Qed.

Lemma map_combine_left {A B C} (F : A -> B -> C) (h : A -> C) :
  forall (old : list A) (values : list B),
    List.length values = List.length old ->
    (forall a b, In a old -> F a b = h a) ->
    map (fun rv => F (fst rv) (snd rv)) (combine old values) = map h old.
Proof.
  induction old as [|a old IH]; intros [|b values] Hlen HF; try discriminate Hlen;
    [reflexivity|].
  cbn [combine map fst snd]. rewrite (HF a b (or_introl eq_refl)). f_equal.
  apply IH; [cbn [List.length] in Hlen; lia|].
  intros a' b' Ha'. apply HF. right. exact Ha'.
Qed.

Lemma combine_map_left {A B} (upd : A -> B -> A) :
  forall (old : list A) (values : list B),
    List.length values = List.length old ->
    combine (map (fun rv => upd (fst rv) (snd rv)) (combine old values)) values
    = map (fun rv => (upd (fst rv) (snd rv), snd rv)) (combine old values).
Proof.
  induction old as [|a old IH]; intros [|b values] Hlen; try discriminate Hlen;
    [reflexivity|].
  cbn [combine map fst snd]. f_equal. apply IH. cbn [List.length] in Hlen. lia.
Qed.

Lemma Ok_inj {A} (a b : A) : Ok a = Ok b -> a = b.
Proof. intros H. injection H as ->. reflexivity. Qed.

(** The frame after [df["market_id"] = ...], written out. *)
Lemma add_market_id_frame (df : DataFrame) :
  well_formed df ->
  let values := market_ids (df_len df) in
  List.length values = List.length (rows df)
  /\ add_market_id df
     = Ok (if existsb (String.eqb "market_id") (columns df)
           then {| columns := columns df;
                   rows := map (fun rv => row_replace (columns df) (fst rv)
                                            "market_id" (Some (snd rv)))
                               (combine (rows df) values) |}
           else {| columns := columns df ++ ["market_id"];
                   rows := map (fun rv => fst rv ++ [Some (snd rv)])
                               (combine (rows df) values) |}).
Proof.
  intros Hwf values.
  assert (Hlen : List.length values = List.length (rows df)).
  { unfold values. rewrite market_ids_length. unfold df_len. apply Nat2Z.id. }
  split; [exact Hlen|]. unfold add_market_id, df_setitem. fold values.
  assert (Hold : match rows df, values with
                 | [], _ :: _ => map (fun _ => map (fun _ => None) (columns df)) values
                 | _, _ => rows df
                 end = rows df).
  { destruct (rows df) as [|r rs] eqn:Er; [|reflexivity].
    destruct values; [reflexivity | discriminate Hlen]. }
  rewrite Hold, (proj2 (Nat.eqb_eq _ _) Hlen).
  destruct (existsb (String.eqb "market_id") (columns df)); reflexivity.
Qed.

Lemma add_market_id_well_formed (df df' : DataFrame) :
  well_formed df -> add_market_id df = Ok df' -> well_formed df'.
Proof.
  intros Hwf Hrun. destruct (add_market_id_frame df Hwf) as [Hlen Hframe].
  rewrite Hframe in Hrun. clear Hframe.
  unfold well_formed in *. rewrite Forall_forall in *.
  apply Ok_inj in Hrun. subst df'.
  destruct (existsb (String.eqb "market_id") (columns df)); cbn [columns rows];
    intros row Hrow; apply in_map_iff in Hrow; destruct Hrow as ([r v] & <- & Hin);
    apply in_combine_l in Hin; cbn [fst snd].
  - rewrite row_replace_length. apply Hwf. exact Hin.
  - rewrite !length_app. cbn [List.length]. rewrite (Hwf r Hin). reflexivity.
Qed.

(** X14. Assigning [market_id] leaves the rest of the frame as it was:
    the column is appended after the existing ones (or takes the place of
    a column of that name), the number of rows is the same, and under
    every other label every row reads the cell it had. *)
Theorem X14_market_id_leaves_other_columns_alone (df : DataFrame) :
  well_formed df ->
  exists df',
    add_market_id df = Ok df'
    /\ well_formed df'
    /\ columns df' = (if existsb (String.eqb "market_id") (columns df)
                      then columns df else columns df ++ ["market_id"])
    /\ List.length (rows df') = List.length (rows df)
    /\ (forall label, label <> "market_id" ->
          map (fun row => row_cell (columns df') row label) (rows df')
          = map (fun row => row_cell (columns df) row label) (rows df)).
Proof.
  intros Hwf. destruct (add_market_id_frame df Hwf) as [Hlen Hframe].
  eexists. split; [exact Hframe|].
  split; [exact (add_market_id_well_formed df _ Hwf Hframe)|].
  unfold well_formed in Hwf. rewrite Forall_forall in Hwf.
  destruct (existsb (String.eqb "market_id") (columns df)); cbn [columns rows].
  - split; [reflexivity|]. split.
    + rewrite length_map, length_combine, Hlen. apply Nat.min_id.
    + intros label Hne. rewrite map_map.
      apply (map_combine_left
               (fun row v => row_cell (columns df)
                               (row_replace (columns df) row "market_id" (Some v)) label)
               (fun row => row_cell (columns df) row label)); [exact Hlen|].
      intros row v _. apply row_cell_replace_other. exact Hne.
  - split; [reflexivity|]. split.
    + rewrite length_map, length_combine, Hlen. apply Nat.min_id.
    + intros label Hne. rewrite map_map.
      apply (map_combine_left
               (fun row v => row_cell (columns df ++ ["market_id"])
                               (row ++ [Some v]) label)
               (fun row => row_cell (columns df) row label)); [exact Hlen|].
      intros row v Hin. apply row_cell_append_other; [exact Hne | exact (Hwf row Hin)].
Qed.

Lemma X14_witness :
  exists df',
    add_market_id housing_data = Ok df'
    /\ well_formed df'
    /\ columns df' = (if existsb (String.eqb "market_id") (columns housing_data)
                      then columns housing_data
                      else columns housing_data ++ ["market_id"])
    /\ List.length (rows df') = List.length (rows housing_data)
    /\ (forall label, label <> "market_id" ->
          map (fun row => row_cell (columns df') row label) (rows df')
          = map (fun row => row_cell (columns housing_data) row label)
                (rows housing_data)).
Proof.
  exact (X14_market_id_leaves_other_columns_alone housing_data
           housing_data_well_formed).
Defined.

(** X15. Running the assignment of [market_id] again changes nothing:
    the frame it returns is a fixed point. *)
Theorem X15_market_id_assignment_is_idempotent (df df' : DataFrame) :
  well_formed df -> add_market_id df = Ok df' -> add_market_id df' = Ok df'.
Proof.
  intros Hwf Hrun.
  pose proof (add_market_id_well_formed df df' Hwf Hrun) as Hwf'.
  destruct (add_market_id_frame df Hwf) as [Hlen Hframe].
  destruct (add_market_id_frame df' Hwf') as [Hlen' Hframe'].
  rewrite Hframe'. f_equal.
  rewrite Hframe in Hrun. apply Ok_inj in Hrun. rename Hrun into Hdf'.
  assert (Hrows : List.length (rows df') = List.length (rows df)).
  { rewrite <- Hdf'.
    destruct (existsb (String.eqb "market_id") (columns df)); cbn [rows];
      rewrite length_map, length_combine, Hlen; apply Nat.min_id. }
  assert (Hvalues : market_ids (df_len df') = market_ids (df_len df)).
  { unfold df_len. rewrite Hrows. reflexivity. }
  rewrite Hvalues. unfold well_formed in Hwf. rewrite Forall_forall in Hwf.
  destruct (existsb (String.eqb "market_id") (columns df)) eqn:Hex; subst df';
    cbn [columns rows].
  - rewrite Hex. f_equal.
    rewrite (combine_map_left
               (fun row v => row_replace (columns df) row "market_id" (Some v))
               _ _ Hlen).
    rewrite map_map.
    cbn [fst snd]. apply map_ext. intros [row v]. cbn [fst snd].
    apply row_replace_twice.
  - assert (Hnow : existsb (String.eqb "market_id") (columns df ++ ["market_id"])
                   = true).
    { rewrite existsb_app. cbn [existsb]. rewrite String.eqb_refl.
      rewrite orb_true_r. reflexivity. }
    rewrite Hnow. f_equal.
    rewrite (combine_map_left (fun row v => row ++ [Some v]) _ _ Hlen).
    rewrite map_map.
    cbn [fst snd]. apply map_ext_in. intros [row v] Hin. cbn [fst snd].
    apply row_replace_appended; [exact Hex|].
    apply Hwf. exact (in_combine_l _ _ _ _ Hin).
Qed.

Lemma X15_witness :
  exists df',
    add_market_id housing_data = Ok df' /\ add_market_id df' = Ok df'.
Proof.
  eexists. split; [reflexivity|].
  exact (X15_market_id_assignment_is_idempotent housing_data _
           housing_data_well_formed eq_refl).
Defined.

Lemma row_cell_present (labels : list string) (label : string) :
  In label labels ->
  forall row, List.length row = List.length labels ->
              exists c, row_cell labels row label = Some c.
Proof.
  induction labels as [|l labels IH]; intros Hin [|c row] Hlen;
    try destruct Hin; try discriminate Hlen; cbn [row_cell].
  - subst l. rewrite String.eqb_refl. eauto.
  - destruct (String.eqb l label); [eauto|].
    apply IH; [assumption | cbn [List.length] in Hlen; lia].
Qed.

Lemma row_cell_absent (labels : list string) (label : string) :
  ~ In label labels -> forall row, row_cell labels row label = None.
Proof.
  induction labels as [|l labels IH]; intros Hnot [|c row]; try reflexivity.
  cbn [row_cell]. destruct (String.eqb_spec l label) as [->|Hne].
  - exfalso. apply Hnot. left. reflexivity.
  - apply IH. intros H. apply Hnot. right. exact H.
Qed.

Ltac read_attr labels row name :=
  let E := fresh "E" in
  destruct (row_cell labels row name) eqn:E; cbn [result_bind]; [|reflexivity].

(** [house_item] needs all ten attributes: when the row lacks one of
    them the object is not built. *)
Lemma house_item_raises (labels : list string) (row : list (option pyval))
    (label : string) :
  In label housing_market_labels -> row_cell labels row label = None ->
  house_item labels row = Raise AttributeError.
Proof.
  intros Hin Hnone. unfold house_item, row_attr.
  read_attr labels row "market_id". read_attr labels row "price".
  read_attr labels row "bedrooms". read_attr labels row "bathrooms".
  read_attr labels row "estate_agent_code".
  read_attr labels row "transport_link_code".
  read_attr labels row "council_tax". read_attr labels row "freehold".
  read_attr labels row "garage". read_attr labels row "parking".
  exfalso. cbn [housing_market_labels In] in Hin.
  repeat (destruct Hin as [<- | Hin]; [congruence|]). exact Hin.
Qed.

Lemma house_item_builds (labels : list string) (row : list (option pyval)) :
  (forall label, In label housing_market_labels ->
                 exists c, row_cell labels row label = Some c) ->
  exists o, house_item labels row = Ok o
            /\ forall label, In label housing_market_labels ->
                             house_field o label = row_cell labels row label.
Proof.
  intros H.
  assert (Hin : forall label, In label housing_market_labels ->
                              In label housing_market_labels) by auto.
  cbn [housing_market_labels In] in Hin.
  destruct (H "market_id" ltac:(cbn; tauto)) as [c0 E0].
  destruct (H "price" ltac:(cbn; tauto)) as [c1 E1].
  destruct (H "bedrooms" ltac:(cbn; tauto)) as [c2 E2].
  destruct (H "bathrooms" ltac:(cbn; tauto)) as [c3 E3].
  destruct (H "estate_agent_code" ltac:(cbn; tauto)) as [c4 E4].
  destruct (H "transport_link_code" ltac:(cbn; tauto)) as [c5 E5].
  destruct (H "council_tax" ltac:(cbn; tauto)) as [c6 E6].
  destruct (H "freehold" ltac:(cbn; tauto)) as [c7 E7].
  destruct (H "garage" ltac:(cbn; tauto)) as [c8 E8].
  destruct (H "parking" ltac:(cbn; tauto)) as [c9 E9].
  unfold house_item, row_attr.
  rewrite E0, E1, E2, E3, E4, E5, E6, E7, E8, E9. cbn [result_bind].
  eexists. split; [reflexivity|].
  intros label Hl. cbn [housing_market_labels In] in Hl.
  repeat (destruct Hl as [<- | Hl]; [symmetry; assumption|]). destruct Hl.
Qed.

Lemma result_map_all_ok {A B} (f : A -> result B) (Q : A -> B -> Prop) (l : list A) :
  Forall (fun x => exists y, f x = Ok y /\ Q x y) l ->
  exists ys, result_map f l = Ok ys /\ Forall2 Q l ys.
Proof.
  induction 1 as [|x l (y & Hy & HQ) _ (ys & Hys & HF)]; cbn [result_map].
  - exists []. split; [reflexivity | constructor].
  - exists (y :: ys). rewrite Hy, Hys. split; [reflexivity | constructor; assumption].
Qed.

(** X16. When the frame has all ten attributes of the table as columns,
    the loop over its rows builds one [HousingMarket] object per row, in
    order, and each object carries under every attribute the cell that
    its row has in that column. *)
Theorem X16_one_object_per_row (df : DataFrame) :
  well_formed df ->
  (forall label, In label housing_market_labels -> In label (columns df)) ->
  exists objs,
    db_rows df = Ok objs
    /\ List.length objs = List.length (rows df)
    /\ (forall label, In label housing_market_labels ->
          map (fun o => house_field o label) objs
          = map (fun row => row_cell (columns df) row label) (rows df)).
Proof.
  intros Hwf Hcols. unfold db_rows.
  destruct (result_map_all_ok (house_item (columns df))
              (fun row o => forall label, In label housing_market_labels ->
                              house_field o label = row_cell (columns df) row label)
              (rows df)) as (objs & Hrun & Hall).
  - unfold well_formed in Hwf. rewrite Forall_forall in *. intros row Hrow.
    apply house_item_builds. intros label Hl.
    apply row_cell_present; [exact (Hcols label Hl) | exact (Hwf row Hrow)].
  - exists objs. split; [exact Hrun|]. split.
    + exact (result_map_length _ _ _ Hrun).
    + intros label Hl. clear Hrun. induction Hall as [|row o rs os Ho _ IH];
        [reflexivity|].
      cbn [map]. rewrite (Ho label Hl), IH. reflexivity.
Qed.

Lemma X16_witness :
  exists df' objs,
    add_market_id housing_data = Ok df'
    /\ db_rows df' = Ok objs
    /\ List.length objs = List.length (rows df')
    /\ (forall label, In label housing_market_labels ->
          map (fun o => house_field o label) objs
          = map (fun row => row_cell (columns df') row label) (rows df')).
Proof.
  eexists. 
  assert (H : well_formed
                {| columns := columns housing_data ++ ["market_id"];
                   rows := map (fun rv => fst rv ++ [Some (snd rv)])
                               (combine (rows housing_data) (market_ids 2)) |}).
  { repeat constructor. }
  destruct (X16_one_object_per_row _ H) as (objs & Hrun & Hrest).
  - intros label Hl. cbn [housing_market_labels In] in Hl.
    repeat (destruct Hl as [<- | Hl]; [cbn; tauto|]). destruct Hl.
  - exists objs. split; [reflexivity|]. split; [exact Hrun | exact Hrest].
Defined.

(** X17. When a frame with at least one row lacks one of the ten
    attributes, the loop raises [AttributeError] on the first row and no
    object is handed to the session. *)
Theorem X17_missing_column_raises_attribute_error
    (df : DataFrame) (label : string) :
  rows df <> [] -> In label housing_market_labels -> ~ In label (columns df) ->
  db_rows df = Raise AttributeError.
Proof.
  intros Hrows Hl Hmissing. unfold db_rows.
  destruct (rows df) as [|row rs]; [congruence|]. cbn [result_map].
  rewrite (house_item_raises (columns df) row label Hl
             (row_cell_absent _ _ Hmissing row)).
  reflexivity.
Qed.

Lemma X17_witness : db_rows housing_data = Raise AttributeError.
Proof.
  refine (X17_missing_column_raises_attribute_error housing_data "market_id" _ _ _).
  - discriminate.
  - cbn; tauto.
  - cbn [housing_data columns In]. intuition discriminate.
Defined.

(** X18. [drop_tables] swallows nothing but [OperationalError]: an
    exception of any other kind that executing the statement raises is
    what the caller gets, and when the statement succeeds the call
    returns normally. *)
Theorem X18_drop_tables_passes_other_errors_on
    (E : Engine) (table_name : string) (w : world) :
  let run := execute (String.append "drop table " table_name) (fst w) in
  (forall e, fst run = Raise e ->
             (forall msg, e <> OperationalError msg) ->
             fst (drop_tables table_name w) = Raise e)
  /\ (forall u, fst run = Ok u -> fst (drop_tables table_name w) = Ok tt).
Proof.
  cbv zeta. unfold drop_tables.
  destruct (execute (String.append "drop table " table_name) (fst w)) as [[u|e] c];
    cbn [fst snd].
  - split; [intros e He; discriminate He | intros u' _; reflexivity].
  - split; [|intros u Hu; discriminate Hu].
    intros e' He Hne. injection He as <-.
    destruct e; cbn [fst]; try reflexivity.
    exfalso. exact (Hne msg eq_refl).
Qed.

Lemma X18_witness :
  fst (drop_tables (E := closed_engine) "housing_market" (tt, ["earlier"]))
  = Raise (OtherDatabaseError "drop table housing_market")
  /\ fst (drop_tables (E := tables_engine) "housing_market"
           (["housing_market"], ["earlier"]))
     = Ok tt.
Proof.
  split.
  - refine (proj1 (X18_drop_tables_passes_other_errors_on closed_engine
                     "housing_market" (tt, ["earlier"]))
              (OtherDatabaseError "drop table housing_market") eq_refl _).
    intros msg. discriminate.
  - exact (proj2 (X18_drop_tables_passes_other_errors_on tables_engine
                    "housing_market" (["housing_market"], ["earlier"]))
             tt eq_refl).
Defined.

(* ================================================================== *)
(** * Row counts that are not positive, and the estate agents          *)
(* ================================================================== *)

Section NoRows.
Context {R : Randomness}.

Lemma housing_cols_loop_size (cols : list string)
  (housing_config : dict (dict pyval)) (n m : Z) :
Z.to_nat n = Z.to_nat m ->
forall df_cols g,
  housing_cols_loop cols housing_config n df_cols g
  = housing_cols_loop cols housing_config m df_cols g.
Proof.
intros Hnm. induction cols as [|col rest IH]; intros df_cols g; [reflexivity|].
cbn [housing_cols_loop]. unfold bind. rewrite Hnm.
destruct (lift (dict_getitem housing_config col) g) as [[a|e] g1]; [|reflexivity].
destruct (column_values (Z.to_nat m) a g1) as [[vs|e] g2]; [|reflexivity].
apply IH.
Qed.

End NoRows.

(** X19. A row count that is zero or negative is not an error for
    either builder: the dataset has no rows, nothing is drawn, and the
    rules of the configuration are not looked at, so that even a
    configuration that would fail yields this empty dataset. *)
Theorem X19_no_rows_for_a_count_below_one
    (R : Randomness) (tiered flat : dict (dict pyval)) (row_size : Z) (g : rng) :
  row_size <= 0 ->
  generate_housing_df tiered row_size g = (Ok {| columns := []; rows := [] |}, g)
  /\ (NoDup (dict_keys flat) ->
      generate_housing_data_df flat row_size g
      = (Ok {| columns := dict_keys flat; rows := [] |}, g)).
Proof.
  intros Hle.
  assert (Hz : Z.to_nat row_size = O) by lia. split.
  - unfold generate_housing_df. rewrite Hz. reflexivity.
  - intros Hnd. rewrite <- (generate_housing_data_df_zero flat g Hnd).
    unfold generate_housing_data_df, bind.
    rewrite (housing_cols_loop_size _ _ row_size 0 Hz). reflexivity.
Qed.

Lemma housing_without_min_keys : NoDup (dict_keys housing_without_min).
Proof.
  repeat (constructor; [cbn [In]; intuition discriminate|]). constructor.
Qed.

Lemma X19_witness :
  generate_housing_df (R := lcg) housing_tiered (-3) (seed 42)
  = (Ok {| columns := []; rows := [] |}, seed 42)
  /\ generate_housing_data_df (R := lcg) housing_without_min (-3) (seed 42)
     = (Ok {| columns := ["bedrooms"; "area"]; rows := [] |}, seed 42).
Proof.
  pose proof (X19_no_rows_for_a_count_below_one lcg housing_tiered
                housing_without_min (-3) (seed 42) ltac:(lia)) as H.
  split; [exact (proj1 H) | exact (proj2 H housing_without_min_keys)].
Defined.

Lemma int_dict_get_nodup {V} (d : list (Z * V)) :
  NoDup (map fst d) ->
  forall kv, In kv d -> int_dict_get d (fst kv) = Some (snd kv).
Proof.
  induction d as [|[k0 v0] d IH]; cbn [map fst]; intros Hnd kv Hin; [destruct Hin|].
  inversion Hnd as [|? ? Hnotin Hnd']; subst. cbn [int_dict_get].
  destruct Hin as [<- | Hin]; cbn [fst snd].
  - rewrite Z.eqb_refl. reflexivity.
  - destruct (Z.eqb_spec k0 (fst kv)) as [E|Hne].
    + exfalso. apply Hnotin. rewrite E. apply in_map. exact Hin.
    + apply IH; assumption.
Qed.

(** X20. For a mapping with distinct codes, the loop over the estate
    agents builds one object per entry, in order, with the code and the
    name of that entry: no name is missing and no code occurs twice. *)
Theorem X20_one_estate_agent_per_code (mapping : list (Z * string)) :
  NoDup (map fst mapping) ->
  estate_agent_rows mapping
  = map (fun kv => {| EstageAgentCodes.estate_agent_code := fst kv;
                      EstageAgentCodes.estate_agent_string := Some (snd kv) |})
        mapping
  /\ NoDup (map EstageAgentCodes.estate_agent_code (estate_agent_rows mapping)).
Proof.
  intros Hnd. pose proof (int_dict_get_nodup mapping Hnd) as Hget. split.
  - unfold estate_agent_rows. rewrite map_map. apply map_ext_in.
    intros kv Hin. rewrite (Hget kv Hin). reflexivity.
  - unfold estate_agent_rows. rewrite map_map. cbn [EstageAgentCodes.estate_agent_code].
    rewrite map_id. exact Hnd.
Qed.

Lemma X20_witness :
  estate_agent_rows estate_agent_mapping
  = map (fun kv => {| EstageAgentCodes.estate_agent_code := fst kv;
                      EstageAgentCodes.estate_agent_string := Some (snd kv) |})
        estate_agent_mapping
  /\ NoDup (map EstageAgentCodes.estate_agent_code
                (estate_agent_rows estate_agent_mapping)).
Proof.
  apply X20_one_estate_agent_per_code.
  repeat (constructor; [cbn [In]; intuition discriminate|]). constructor.
Defined.
